(** * ESP32 + PN5180 + e-paper firmware: a shallow embedding of the NFC path

    Two programs of the repository are embedded here.

    - [Sketch]: the Arduino sketch [nfc_display.ino]: the UID validators
      [validate4ByteUID], [validate7ByteUID], [validate10ByteUID], the
      reader [readCard], the NFC branch of [loop] with [updateDisplay],
      and the button interrupts and handlers with the button block of
      [loop].
    - [PN5180]: the ESP-IDF driver component: the bus transport of
      [pn5180_spi.c], the callback setters and the error texts of
      [pn5180.c], and the state machine and command handlers of the
      state-machine source.

    Integers of the C code are [Z] with their wrap-around written out,
    byte buffers are [list Z].  An access through a pointer is a partial
    read or write of the list that stands for the memory behind the
    pointer: [None] is an access outside that memory, which C leaves
    undefined.  Loops that poll the hardware take a [fuel] bound and give
    [None] when it runs out. *)

From Stdlib Require Import ZArith List String Ascii Bool Lia.
Import ListNotations.
Open Scope Z_scope.

(** ** Partial computations *)

Definition bind {A B : Type} (m : option A) (k : A -> option B) : option B :=
  match m with
  | Some a => k a
  | None => None
  end.

Notation "x <- m ;; k" := (bind m (fun x => k))
  (at level 61, m at next level, right associativity).
Notation "' p <- m ;; k" := (bind m (fun x => let p := x in k))
  (at level 61, p pattern, m at next level, right associativity).

(** [load mem i] is [mem[i]]; [store mem i v] is [mem[i] = v]. *)
Definition load (mem : list Z) (i : nat) : option Z := nth_error mem i.

Fixpoint store (mem : list Z) (i : nat) (v : Z) : option (list Z) :=
  match mem, i with
  | [], _ => None
  | _ :: rest, O => Some (v :: rest)
  | b :: rest, S i' =>
      match store rest i' v with
      | Some rest' => Some (b :: rest')
      | None => None
      end
  end.

(** ** The sketch [nfc_display.ino] *)

Module Sketch.

(** The loop
    [for (byteIndex = from; byteIndex < from + count; byteIndex++)
       if (uid[byteIndex] != v) { flag = false; break; }]
    with [flag] initially true: the bytes after the first mismatch are
    not read. *)
Fixpoint all_bytes_are (uid : list Z) (v : Z) (byteIndex count : nat)
  : option bool :=
  match count with
  | O => Some true
  | S count' =>
      b <- load uid byteIndex ;;
      if b =? v then all_bytes_are uid v (S byteIndex) count'
      else Some false
  end.

Definition validate4ByteUID (uid : list Z) : option bool :=
  u0 <- load uid 0 ;;
  if (u0 =? 0x00) || (u0 =? 0x88) then Some false else
  allZero <- all_bytes_are uid 0x00 0 4 ;;
  if allZero then Some false else
  allFF <- all_bytes_are uid 0xFF 0 4 ;;
  if allFF then Some false else
  Some true.

Definition validate7ByteUID (uid : list Z) : option bool :=
  u3 <- load uid 3 ;;
  if negb (u3 =? 0x88) then Some false else
  last3AllZero <- all_bytes_are uid 0x00 4 3 ;;
  if last3AllZero then Some false else
  last3AllFF <- all_bytes_are uid 0xFF 4 3 ;;
  if last3AllFF then Some false else
  u0 <- load uid 0 ;;
  if u0 =? 0x00 then Some false else
  Some true.

Definition validate10ByteUID (uid : list Z) : option bool :=
  allZero <- all_bytes_are uid 0x00 0 10 ;;
  if allZero then Some false else
  allFF <- all_bytes_are uid 0xFF 0 10 ;;
  if allFF then Some false else
  Some true.

(** The reader object [nfc] of the library class [PN5180ISO14443].  Its
    method [activateTypeA(buffer, kind)] belongs to the PN5180 library,
    outside the sketch: it is a field of the environment.  It gives the
    returned [int8_t] and the memory found at [buffer] after the call. *)
Record PN5180ISO14443 : Type := {
  activateTypeA : list Z -> Z -> Z * list Z
}.

(** [for (byteIndex = 0; byteIndex < count; byteIndex++)
       uidBuffer[byteIndex] = responseBuffer[3 + byteIndex];] *)
Fixpoint copy_uid (responseBuffer uidBuffer : list Z) (byteIndex count : nat)
  : option (list Z) :=
  match count with
  | O => Some uidBuffer
  | S count' =>
      b <- load responseBuffer (3 + byteIndex) ;;
      uidBuffer' <- store uidBuffer byteIndex b ;;
      copy_uid responseBuffer uidBuffer' (S byteIndex) count'
  end.

Definition isValidSAK (sakValue : Z) : bool :=
  match sakValue with
  | 0x00 | 0x08 | 0x09 | 0x10 | 0x11
  | 0x18 | 0x20 | 0x28 | 0x88 | 0x89 => true
  | _ => false
  end.

(** [readCard(uidBuffer)]: the result is the returned [int8_t] and the
    caller's buffer after the call. *)
Definition readCard (nfc : PN5180ISO14443) (uidBuffer : list Z)
  : option (Z * list Z) :=
  let responseBuffer := repeat 0xFF 10 in
  let '(rawResponseLength, responseBuffer) :=
    activateTypeA nfc responseBuffer 0 in
  if rawResponseLength <=? 0 then Some (rawResponseLength, uidBuffer) else
  if negb (rawResponseLength =? 4) && negb (rawResponseLength =? 7)
     && negb (rawResponseLength =? 10)
  then Some (-3, uidBuffer) else
  b1 <- load responseBuffer 1 ;;
  b0 <- load responseBuffer 0 ;;
  let atqaValue := (Z.lor (Z.shiftl b1 8) b0) mod 65536 in
  if (atqaValue =? 0x0000) || (atqaValue =? 0xFFFF)
  then Some (-3, uidBuffer) else
  sakValue <- load responseBuffer 2 ;;
  if negb (isValidSAK sakValue) then Some (-3, uidBuffer) else
  if rawResponseLength =? 4 then
    ok <- validate4ByteUID (skipn 3 responseBuffer) ;;
    if negb ok then Some (-3, uidBuffer) else
    uidBuffer' <- copy_uid responseBuffer uidBuffer 0 4 ;;
    Some (4, uidBuffer')
  else if rawResponseLength =? 7 then
    ok <- validate7ByteUID (skipn 3 responseBuffer) ;;
    if negb ok then Some (-3, uidBuffer) else
    uidBuffer' <- copy_uid responseBuffer uidBuffer 0 7 ;;
    Some (7, uidBuffer')
  else if rawResponseLength =? 10 then
    ok <- validate10ByteUID (skipn 3 responseBuffer) ;;
    if negb ok then Some (-3, uidBuffer) else
    uidBuffer' <- copy_uid responseBuffer uidBuffer 0 10 ;;
    Some (10, uidBuffer')
  else Some (-3, uidBuffer).

(** *** The globals of the sketch that the NFC branch reads or writes *)

Inductive SystemMode : Type := MODE_NFC | MODE_WIFI.
Inductive WifiSubMode : Type := WIFI_SUB_NONE | WIFI_SUB_SCAN | WIFI_SUB_MANUAL.

Record globals : Type := {
  currentMode : SystemMode;
  lastDisplayedMode : SystemMode;
  currentWifiSubMode : WifiSubMode;
  lastWifiSubMode : WifiSubMode;
  displayUpdateRequired : bool;
  lastUID : string;
  cardDetected : bool
}.

(** What one pass of [loop] does to the outside, in order. *)
Inductive effect : Type :=
| SerialPrint (s : string)
| NfcReset
| NfcSetupRF
| Delay (ms : Z)
| ShowUIDSmall (uid : string)
| DisplayNoCardScreen
| DisplayWifiMainMenu
| DisplayScanWifiScreen
| DisplayManualConnectScreen.

Definition SystemMode_eqb (a b : SystemMode) : bool :=
  match a, b with
  | MODE_NFC, MODE_NFC | MODE_WIFI, MODE_WIFI => true
  | _, _ => false
  end.

Definition WifiSubMode_eqb (a b : WifiSubMode) : bool :=
  match a, b with
  | WIFI_SUB_NONE, WIFI_SUB_NONE
  | WIFI_SUB_SCAN, WIFI_SUB_SCAN
  | WIFI_SUB_MANUAL, WIFI_SUB_MANUAL => true
  | _, _ => false
  end.

(** [String(value, HEX)]: lower-case digits, no leading zero. *)
Definition hex_digit (d : Z) : ascii :=
  if d <? 10 then ascii_of_nat (48 + Z.to_nat d)
  else ascii_of_nat (87 + Z.to_nat d).

Definition String_HEX (value : Z) : string :=
  if value <? 16 then String (hex_digit value) EmptyString
  else String (hex_digit (value / 16))
         (String (hex_digit (value mod 16)) EmptyString).

Definition toUpper (c : ascii) : ascii :=
  let n := nat_of_ascii c in
  if (Nat.leb 97 n && Nat.leb n 122)%bool then ascii_of_nat (n - 32) else c.

Fixpoint toUpperCase (s : string) : string :=
  match s with
  | EmptyString => EmptyString
  | String c rest => String (toUpper c) (toUpperCase rest)
  end.

(** The loop of [loop] that prints the identifier into [newUID]. *)
Fixpoint format_uid (uidBuffer : list Z) (uidLength : Z)
  (byteIndex count : nat) (newUID : string) : option string :=
  match count with
  | O => Some newUID
  | S count' =>
      b <- load uidBuffer byteIndex ;;
      let newUID := if b <? 0x10 then (newUID ++ "0")%string else newUID in
      let newUID := (newUID ++ String_HEX b)%string in
      let newUID :=
        if Z.of_nat byteIndex <? uidLength - 1 then (newUID ++ " ")%string
        else newUID in
      format_uid uidBuffer uidLength (S byteIndex) count' newUID
  end.

Definition set_card (g : globals) (detected : bool) (uid : string)
  (update : bool) : globals :=
  {| currentMode := currentMode g;
     lastDisplayedMode := lastDisplayedMode g;
     currentWifiSubMode := currentWifiSubMode g;
     lastWifiSubMode := lastWifiSubMode g;
     displayUpdateRequired := update;
     lastUID := uid;
     cardDetected := detected |}.

(** The [switch (currentMode)] block of [loop]. *)
Definition loop_mode_processing (nfc : PN5180ISO14443) (g : globals)
  : option (globals * list effect) :=
  match currentMode g with
  | MODE_NFC =>
      let uidBuffer := repeat 0 10 in
      '(uidLength, uidBuffer) <- readCard nfc uidBuffer ;;
      if 0 <? uidLength then
        newUID <- format_uid uidBuffer uidLength 0 (Z.to_nat uidLength) "" ;;
        let newUID := toUpperCase newUID in
        if negb (cardDetected g) || negb (String.eqb newUID (lastUID g)) then
          Some (set_card g true newUID true,
                [SerialPrint "Card detected: "; SerialPrint newUID; Delay 200])
        else Some (g, [Delay 200])
      else if uidLength <? 0 then
        let recover :=
          if (uidLength =? -2) || (uidLength =? -3)
          then [NfcReset; Delay 50; NfcSetupRF; Delay 100] else [] in
        if cardDetected g then
          Some (set_card g false (lastUID g) true,
                recover ++ [SerialPrint "Card removed"; Delay 200])
        else Some (g, recover ++ [Delay 200])
      else
        if cardDetected g then
          Some (set_card g false "" true,
                [SerialPrint "Card removed"; Delay 200])
        else Some (g, [Delay 200])
  | MODE_WIFI => Some (g, [Delay 100])
  end.

Definition updateDisplay (g : globals) : globals * list effect :=
  if negb (displayUpdateRequired g)
     && SystemMode_eqb (currentMode g) (lastDisplayedMode g)
     && WifiSubMode_eqb (currentWifiSubMode g) (lastWifiSubMode g)
  then (g, [])
  else
    let screen :=
      match currentMode g with
      | MODE_NFC =>
          if cardDetected g then ShowUIDSmall (lastUID g)
          else DisplayNoCardScreen
      | MODE_WIFI =>
          match currentWifiSubMode g with
          | WIFI_SUB_NONE => DisplayWifiMainMenu
          | WIFI_SUB_SCAN => DisplayScanWifiScreen
          | WIFI_SUB_MANUAL => DisplayManualConnectScreen
          end
      end in
    ({| currentMode := currentMode g;
        lastDisplayedMode := currentMode g;
        currentWifiSubMode := currentWifiSubMode g;
        lastWifiSubMode := currentWifiSubMode g;
        displayUpdateRequired := false;
        lastUID := lastUID g;
        cardDetected := cardDetected g |}, [screen]).

(** [loop] after its button block: the mode block, then [updateDisplay]. *)
Definition loop_body (nfc : PN5180ISO14443) (g : globals)
  : option (globals * list effect) :=
  '(g1, e1) <- loop_mode_processing nfc g ;;
  let '(g2, e2) := updateDisplay g1 in
  Some (g2, e1 ++ e2).

(** The effects by which a detected card reaches the user. *)
Definition is_card_event (e : effect) : bool :=
  match e with
  | ShowUIDSmall _ => true
  | SerialPrint s => String.eqb s "Card detected: "
  | _ => false
  end.

(** The response passed every check of [readCard] for the length [r]. *)
Definition passed_all_checks (r : Z) (responseBuffer : list Z) : Prop :=
  exists b0 b1 s,
    load responseBuffer 0 = Some b0 /\
    load responseBuffer 1 = Some b1 /\
    load responseBuffer 2 = Some s /\
    (Z.lor (Z.shiftl b1 8) b0) mod 65536 <> 0x0000 /\
    (Z.lor (Z.shiftl b1 8) b0) mod 65536 <> 0xFFFF /\
    isValidSAK s = true /\
    ((r = 4 /\ validate4ByteUID (skipn 3 responseBuffer) = Some true) \/
     (r = 7 /\ validate7ByteUID (skipn 3 responseBuffer) = Some true) \/
     (r = 10 /\ validate10ByteUID (skipn 3 responseBuffer) = Some true)).

(** *** Buttons and menus

    The globals that the button interrupts and the button handlers use,
    around the [globals] of the NFC branch.  [millis] is an
    [unsigned long] of 32 bits; the menu selections are [int]. *)

Record sketch : Type := {
  vars : globals;
  systemReady : bool;
  modeButtonPressed : bool;
  modeButtonLongPressed : bool;
  modeButtonPressTime : Z;
  selectButtonPressed : bool;
  selectButtonPressTime : Z;
  lastSelectDebounceTime : Z;
  wifiMenuSelection : Z;
  scanWifiSelection : Z;
  manualInputField : Z
}.

Definition LONG_PRESS_DURATION : Z := 1000.
Definition SELECT_DEBOUNCE_TIME : Z := 200.
Definition MAX_WIFI_NETWORKS : Z := 5.

Definition wifiNetworks : list string :=
  ["Me Select S"; "Me Select IT"; "Qinef"; "Free_WiFi"; ""]%string.

Definition ulong (x : Z) : Z := x mod 2^32.

Definition set_vars (s : sketch) (g : globals) : sketch :=
  {| vars := g; systemReady := systemReady s;
     modeButtonPressed := modeButtonPressed s;
     modeButtonLongPressed := modeButtonLongPressed s;
     modeButtonPressTime := modeButtonPressTime s;
     selectButtonPressed := selectButtonPressed s;
     selectButtonPressTime := selectButtonPressTime s;
     lastSelectDebounceTime := lastSelectDebounceTime s;
     wifiMenuSelection := wifiMenuSelection s;
     scanWifiSelection := scanWifiSelection s;
     manualInputField := manualInputField s |}.

Definition set_mode_button (s : sketch) (pressed longPressed : bool)
  (pressTime : Z) : sketch :=
  {| vars := vars s; systemReady := systemReady s;
     modeButtonPressed := pressed;
     modeButtonLongPressed := longPressed;
     modeButtonPressTime := pressTime;
     selectButtonPressed := selectButtonPressed s;
     selectButtonPressTime := selectButtonPressTime s;
     lastSelectDebounceTime := lastSelectDebounceTime s;
     wifiMenuSelection := wifiMenuSelection s;
     scanWifiSelection := scanWifiSelection s;
     manualInputField := manualInputField s |}.

Definition set_select_button (s : sketch) (pressed : bool)
  (pressTime debounceTime : Z) : sketch :=
  {| vars := vars s; systemReady := systemReady s;
     modeButtonPressed := modeButtonPressed s;
     modeButtonLongPressed := modeButtonLongPressed s;
     modeButtonPressTime := modeButtonPressTime s;
     selectButtonPressed := pressed;
     selectButtonPressTime := pressTime;
     lastSelectDebounceTime := debounceTime;
     wifiMenuSelection := wifiMenuSelection s;
     scanWifiSelection := scanWifiSelection s;
     manualInputField := manualInputField s |}.

Definition set_selections (s : sketch) (menu scan field : Z) : sketch :=
  {| vars := vars s; systemReady := systemReady s;
     modeButtonPressed := modeButtonPressed s;
     modeButtonLongPressed := modeButtonLongPressed s;
     modeButtonPressTime := modeButtonPressTime s;
     selectButtonPressed := selectButtonPressed s;
     selectButtonPressTime := selectButtonPressTime s;
     lastSelectDebounceTime := lastSelectDebounceTime s;
     wifiMenuSelection := menu;
     scanWifiSelection := scan;
     manualInputField := field |}.

(** The mode, the submode and the update flag of [globals]. *)
Definition set_mode (g : globals) (mode : SystemMode) (sub : WifiSubMode)
  (update : bool) : globals :=
  {| currentMode := mode;
     lastDisplayedMode := lastDisplayedMode g;
     currentWifiSubMode := sub;
     lastWifiSubMode := lastWifiSubMode g;
     displayUpdateRequired := update;
     lastUID := lastUID g;
     cardDetected := cardDetected g |}.

(** [handleModeButtonInterrupt], run on both edges of the mode button:
    [currentTime] is [millis()], [pinLow] is
    [digitalRead(MODE_BUTTON_PIN) == LOW]. *)
Definition handleModeButtonInterrupt (currentTime : Z) (pinLow : bool)
  (s : sketch) : sketch :=
  if pinLow then
    set_mode_button s (modeButtonPressed s) (modeButtonLongPressed s)
      currentTime
  else
    let pressDuration := ulong (currentTime - modeButtonPressTime s) in
    if 50 <? pressDuration then
      if LONG_PRESS_DURATION <=? pressDuration then
        set_mode_button s (modeButtonPressed s) true (modeButtonPressTime s)
      else
        set_mode_button s true (modeButtonLongPressed s)
          (modeButtonPressTime s)
    else s.

(** [handleSelectButtonInterrupt], run on the falling edge of the select
    button. *)
Definition handleSelectButtonInterrupt (currentTime : Z) (pinLow : bool)
  (s : sketch) : sketch :=
  if SELECT_DEBOUNCE_TIME <? ulong (currentTime - lastSelectDebounceTime s)
  then
    if pinLow then set_select_button s true currentTime currentTime
    else
      set_select_button s (selectButtonPressed s) (selectButtonPressTime s)
        currentTime
  else s.

Definition handleModeButtonPress (s : sketch) : sketch * list effect :=
  if negb (systemReady s) then (s, []) else
  let g := vars s in
  match currentMode g with
  | MODE_NFC =>
      (set_vars s (set_mode g MODE_WIFI WIFI_SUB_NONE true),
       [SerialPrint "Mode switched to: WiFi"])
  | MODE_WIFI =>
      if negb (WifiSubMode_eqb (currentWifiSubMode g) WIFI_SUB_NONE) then
        (set_vars s (set_mode g MODE_WIFI WIFI_SUB_NONE true),
         [SerialPrint "Exited WiFi sub menu"])
      else
        (set_vars s (set_mode g MODE_NFC (currentWifiSubMode g) true),
         [SerialPrint "Mode switched to: NFC"])
  end.

Definition handleModeButtonLongPress (s : sketch) : sketch * list effect :=
  if negb (systemReady s) then (s, []) else
  let g := vars s in
  if SystemMode_eqb (currentMode g) MODE_WIFI
     && WifiSubMode_eqb (currentWifiSubMode g) WIFI_SUB_NONE
  then
    if wifiMenuSelection s =? 0 then
      (set_vars s (set_mode g (currentMode g) WIFI_SUB_SCAN true),
       [SerialPrint "Entered Scan WiFi mode"])
    else
      (set_vars s (set_mode g (currentMode g) WIFI_SUB_MANUAL true),
       [SerialPrint "Entered Manual Connect mode"])
  else (s, []).

(** [handleSelectButtonPress]; [None] is a read of [wifiNetworks]
    outside the array.  [%] is the remainder of C. *)
Definition handleSelectButtonPress (s : sketch)
  : option (sketch * list effect) :=
  if negb (systemReady s) then Some (s, []) else
  let g := vars s in
  match currentMode g with
  | MODE_WIFI =>
      let g' := set_mode g (currentMode g) (currentWifiSubMode g) true in
      match currentWifiSubMode g with
      | WIFI_SUB_NONE =>
          let menu := Z.rem (wifiMenuSelection s + 1) 2 in
          Some (set_vars
                  (set_selections s menu (scanWifiSelection s)
                     (manualInputField s)) g',
                [SerialPrint "WiFi menu selection: ";
                 SerialPrint (if menu =? 0 then "Scan WiFi"
                              else "Manual Connect")])
      | WIFI_SUB_SCAN =>
          let scan := Z.rem (scanWifiSelection s + 1) MAX_WIFI_NETWORKS in
          if scan <? 0 then None else
          match nth_error wifiNetworks (Z.to_nat scan) with
          | None => None
          | Some name =>
              Some (set_vars
                      (set_selections s (wifiMenuSelection s) scan
                         (manualInputField s)) g',
                    [SerialPrint "Selected WiFi: "; SerialPrint name])
          end
      | WIFI_SUB_MANUAL =>
          let field := Z.rem (manualInputField s + 1) 2 in
          Some (set_vars
                  (set_selections s (wifiMenuSelection s)
                     (scanWifiSelection s) field) g',
                [SerialPrint "Manual input field: ";
                 SerialPrint (if field =? 0 then "SSID" else "Password")])
      end
  | MODE_NFC => Some (s, [])
  end.

(** The button block of [loop]. *)
Definition loop_buttons (s : sketch) : option (sketch * list effect) :=
  let '(s, e1) :=
    if modeButtonPressed s then
      handleModeButtonPress
        (set_mode_button s false (modeButtonLongPressed s)
           (modeButtonPressTime s))
    else (s, []) in
  let '(s, e2) :=
    if modeButtonLongPressed s then
      handleModeButtonLongPress
        (set_mode_button s (modeButtonPressed s) false
           (modeButtonPressTime s))
    else (s, []) in
  '(s, e3) <-
    (if selectButtonPressed s then
       handleSelectButtonPress
         (set_select_button s false (selectButtonPressTime s)
            (lastSelectDebounceTime s))
     else Some (s, [])) ;;
  Some (s, e1 ++ e2 ++ e3).

(** One pass of [loop]: the button block, the mode block and
    [updateDisplay]. *)
Definition loop (nfc : PN5180ISO14443) (s : sketch)
  : option (sketch * list effect) :=
  '(s, e1) <- loop_buttons s ;;
  '(g, e2) <- loop_body nfc (vars s) ;;
  Some (set_vars s g, e1 ++ e2).

(** A ready sketch in NFC mode, for the examples. *)
Definition example_sketch : sketch :=
  {| vars := {| currentMode := MODE_NFC; lastDisplayedMode := MODE_NFC;
                currentWifiSubMode := WIFI_SUB_NONE;
                lastWifiSubMode := WIFI_SUB_NONE;
                displayUpdateRequired := false; lastUID := "";
                cardDetected := false |};
     systemReady := true;
     modeButtonPressed := false; modeButtonLongPressed := false;
     modeButtonPressTime := 0;
     selectButtonPressed := false; selectButtonPressTime := 0;
     lastSelectDebounceTime := 0;
     wifiMenuSelection := 0; scanWifiSelection := 0;
     manualInputField := 0 |}.

(** A reader that finds the MIFARE card [DE AD BE EF], for the
    examples. *)
Definition example_reader : PN5180ISO14443 :=
  {| activateTypeA := fun _ _ =>
       (4, [0x04; 0x00; 0x08; 0xDE; 0xAD; 0xBE; 0xEF; 0xFF; 0xFF; 0xFF]) |}.

End Sketch.

(** ** The ESP-IDF driver component *)

Module PN5180.

Definition u8 (x : Z) : Z := x mod 2^8.
Definition u16 (x : Z) : Z := x mod 2^16.
Definition u32 (x : Z) : Z := x mod 2^32.

(** *** [pn5180_types.h] *)

Inductive pn5180_error_t : Type :=
| PN5180_OK
| PN5180_ERR_INVALID_ARG
| PN5180_ERR_TIMEOUT
| PN5180_ERR_CRC
| PN5180_ERR_AUTH
| PN5180_ERR_PROTOCOL
| PN5180_ERR_BUFFER
| PN5180_ERR_SPI
| PN5180_ERR_NO_TAG
| PN5180_ERR_MULTIPLE_TAGS
| PN5180_ERR_HARDWARE
| PN5180_ERR_NOT_INIT
| PN5180_ERR_BUSY
| PN5180_ERR_RF_FIELD
| PN5180_ERR_EEPROM
| PN5180_ERR_UNSUPPORTED.

Definition is_ok (e : pn5180_error_t) : bool :=
  match e with
  | PN5180_OK => true
  | _ => false
  end.

(** [pn5180_protocol_t]: the driver keeps the protocol in a [uint8_t]
    index and does arithmetic on it, so the enumerators are numbers. *)
Definition PN5180_PROTOCOL_ISO14443A : Z := 0.
Definition PN5180_PROTOCOL_ISO14443B : Z := 1.
Definition PN5180_PROTOCOL_ISO15693 : Z := 2.
Definition PN5180_PROTOCOL_NFCIP1 : Z := 3.
Definition PN5180_PROTOCOL_FELICA : Z := 4.
Definition PN5180_PROTOCOL_COUNT : Z := 5.

Record pn5180_card_info_t : Type := {
  uid : list Z;
  uid_len : Z;
  protocol : Z;
  sak : Z;
  atqa : Z;
  dsfid : Z;
  afi : Z;
  block_size : Z;
  block_count : Z;
  timestamp : Z;
  rssi : Z
}.

Record pn5180_rf_config_t : Type := {
  rx_gain : Z;
  tx_power : Z;
  modulation_depth : Z;
  iq_threshold : Z;
  antenna_tuning : Z
}.

(** *** [pn5180_config.h] *)

Definition CONFIG_PN5180_SPI_TIMEOUT_MS : Z := 100.
Definition CONFIG_PN5180_BUSY_TIMEOUT_MS : Z := 100.
Definition CONFIG_PN5180_DETECT_TIMEOUT_14443A_MS : Z := 2.
Definition CONFIG_PN5180_DETECT_TIMEOUT_14443B_MS : Z := 2.
Definition CONFIG_PN5180_DETECT_TIMEOUT_15693_MS : Z := 5.
Definition CONFIG_PN5180_TX_BUFFER_SIZE : Z := 1024.
Definition CONFIG_PN5180_RX_BUFFER_SIZE : Z := 1024.
Definition CONFIG_PN5180_DEBUG_LEVEL : Z := 2.
Definition CONFIG_PN5180_SCAN_CYCLE_DELAY_MS : Z := 1.

(** *** [pn5180_registers.h] *)

Definition PN5180_REG_IRQ_ENABLE : Z := 0x01.
Definition PN5180_REG_IRQ_STATUS : Z := 0x02.
Definition PN5180_REG_RF_CONTROL : Z := 0x05.
Definition PN5180_REG_RF_STATUS : Z := 0x10.
Definition PN5180_REG_RX_CONF1 : Z := 0x1A.
Definition PN5180_REG_RX_CONF3 : Z := 0x1C.
Definition PN5180_REG_TX_CONF1 : Z := 0x1F.
Definition PN5180_REG_ISO14443A_TX_DRIVER : Z := 0x2C.
Definition PN5180_REG_ISO15693_TX_DRIVER : Z := 0x2E.
Definition PN5180_REG_TX_DATA : Z := 0x40.
Definition PN5180_REG_RX_DATA : Z := 0x41.
Definition PN5180_REG_TX_LENGTH_LSB : Z := 0x42.
Definition PN5180_REG_TX_LENGTH_MSB : Z := 0x43.

Definition PN5180_IRQ_STATUS_TX_DONE : Z := Z.shiftl 1 1.
Definition PN5180_IRQ_STATUS_RX_DONE : Z := Z.shiftl 1 2.
Definition PN5180_IRQ_STATUS_RX_ERROR : Z := Z.shiftl 1 3.
Definition PN5180_IRQ_STATUS_TX_ERROR : Z := Z.shiftl 1 4.
Definition PN5180_RF_CONTROL_FIELD_ON : Z := Z.shiftl 1 7.
Definition PN5180_RF_STATUS_RSSI_MASK : Z := 0x1F.
Definition PN5180_RX_CONF1_GAIN_SEL_MASK : Z := Z.shiftl 0x7 0.
Definition PN5180_RX_CONF1_BW_SEL_POS : Z := 3.
Definition PN5180_RX_BW_1_8MHZ : Z := 0x00.
Definition PN5180_RX_CONF3_MIN_MOD_DEPTH_POS : Z := 0.
Definition PN5180_RX_CONF3_IQ_DET_THR_POS : Z := 4.
Definition PN5180_TX_CONF1_BITRATE_SEL_POS : Z := 0.
Definition PN5180_TX_BITRATE_106KBPS : Z := 0x00.
Definition PN5180_TX_CONF1_MOD_TYPE_POS : Z := 2.
Definition PN5180_TX_MOD_100_PERCENT_ASK : Z := 0x00.
Definition PN5180_TX_MOD_10_PERCENT_ASK : Z := 0x01.
Definition PN5180_TX_DRIVER_STRENGTH_MASK : Z := 0x0F.
Definition PN5180_SPI_WRITE_MASK : Z := 0x80.

(** [esp_err_t] of ESP-IDF. *)
Definition ESP_OK : Z := 0.
Definition ESP_ERR_TIMEOUT : Z := 0x107.

(** *** [pn5180_private.h] *)

Inductive pn5180_device_state_t : Type :=
| DEVICE_STATE_UNINITIALIZED
| DEVICE_STATE_RESETTING
| DEVICE_STATE_IDLE
| DEVICE_STATE_CONFIGURING
| DEVICE_STATE_SCANNING
| DEVICE_STATE_TRANSMITTING
| DEVICE_STATE_RECEIVING
| DEVICE_STATE_PROCESSING
| DEVICE_STATE_ERROR
| DEVICE_STATE_SLEEP
| DEVICE_STATE_WAKING_UP.

(** [struct pn5180_dev_t], the fields the embedded functions use.  A
    function pointer or [void *] is its address, [0] for [NULL]. *)
Record pn5180_dev_t : Type := {
  spi_device : Z;
  state : pn5180_device_state_t;
  state_timestamp : Z;
  rf_config : pn5180_rf_config_t;
  scanning_enabled : bool;
  enabled_protocols : Z;
  current_protocol_index : Z;
  last_scan_time : Z;
  card_callback : Z;
  error_callback : Z;
  log_callback : Z;
  callback_user_data : Z;
  tx_length : Z;
  rx_length : Z;
  total_scans : Z;
  cards_detected : Z;
  busy_wait_start_time : Z
}.

Definition set_state (d : pn5180_dev_t) (v : pn5180_device_state_t) :=
  {| spi_device := spi_device d; state := v;
     state_timestamp := state_timestamp d; rf_config := rf_config d;
     scanning_enabled := scanning_enabled d;
     enabled_protocols := enabled_protocols d;
     current_protocol_index := current_protocol_index d;
     last_scan_time := last_scan_time d; card_callback := card_callback d;
     error_callback := error_callback d; log_callback := log_callback d;
     callback_user_data := callback_user_data d; tx_length := tx_length d;
     rx_length := rx_length d; total_scans := total_scans d;
     cards_detected := cards_detected d;
     busy_wait_start_time := busy_wait_start_time d |}.

Definition set_state_timestamp (d : pn5180_dev_t) (v : Z) :=
  {| spi_device := spi_device d; state := state d;
     state_timestamp := v; rf_config := rf_config d;
     scanning_enabled := scanning_enabled d;
     enabled_protocols := enabled_protocols d;
     current_protocol_index := current_protocol_index d;
     last_scan_time := last_scan_time d; card_callback := card_callback d;
     error_callback := error_callback d; log_callback := log_callback d;
     callback_user_data := callback_user_data d; tx_length := tx_length d;
     rx_length := rx_length d; total_scans := total_scans d;
     cards_detected := cards_detected d;
     busy_wait_start_time := busy_wait_start_time d |}.

Definition set_scanning_enabled (d : pn5180_dev_t) (v : bool) :=
  {| spi_device := spi_device d; state := state d;
     state_timestamp := state_timestamp d; rf_config := rf_config d;
     scanning_enabled := v;
     enabled_protocols := enabled_protocols d;
     current_protocol_index := current_protocol_index d;
     last_scan_time := last_scan_time d; card_callback := card_callback d;
     error_callback := error_callback d; log_callback := log_callback d;
     callback_user_data := callback_user_data d; tx_length := tx_length d;
     rx_length := rx_length d; total_scans := total_scans d;
     cards_detected := cards_detected d;
     busy_wait_start_time := busy_wait_start_time d |}.

Definition set_enabled_protocols (d : pn5180_dev_t) (v : Z) :=
  {| spi_device := spi_device d; state := state d;
     state_timestamp := state_timestamp d; rf_config := rf_config d;
     scanning_enabled := scanning_enabled d;
     enabled_protocols := v;
     current_protocol_index := current_protocol_index d;
     last_scan_time := last_scan_time d; card_callback := card_callback d;
     error_callback := error_callback d; log_callback := log_callback d;
     callback_user_data := callback_user_data d; tx_length := tx_length d;
     rx_length := rx_length d; total_scans := total_scans d;
     cards_detected := cards_detected d;
     busy_wait_start_time := busy_wait_start_time d |}.

Definition set_current_protocol_index (d : pn5180_dev_t) (v : Z) :=
  {| spi_device := spi_device d; state := state d;
     state_timestamp := state_timestamp d; rf_config := rf_config d;
     scanning_enabled := scanning_enabled d;
     enabled_protocols := enabled_protocols d;
     current_protocol_index := v;
     last_scan_time := last_scan_time d; card_callback := card_callback d;
     error_callback := error_callback d; log_callback := log_callback d;
     callback_user_data := callback_user_data d; tx_length := tx_length d;
     rx_length := rx_length d; total_scans := total_scans d;
     cards_detected := cards_detected d;
     busy_wait_start_time := busy_wait_start_time d |}.

Definition set_last_scan_time (d : pn5180_dev_t) (v : Z) :=
  {| spi_device := spi_device d; state := state d;
     state_timestamp := state_timestamp d; rf_config := rf_config d;
     scanning_enabled := scanning_enabled d;
     enabled_protocols := enabled_protocols d;
     current_protocol_index := current_protocol_index d;
     last_scan_time := v; card_callback := card_callback d;
     error_callback := error_callback d; log_callback := log_callback d;
     callback_user_data := callback_user_data d; tx_length := tx_length d;
     rx_length := rx_length d; total_scans := total_scans d;
     cards_detected := cards_detected d;
     busy_wait_start_time := busy_wait_start_time d |}.

Definition set_card_callback (d : pn5180_dev_t) (v : Z) :=
  {| spi_device := spi_device d; state := state d;
     state_timestamp := state_timestamp d; rf_config := rf_config d;
     scanning_enabled := scanning_enabled d;
     enabled_protocols := enabled_protocols d;
     current_protocol_index := current_protocol_index d;
     last_scan_time := last_scan_time d; card_callback := v;
     error_callback := error_callback d; log_callback := log_callback d;
     callback_user_data := callback_user_data d; tx_length := tx_length d;
     rx_length := rx_length d; total_scans := total_scans d;
     cards_detected := cards_detected d;
     busy_wait_start_time := busy_wait_start_time d |}.

Definition set_error_callback (d : pn5180_dev_t) (v : Z) :=
  {| spi_device := spi_device d; state := state d;
     state_timestamp := state_timestamp d; rf_config := rf_config d;
     scanning_enabled := scanning_enabled d;
     enabled_protocols := enabled_protocols d;
     current_protocol_index := current_protocol_index d;
     last_scan_time := last_scan_time d; card_callback := card_callback d;
     error_callback := v; log_callback := log_callback d;
     callback_user_data := callback_user_data d; tx_length := tx_length d;
     rx_length := rx_length d; total_scans := total_scans d;
     cards_detected := cards_detected d;
     busy_wait_start_time := busy_wait_start_time d |}.

Definition set_log_callback (d : pn5180_dev_t) (v : Z) :=
  {| spi_device := spi_device d; state := state d;
     state_timestamp := state_timestamp d; rf_config := rf_config d;
     scanning_enabled := scanning_enabled d;
     enabled_protocols := enabled_protocols d;
     current_protocol_index := current_protocol_index d;
     last_scan_time := last_scan_time d; card_callback := card_callback d;
     error_callback := error_callback d; log_callback := v;
     callback_user_data := callback_user_data d; tx_length := tx_length d;
     rx_length := rx_length d; total_scans := total_scans d;
     cards_detected := cards_detected d;
     busy_wait_start_time := busy_wait_start_time d |}.

Definition set_callback_user_data (d : pn5180_dev_t) (v : Z) :=
  {| spi_device := spi_device d; state := state d;
     state_timestamp := state_timestamp d; rf_config := rf_config d;
     scanning_enabled := scanning_enabled d;
     enabled_protocols := enabled_protocols d;
     current_protocol_index := current_protocol_index d;
     last_scan_time := last_scan_time d; card_callback := card_callback d;
     error_callback := error_callback d; log_callback := log_callback d;
     callback_user_data := v; tx_length := tx_length d;
     rx_length := rx_length d; total_scans := total_scans d;
     cards_detected := cards_detected d;
     busy_wait_start_time := busy_wait_start_time d |}.

Definition set_tx_length (d : pn5180_dev_t) (v : Z) :=
  {| spi_device := spi_device d; state := state d;
     state_timestamp := state_timestamp d; rf_config := rf_config d;
     scanning_enabled := scanning_enabled d;
     enabled_protocols := enabled_protocols d;
     current_protocol_index := current_protocol_index d;
     last_scan_time := last_scan_time d; card_callback := card_callback d;
     error_callback := error_callback d; log_callback := log_callback d;
     callback_user_data := callback_user_data d; tx_length := v;
     rx_length := rx_length d; total_scans := total_scans d;
     cards_detected := cards_detected d;
     busy_wait_start_time := busy_wait_start_time d |}.

Definition set_rx_length (d : pn5180_dev_t) (v : Z) :=
  {| spi_device := spi_device d; state := state d;
     state_timestamp := state_timestamp d; rf_config := rf_config d;
     scanning_enabled := scanning_enabled d;
     enabled_protocols := enabled_protocols d;
     current_protocol_index := current_protocol_index d;
     last_scan_time := last_scan_time d; card_callback := card_callback d;
     error_callback := error_callback d; log_callback := log_callback d;
     callback_user_data := callback_user_data d; tx_length := tx_length d;
     rx_length := v; total_scans := total_scans d;
     cards_detected := cards_detected d;
     busy_wait_start_time := busy_wait_start_time d |}.

Definition set_total_scans (d : pn5180_dev_t) (v : Z) :=
  {| spi_device := spi_device d; state := state d;
     state_timestamp := state_timestamp d; rf_config := rf_config d;
     scanning_enabled := scanning_enabled d;
     enabled_protocols := enabled_protocols d;
     current_protocol_index := current_protocol_index d;
     last_scan_time := last_scan_time d; card_callback := card_callback d;
     error_callback := error_callback d; log_callback := log_callback d;
     callback_user_data := callback_user_data d; tx_length := tx_length d;
     rx_length := rx_length d; total_scans := v;
     cards_detected := cards_detected d;
     busy_wait_start_time := busy_wait_start_time d |}.

Definition set_cards_detected (d : pn5180_dev_t) (v : Z) :=
  {| spi_device := spi_device d; state := state d;
     state_timestamp := state_timestamp d; rf_config := rf_config d;
     scanning_enabled := scanning_enabled d;
     enabled_protocols := enabled_protocols d;
     current_protocol_index := current_protocol_index d;
     last_scan_time := last_scan_time d; card_callback := card_callback d;
     error_callback := error_callback d; log_callback := log_callback d;
     callback_user_data := callback_user_data d; tx_length := tx_length d;
     rx_length := rx_length d; total_scans := total_scans d;
     cards_detected := v;
     busy_wait_start_time := busy_wait_start_time d |}.

Definition set_busy_wait_start_time (d : pn5180_dev_t) (v : Z) :=
  {| spi_device := spi_device d; state := state d;
     state_timestamp := state_timestamp d; rf_config := rf_config d;
     scanning_enabled := scanning_enabled d;
     enabled_protocols := enabled_protocols d;
     current_protocol_index := current_protocol_index d;
     last_scan_time := last_scan_time d; card_callback := card_callback d;
     error_callback := error_callback d; log_callback := log_callback d;
     callback_user_data := callback_user_data d; tx_length := tx_length d;
     rx_length := rx_length d; total_scans := total_scans d;
     cards_detected := cards_detected d;
     busy_wait_start_time := v |}.

(** *** The world outside the driver

    The state of what the driver talks to: the millisecond clock behind
    [esp_timer_get_time], the level of the BUSY pin as a function of
    time, the SPI mutex, the bus with the chip behind it, and the record
    of what the driver did to the outside, newest first. *)

Inductive spi_transaction_t : Type :=
| SpiTx (tx_buffer : list Z)
| SpiRx (length_bytes : Z).

Inductive event : Type :=
| Spi (trans : spi_transaction_t) (err : Z) (rx : list Z)
| CardCallback (fn : Z) (card : pn5180_card_info_t) (user_data : Z)
| LogCallback (fn : Z) (format : string) (user_data : Z)
| EspLog (level : Z) (format : string).

Record world : Type := {
  clock_ms : Z;
  busy_level : Z -> bool;
  spi_mutex_held : bool;
  spi_device_transmit : list event -> spi_transaction_t -> Z * list Z;
  trace : list event
}.

(** [vTaskDelay(pdMS_TO_TICKS(ms))]: the clock moves on by [ms]; in this
    model time passes in delays only. *)
Definition vTaskDelay (ms : Z) (w : world) : world :=
  {| clock_ms := clock_ms w + ms;
     busy_level := busy_level w;
     spi_mutex_held := spi_mutex_held w;
     spi_device_transmit := spi_device_transmit w;
     trace := trace w |}.

Definition emit (e : event) (w : world) : world :=
  {| clock_ms := clock_ms w;
     busy_level := busy_level w;
     spi_mutex_held := spi_mutex_held w;
     spi_device_transmit := spi_device_transmit w;
     trace := e :: trace w |}.

(** *** [pn5180.c] *)

Definition pn5180_get_tick_ms (w : world) : Z := u32 (clock_ms w).

Definition pn5180_log_internal (dev : pn5180_dev_t) (level : Z)
  (format : string) (w : world) : world :=
  if CONFIG_PN5180_DEBUG_LEVEL <? level then w else
  if negb (log_callback dev =? 0) then
    emit (LogCallback (log_callback dev) format (callback_user_data dev)) w
  else
    match level with
    | 1 | 2 | 3 => emit (EspLog level format) w
    | _ => w
    end.

(** The device mutex is taken with [portMAX_DELAY] and given back before
    each return; one thread runs in this model, so it is always free. *)
Definition pn5180_set_card_callback (dev : pn5180_dev_t)
  (callback user_data : Z) : pn5180_dev_t :=
  set_callback_user_data (set_card_callback dev callback) user_data.

Definition pn5180_set_error_callback (dev : pn5180_dev_t)
  (callback user_data : Z) : pn5180_dev_t :=
  set_callback_user_data (set_error_callback dev callback) user_data.

Definition pn5180_set_log_callback (dev : pn5180_dev_t)
  (callback user_data : Z) : pn5180_dev_t :=
  set_callback_user_data (set_log_callback dev callback) user_data.

(** *** [pn5180_spi.c] *)

Definition pn5180_is_busy_active (w : world) : bool :=
  busy_level w (clock_ms w).

(** The [while (pn5180_is_busy_active(dev))] loop of [pn5180_wait_busy]. *)
Fixpoint wait_busy_loop (fuel : nat) (dev : pn5180_dev_t)
  (start_time timeout_ms : Z) (w : world)
  : option (pn5180_error_t * world) :=
  match fuel with
  | O => None
  | S fuel' =>
      if pn5180_is_busy_active w then
        if timeout_ms <? u32 (pn5180_get_tick_ms w - start_time) then
          Some (PN5180_ERR_TIMEOUT,
                pn5180_log_internal dev 2 "BUSY timeout after %lu ms" w)
        else wait_busy_loop fuel' dev start_time timeout_ms (vTaskDelay 1 w)
      else Some (PN5180_OK, w)
  end.

Definition pn5180_wait_busy (fuel : nat) (dev : pn5180_dev_t)
  (timeout_ms : Z) (w : world) : option (pn5180_error_t * world) :=
  let start_time := pn5180_get_tick_ms w in
  wait_busy_loop fuel dev start_time timeout_ms w.

(** The result is the [esp_err_t], the receive buffer of the transaction
    and the world.  A mutex held by another task is waited for during
    [CONFIG_PN5180_SPI_TIMEOUT_MS].  The mutex of a world is free or
    taken for good: a mutex that is given back during the wait, with the
    wait for BUSY after it, is not in this model, and what is stated on
    time is stated for the mutex free. *)
Definition pn5180_spi_transaction (fuel : nat) (dev : pn5180_dev_t)
  (trans : spi_transaction_t) (w : world) : option (Z * list Z * world) :=
  if spi_mutex_held w then
    Some (ESP_ERR_TIMEOUT, [], vTaskDelay CONFIG_PN5180_SPI_TIMEOUT_MS w)
  else
    '(busy, w) <- pn5180_wait_busy fuel dev CONFIG_PN5180_BUSY_TIMEOUT_MS w ;;
    if negb (is_ok busy) then Some (ESP_ERR_TIMEOUT, [], w) else
    let '(err, rx) := spi_device_transmit w (trace w) trans in
    Some (err, rx, emit (Spi trans err rx) w).

Definition pn5180_write_register_internal (fuel : nat) (dev : pn5180_dev_t)
  (reg value : Z) (w : world) : option (pn5180_error_t * world) :=
  if spi_device dev =? 0 then Some (PN5180_ERR_NOT_INIT, w) else
  let tx_buffer :=
    [ Z.lor PN5180_SPI_WRITE_MASK (Z.land reg 0x7F);
      Z.land (Z.shiftr value 24) 0xFF;
      Z.land (Z.shiftr value 16) 0xFF;
      Z.land (Z.shiftr value 8) 0xFF;
      Z.land value 0xFF ] in
  '(err, _, w) <- pn5180_spi_transaction fuel dev (SpiTx tx_buffer) w ;;
  if negb (err =? ESP_OK) then Some (PN5180_ERR_SPI, w) else
  Some (PN5180_OK, w).

(** The result carries [*value]; it is meaningful on [PN5180_OK] only.
    On a failure the C function writes nothing to [*value]: the [0] of
    the result then stands for no value, no caller reads it and no
    statement is made of it.  The receive buffer starts as [{0}], so a
    byte the bus did not deliver reads as [0]. *)
Definition pn5180_read_register_internal (fuel : nat) (dev : pn5180_dev_t)
  (reg : Z) (w : world) : option (pn5180_error_t * Z * world) :=
  if spi_device dev =? 0 then Some (PN5180_ERR_INVALID_ARG, 0, w) else
  let tx_buffer := [Z.land reg 0x7F] in
  '(err, _, w) <- pn5180_spi_transaction fuel dev (SpiTx tx_buffer) w ;;
  if negb (err =? ESP_OK) then Some (PN5180_ERR_SPI, 0, w) else
  '(err, rx_buffer, w) <- pn5180_spi_transaction fuel dev (SpiRx 4) w ;;
  if negb (err =? ESP_OK) then Some (PN5180_ERR_SPI, 0, w) else
  let value :=
    u32 (Z.lor (Z.lor (Z.lor (Z.shiftl (nth 0 rx_buffer 0) 24)
                             (Z.shiftl (nth 1 rx_buffer 0) 16))
                      (Z.shiftl (nth 2 rx_buffer 0) 8))
               (nth 3 rx_buffer 0)) in
  Some (PN5180_OK, value, w).

Definition chunk_of (remaining : Z) : Z :=
  if 64 <? remaining then 64 else remaining.

(** The [while (offset < length)] loop of [pn5180_write_buffer]. *)
Fixpoint write_chunks (fuel : nat) (dev : pn5180_dev_t) (data : list Z)
  (offset length : Z) (w : world) : option (pn5180_error_t * world) :=
  match fuel with
  | O => None
  | S fuel' =>
      if offset <? length then
        let chunk_size := chunk_of (length - offset) in
        let tx_buffer :=
          firstn (Z.to_nat chunk_size) (skipn (Z.to_nat offset) data) in
        '(spi_err, _, w) <-
          pn5180_spi_transaction fuel' dev (SpiTx tx_buffer) w ;;
        if negb (spi_err =? ESP_OK) then Some (PN5180_ERR_SPI, w) else
        write_chunks fuel' dev data (offset + chunk_size) length w
      else Some (PN5180_OK, w)
  end.

Definition pn5180_write_buffer (fuel : nat) (dev : pn5180_dev_t)
  (data : list Z) (length : Z) (w : world)
  : option (pn5180_error_t * pn5180_dev_t * world) :=
  if (spi_device dev =? 0) || (length =? 0)
  then Some (PN5180_ERR_INVALID_ARG, dev, w) else
  if CONFIG_PN5180_TX_BUFFER_SIZE <? length
  then Some (PN5180_ERR_BUFFER, dev, w) else
  '(err, w) <-
    pn5180_write_register_internal fuel dev PN5180_REG_TX_DATA 0 w ;;
  if negb (is_ok err) then Some (err, dev, w) else
  '(err, w) <- write_chunks fuel dev data 0 length w ;;
  if negb (is_ok err) then Some (err, dev, w) else
  Some (PN5180_OK, set_tx_length dev (u16 length), w).

(** The [while (offset < bytes_to_read)] loop of [pn5180_read_buffer];
    [buffer] is what has been received so far.  A chunk shorter than
    asked for is filled up with [0]. *)
Fixpoint read_chunks (fuel : nat) (dev : pn5180_dev_t) (buffer : list Z)
  (offset bytes_to_read : Z) (w : world)
  : option (pn5180_error_t * list Z * Z * world) :=
  match fuel with
  | O => None
  | S fuel' =>
      if offset <? bytes_to_read then
        let chunk_size := chunk_of (bytes_to_read - offset) in
        '(spi_err, rx, w) <-
          pn5180_spi_transaction fuel' dev (SpiRx chunk_size) w ;;
        if negb (spi_err =? ESP_OK)
        then Some (PN5180_ERR_SPI, buffer, offset, w) else
        let n := Z.to_nat chunk_size in
        read_chunks fuel' dev (buffer ++ firstn n (rx ++ repeat 0 n))
          (offset + chunk_size) bytes_to_read w
      else Some (PN5180_OK, buffer, offset, w)
  end.

(** The result carries the bytes read and [*length] after the call. *)
Definition pn5180_read_buffer (fuel : nat) (dev : pn5180_dev_t)
  (length : Z) (w : world)
  : option (pn5180_error_t * list Z * Z * pn5180_dev_t * world) :=
  if spi_device dev =? 0
  then Some (PN5180_ERR_INVALID_ARG, [], length, dev, w) else
  '(err, w) <-
    pn5180_write_register_internal fuel dev PN5180_REG_RX_DATA 0 w ;;
  if negb (is_ok err) then Some (err, [], length, dev, w) else
  let bytes_to_read :=
    if CONFIG_PN5180_RX_BUFFER_SIZE <? length
    then CONFIG_PN5180_RX_BUFFER_SIZE else length in
  '(err, buffer, offset, w) <- read_chunks fuel dev [] 0 bytes_to_read w ;;
  if negb (is_ok err) then Some (err, buffer, length, dev, w) else
  Some (PN5180_OK, buffer, offset, set_rx_length dev (u16 offset), w).

Definition pn5180_write_tx_buffer_with_length (fuel : nat)
  (dev : pn5180_dev_t) (data : list Z) (length : Z) (w : world)
  : option (pn5180_error_t * pn5180_dev_t * world) :=
  '(err, dev, w) <- pn5180_write_buffer fuel dev data length w ;;
  if negb (is_ok err) then Some (err, dev, w) else
  '(err, w) <-
    pn5180_write_register_internal fuel dev PN5180_REG_TX_LENGTH_LSB
      (Z.land length 0xFF) w ;;
  if negb (is_ok err) then Some (err, dev, w) else
  '(err, w) <-
    pn5180_write_register_internal fuel dev PN5180_REG_TX_LENGTH_MSB
      (Z.land (Z.shiftr length 8) 0xFF) w ;;
  if negb (is_ok err) then Some (err, dev, w) else
  Some (PN5180_OK, dev, w).

(** *** The state machine and the command handlers *)

Definition detect_cmd_iso14443a : list Z := [0x26].
Definition detect_cmd_iso14443b : list Z := [0x05; 0x00].
Definition detect_cmd_iso15693 : list Z := [0x26; 0x01].

Definition pn5180_switch_protocol (fuel : nat) (dev : pn5180_dev_t)
  (protocol : Z) (w : world) : option (pn5180_error_t * world) :=
  if PN5180_PROTOCOL_COUNT <=? protocol
  then Some (PN5180_ERR_INVALID_ARG, w) else
  '(err, w) <-
    (if protocol =? PN5180_PROTOCOL_ISO14443A then
       '(err, w) <-
         pn5180_write_register_internal fuel dev PN5180_REG_TX_CONF1
           (Z.lor
              (Z.shiftl PN5180_TX_BITRATE_106KBPS
                 PN5180_TX_CONF1_BITRATE_SEL_POS)
              (Z.shiftl PN5180_TX_MOD_100_PERCENT_ASK
                 PN5180_TX_CONF1_MOD_TYPE_POS)) w ;;
       if negb (is_ok err) then Some (err, w) else
       pn5180_write_register_internal fuel dev PN5180_REG_ISO14443A_TX_DRIVER
         (Z.land (tx_power (rf_config dev)) PN5180_TX_DRIVER_STRENGTH_MASK) w
     else if protocol =? PN5180_PROTOCOL_ISO15693 then
       '(err, w) <-
         pn5180_write_register_internal fuel dev PN5180_REG_TX_CONF1
           (Z.lor
              (Z.shiftl 0x01 PN5180_TX_CONF1_BITRATE_SEL_POS)
              (Z.shiftl PN5180_TX_MOD_10_PERCENT_ASK
                 PN5180_TX_CONF1_MOD_TYPE_POS)) w ;;
       if negb (is_ok err) then Some (err, w) else
       pn5180_write_register_internal fuel dev PN5180_REG_ISO15693_TX_DRIVER
         (Z.land (tx_power (rf_config dev)) PN5180_TX_DRIVER_STRENGTH_MASK) w
     else Some (PN5180_ERR_UNSUPPORTED, w)) ;;
  if negb (is_ok err) then Some (err, w) else
  '(err, w) <-
    pn5180_write_register_internal fuel dev PN5180_REG_RX_CONF1
      (Z.lor
         (Z.land (rx_gain (rf_config dev)) PN5180_RX_CONF1_GAIN_SEL_MASK)
         (Z.shiftl PN5180_RX_BW_1_8MHZ PN5180_RX_CONF1_BW_SEL_POS)) w ;;
  if negb (is_ok err) then Some (err, w) else
  pn5180_write_register_internal fuel dev PN5180_REG_RX_CONF3
    (Z.lor
       (Z.shiftl (iq_threshold (rf_config dev))
          PN5180_RX_CONF3_IQ_DET_THR_POS)
       (Z.shiftl (modulation_depth (rf_config dev))
          PN5180_RX_CONF3_MIN_MOD_DEPTH_POS)) w.

Definition pn5180_send_detect_command (fuel : nat) (dev : pn5180_dev_t)
  (protocol : Z) (w : world)
  : option (pn5180_error_t * pn5180_dev_t * world) :=
  let cmd :=
    if protocol =? PN5180_PROTOCOL_ISO14443A then Some detect_cmd_iso14443a
    else if protocol =? PN5180_PROTOCOL_ISO15693 then Some detect_cmd_iso15693
    else None in
  match cmd with
  | None => Some (PN5180_ERR_UNSUPPORTED, dev, w)
  | Some cmd =>
      let cmd_len := Z.of_nat (List.length cmd) in
      if cmd_len =? 0 then Some (PN5180_ERR_INVALID_ARG, dev, w) else
      '(err, dev, w) <-
        pn5180_write_tx_buffer_with_length fuel dev cmd cmd_len w ;;
      if negb (is_ok err) then Some (err, dev, w) else
      '(err, w) <-
        pn5180_write_register_internal fuel dev PN5180_REG_IRQ_STATUS
          PN5180_IRQ_STATUS_TX_DONE w ;;
      if negb (is_ok err) then Some (err, dev, w) else
      Some (PN5180_OK, dev, w)
  end.

(** The [while (1)] loop of [pn5180_state_scanning] that looks for the
    next enabled protocol.  The result is whether the loop left through
    [break] (an enabled protocol was found) and the value of
    [dev->current_protocol_index] when it left.  The shift is the one of
    [Z]; the index is a [uint8_t]. *)
Fixpoint find_enabled_protocol (fuel : nat)
  (enabled_protocols start_index current_protocol_index : Z)
  : option (bool * Z) :=
  match fuel with
  | O => None
  | S fuel' =>
      if negb (Z.land enabled_protocols
                 (Z.shiftl 1 current_protocol_index) =? 0)
      then Some (true, current_protocol_index)
      else
        let index := u8 (current_protocol_index + 1) in
        let index := if PN5180_PROTOCOL_COUNT <=? index then 0 else index in
        if index =? start_index then Some (false, index)
        else find_enabled_protocol fuel' enabled_protocols start_index index
  end.

Definition pn5180_state_scanning (fuel : nat) (dev : pn5180_dev_t)
  (w : world) : option (pn5180_dev_t * world) :=
  if negb (scanning_enabled dev)
  then Some (set_state dev DEVICE_STATE_IDLE, w) else
  let current_time := pn5180_get_tick_ms w in
  if u32 (current_time - last_scan_time dev)
     <? CONFIG_PN5180_SCAN_CYCLE_DELAY_MS
  then Some (dev, w) else
  let start_index := current_protocol_index dev in
  '(found, index) <-
    find_enabled_protocol fuel (enabled_protocols dev) start_index
      (current_protocol_index dev) ;;
  let dev := set_current_protocol_index dev index in
  if negb found then Some (set_state dev DEVICE_STATE_IDLE, w) else
  '(err, w) <-
    pn5180_switch_protocol fuel dev (current_protocol_index dev) w ;;
  if negb (is_ok err) then
    let dev :=
      set_current_protocol_index dev (u8 (current_protocol_index dev + 1)) in
    Some (set_last_scan_time dev current_time, w)
  else
  '(err, dev, w) <-
    pn5180_send_detect_command fuel dev (current_protocol_index dev) w ;;
  if negb (is_ok err) then
    let dev :=
      set_current_protocol_index dev (u8 (current_protocol_index dev + 1)) in
    Some (set_last_scan_time dev current_time, w)
  else
  let dev := set_state dev DEVICE_STATE_TRANSMITTING in
  let dev := set_state_timestamp dev current_time in
  Some (set_total_scans dev (u32 (total_scans dev + 1)), w).

Definition rx_timeout_ms (current_protocol_index : Z) : Z :=
  match current_protocol_index with
  | 0 => CONFIG_PN5180_DETECT_TIMEOUT_14443A_MS
  | 1 => CONFIG_PN5180_DETECT_TIMEOUT_14443B_MS
  | 2 => CONFIG_PN5180_DETECT_TIMEOUT_15693_MS
  | _ => 5
  end.

Definition pn5180_state_transmitting (fuel : nat) (dev : pn5180_dev_t)
  (w : world) : option (pn5180_dev_t * world) :=
  '(err, irq_status, w) <-
    pn5180_read_register_internal fuel dev PN5180_REG_IRQ_STATUS w ;;
  if negb (is_ok err) then Some (set_state dev DEVICE_STATE_ERROR, w) else
  if negb (Z.land irq_status PN5180_IRQ_STATUS_TX_DONE =? 0) then
    '(_, w) <-
      pn5180_write_register_internal fuel dev PN5180_REG_IRQ_STATUS
        PN5180_IRQ_STATUS_TX_DONE w ;;
    let dev := set_state dev DEVICE_STATE_RECEIVING in
    let dev := set_state_timestamp dev (pn5180_get_tick_ms w) in
    let timeout_ms := rx_timeout_ms (current_protocol_index dev) in
    Some (set_busy_wait_start_time dev
            (u32 (pn5180_get_tick_ms w + timeout_ms)), w)
  else if negb (Z.land irq_status PN5180_IRQ_STATUS_TX_ERROR =? 0) then
    '(_, w) <-
      pn5180_write_register_internal fuel dev PN5180_REG_IRQ_STATUS
        PN5180_IRQ_STATUS_TX_ERROR w ;;
    let dev :=
      set_current_protocol_index dev (u8 (current_protocol_index dev + 1)) in
    Some (set_state dev DEVICE_STATE_SCANNING, w)
  else if 100 <? u32 (pn5180_get_tick_ms w - state_timestamp dev) then
    let dev :=
      set_current_protocol_index dev (u8 (current_protocol_index dev + 1)) in
    Some (set_state dev DEVICE_STATE_SCANNING, w)
  else Some (dev, w).

Definition card_info_zero : pn5180_card_info_t :=
  {| uid := repeat 0 10; uid_len := 0; protocol := 0; sak := 0; atqa := 0;
     dsfid := 0; afi := 0; block_size := 0; block_count := 0;
     timestamp := 0; rssi := 0 |}.

Definition set_card_header (c : pn5180_card_info_t) (p t : Z) :=
  {| uid := uid c; uid_len := uid_len c; protocol := p; sak := sak c;
     atqa := atqa c; dsfid := dsfid c; afi := afi c;
     block_size := block_size c; block_count := block_count c;
     timestamp := t; rssi := rssi c |}.

Definition set_rssi (c : pn5180_card_info_t) (v : Z) :=
  {| uid := uid c; uid_len := uid_len c; protocol := protocol c;
     sak := sak c; atqa := atqa c; dsfid := dsfid c; afi := afi c;
     block_size := block_size c; block_count := block_count c;
     timestamp := timestamp c; rssi := v |}.

Section Processing.

(** The two decoders are declared in [pn5180_private.h] and defined in
    no source file at hand: they are parameters.  They get the handle,
    the received bytes with their count and the card record, and give the
    error code and the card record; they are taken not to write to the
    handle. *)
Variable pn5180_process_iso14443a_response :
  pn5180_dev_t -> list Z -> Z -> pn5180_card_info_t ->
  pn5180_error_t * pn5180_card_info_t.
Variable pn5180_process_iso15693_response :
  pn5180_dev_t -> list Z -> Z -> pn5180_card_info_t ->
  pn5180_error_t * pn5180_card_info_t.

Definition pn5180_state_processing (fuel : nat) (dev : pn5180_dev_t)
  (w : world) : option (pn5180_dev_t * world) :=
  '(err, rx_buffer, rx_length, dev, w) <-
    pn5180_read_buffer fuel dev CONFIG_PN5180_RX_BUFFER_SIZE w ;;
  if negb (is_ok err) then Some (set_state dev DEVICE_STATE_SCANNING, w) else
  let card_info :=
    set_card_header card_info_zero (current_protocol_index dev)
      (pn5180_get_tick_ms w) in
  let '(err, card_info) :=
    if current_protocol_index dev =? PN5180_PROTOCOL_ISO14443A then
      pn5180_process_iso14443a_response dev rx_buffer rx_length card_info
    else if current_protocol_index dev =? PN5180_PROTOCOL_ISO15693 then
      pn5180_process_iso15693_response dev rx_buffer rx_length card_info
    else (PN5180_ERR_UNSUPPORTED, card_info) in
  '(dev, w) <-
    (if is_ok err then
       let dev := set_cards_detected dev (u32 (cards_detected dev + 1)) in
       '(rf_err, rf_status, w) <-
         pn5180_read_register_internal fuel dev PN5180_REG_RF_STATUS w ;;
       let card_info :=
         if is_ok rf_err
         then set_rssi card_info (Z.land rf_status PN5180_RF_STATUS_RSSI_MASK)
         else card_info in
       if negb (card_callback dev =? 0) then
         Some (dev, emit (CardCallback (card_callback dev) card_info
                            (callback_user_data dev)) w)
       else Some (dev, w)
     else Some (dev, w)) ;;
  let dev :=
    set_current_protocol_index dev (u8 (current_protocol_index dev + 1)) in
  let dev := set_state dev DEVICE_STATE_SCANNING in
  Some (set_last_scan_time dev (pn5180_get_tick_ms w), w).

End Processing.

Inductive pn5180_command_type_t : Type :=
| CMD_START_SCAN
| CMD_STOP_SCAN
| CMD_READ_UID
| CMD_READ_BLOCK
| CMD_WRITE_BLOCK
| CMD_AUTHENTICATE
| CMD_SLEEP
| CMD_WAKEUP
| CMD_RESET.

(** [pn5180_command_t], with the member of the union that the two scan
    handlers read. *)
Record pn5180_command_t : Type := {
  type : pn5180_command_type_t;
  start_scan_protocols : Z
}.

(** [cmd] is [None] for a [NULL] pointer. *)
Definition pn5180_cmd_start_scan (dev : pn5180_dev_t)
  (cmd : option pn5180_command_t) (w : world)
  : pn5180_error_t * pn5180_dev_t * world :=
  match cmd with
  | None => (PN5180_ERR_INVALID_ARG, dev, w)
  | Some cmd =>
      if scanning_enabled dev then (PN5180_OK, dev, w) else
      let dev := set_enabled_protocols dev (start_scan_protocols cmd) in
      let dev := set_scanning_enabled dev true in
      let dev := set_current_protocol_index dev 0 in
      let dev := set_state dev DEVICE_STATE_CONFIGURING in
      let dev := set_state_timestamp dev (pn5180_get_tick_ms w) in
      (PN5180_OK, dev, w)
  end.

Definition pn5180_cmd_stop_scan (fuel : nat) (dev : pn5180_dev_t)
  (cmd : option pn5180_command_t) (w : world)
  : option (pn5180_error_t * pn5180_dev_t * world) :=
  if negb (scanning_enabled dev) then Some (PN5180_OK, dev, w) else
  let dev := set_scanning_enabled dev false in
  '(err, rf_control, w) <-
    pn5180_read_register_internal fuel dev PN5180_REG_RF_CONTROL w ;;
  w <-
    (if is_ok err then
       let rf_control :=
         Z.land rf_control (Z.lnot PN5180_RF_CONTROL_FIELD_ON) in
       '(_, w) <-
         pn5180_write_register_internal fuel dev PN5180_REG_RF_CONTROL
           rf_control w ;;
       Some w
     else Some w) ;;
  Some (PN5180_OK, set_state dev DEVICE_STATE_IDLE, w).

(** *** Vocabulary of the statements *)

(** The world with its clock set to [t]. *)
Definition at_time (t : Z) (w : world) : world :=
  {| clock_ms := t;
     busy_level := busy_level w;
     spi_mutex_held := spi_mutex_held w;
     spi_device_transmit := spi_device_transmit w;
     trace := trace w |}.

(** The world in which a wait for BUSY that began in [w] has timed out:
    [ms] later, with the timeout logged. *)
Definition busy_timed_out (dev : pn5180_dev_t) (ms : Z) (w : world) : world :=
  pn5180_log_internal dev 2 "BUSY timeout after %lu ms"
    (at_time (clock_ms w + ms) w).

(** A call of one of the three callback setters. *)
Inductive setter_call : Type :=
| SetCard (callback user_data : Z)
| SetError (callback user_data : Z)
| SetLog (callback user_data : Z).

Definition apply_setter (dev : pn5180_dev_t) (c : setter_call)
  : pn5180_dev_t :=
  match c with
  | SetCard callback user_data =>
      pn5180_set_card_callback dev callback user_data
  | SetError callback user_data =>
      pn5180_set_error_callback dev callback user_data
  | SetLog callback user_data =>
      pn5180_set_log_callback dev callback user_data
  end.

Definition user_data_of (c : setter_call) : Z :=
  match c with
  | SetCard _ user_data | SetError _ user_data | SetLog _ user_data =>
      user_data
  end.

(** The user data with which an event invoked a callback, if it did. *)
Definition delivered_user_data (e : event) : option Z :=
  match e with
  | CardCallback _ _ user_data | LogCallback _ _ user_data => Some user_data
  | _ => None
  end.

(** [w'] continues [w], and every callback invoked in between was given
    the user data [ud]. *)
Definition callbacks_got (ud : Z) (w w' : world) : Prop :=
  exists added,
    trace w' = added ++ trace w /\
    Forall (fun e => forall u, delivered_user_data e = Some u -> u = ud) added.

(** *** Examples *)

(** A handle and a world for the examples: the bus answers every
    transfer with [ESP_OK] and zero bytes, the BUSY line is given. *)
Definition example_dev : pn5180_dev_t :=
  {| spi_device := 1; state := DEVICE_STATE_TRANSMITTING;
     state_timestamp := 0;
     rf_config := {| rx_gain := 7; tx_power := 15; modulation_depth := 2;
                     iq_threshold := 1; antenna_tuning := 0x88 |};
     scanning_enabled := true; enabled_protocols := 1;
     current_protocol_index := 0; last_scan_time := 0;
     card_callback := 0; error_callback := 0; log_callback := 0;
     callback_user_data := 0; tx_length := 0; rx_length := 0;
     total_scans := 0; cards_detected := 0; busy_wait_start_time := 0 |}.

Definition example_world (now : Z) (busy : bool) : world :=
  {| clock_ms := now;
     busy_level := fun _ => busy;
     spi_mutex_held := false;
     spi_device_transmit := fun _ _ => (ESP_OK, [0; 0; 0; 0]);
     trace := [] |}.

(** The same world with the bus answering every transfer with [reply]. *)
Definition example_world_replying (now : Z) (reply : list Z) : world :=
  {| clock_ms := now;
     busy_level := fun _ => false;
     spi_mutex_held := false;
     spi_device_transmit := fun _ _ => (ESP_OK, reply);
     trace := [] |}.

(** A decoder for the examples: it accepts every response and leaves
    the card record as it got it. *)
Definition example_decoder (dev : pn5180_dev_t) (response : list Z)
  (length : Z) (card : pn5180_card_info_t)
  : pn5180_error_t * pn5180_card_info_t :=
  (PN5180_OK, card).

(** *** More of the state machine and of the transport

    The remaining handlers of the scan cycle and the sleep and reset
    commands.  As in the functions above, the trace records the
    transfers, the callbacks and what [pn5180_log_internal] prints; the
    [ESP_LOGx] lines that stand in the handlers themselves go to the
    console only and are not recorded. *)

Definition PN5180_REG_SYSTEM_CONFIG : Z := 0x00.
Definition PN5180_SYSTEM_CONFIG_RESET : Z := Z.shiftl 1 0.
Definition PN5180_SYSTEM_CONFIG_POWER_DOWN : Z := Z.shiftl 1 1.
Definition PN5180_IRQ_ENABLE_TX_DONE : Z := Z.shiftl 1 1.
Definition PN5180_IRQ_ENABLE_RX_DONE : Z := Z.shiftl 1 2.
Definition PN5180_IRQ_ENABLE_RX_ERROR : Z := Z.shiftl 1 3.
Definition PN5180_IRQ_ENABLE_TX_ERROR : Z := Z.shiftl 1 4.

Definition pn5180_state_receiving (fuel : nat) (dev : pn5180_dev_t)
  (w : world) : option (pn5180_dev_t * world) :=
  '(err, irq_status, w) <-
    pn5180_read_register_internal fuel dev PN5180_REG_IRQ_STATUS w ;;
  if negb (is_ok err) then Some (set_state dev DEVICE_STATE_ERROR, w) else
  if negb (Z.land irq_status PN5180_IRQ_STATUS_RX_DONE =? 0) then
    '(_, w) <-
      pn5180_write_register_internal fuel dev PN5180_REG_IRQ_STATUS
        PN5180_IRQ_STATUS_RX_DONE w ;;
    Some (set_state dev DEVICE_STATE_PROCESSING, w)
  else if negb (Z.land irq_status PN5180_IRQ_STATUS_RX_ERROR =? 0) then
    '(_, w) <-
      pn5180_write_register_internal fuel dev PN5180_REG_IRQ_STATUS
        PN5180_IRQ_STATUS_RX_ERROR w ;;
    let dev :=
      set_current_protocol_index dev (u8 (current_protocol_index dev + 1)) in
    Some (set_state dev DEVICE_STATE_SCANNING, w)
  else if busy_wait_start_time dev <? pn5180_get_tick_ms w then
    let dev :=
      set_current_protocol_index dev (u8 (current_protocol_index dev + 1)) in
    let dev := set_state dev DEVICE_STATE_SCANNING in
    Some (set_last_scan_time dev (pn5180_get_tick_ms w), w)
  else Some (dev, w).

Definition pn5180_configure_for_scanning (fuel : nat) (dev : pn5180_dev_t)
  (w : world) : option (pn5180_error_t * world) :=
  '(err, rf_control, w) <-
    pn5180_read_register_internal fuel dev PN5180_REG_RF_CONTROL w ;;
  if negb (is_ok err) then Some (err, w) else
  let rf_control := Z.lor rf_control PN5180_RF_CONTROL_FIELD_ON in
  '(err, w) <-
    pn5180_write_register_internal fuel dev PN5180_REG_RF_CONTROL
      rf_control w ;;
  if negb (is_ok err) then Some (err, w) else
  '(_, w) <-
    pn5180_write_register_internal fuel dev PN5180_REG_IRQ_STATUS 0xFF w ;;
  let irq_enable :=
    Z.lor (Z.lor (Z.lor PN5180_IRQ_ENABLE_TX_DONE PN5180_IRQ_ENABLE_RX_DONE)
             PN5180_IRQ_ENABLE_RX_ERROR)
      PN5180_IRQ_ENABLE_TX_ERROR in
  '(err, w) <-
    pn5180_write_register_internal fuel dev PN5180_REG_IRQ_ENABLE
      irq_enable w ;;
  if negb (is_ok err) then Some (err, w) else
  Some (PN5180_OK, w).

Definition pn5180_state_configuring (fuel : nat) (dev : pn5180_dev_t)
  (w : world) : option (pn5180_dev_t * world) :=
  '(err, w) <- pn5180_configure_for_scanning fuel dev w ;;
  if negb (is_ok err) then Some (set_state dev DEVICE_STATE_ERROR, w) else
  let dev := set_state dev DEVICE_STATE_SCANNING in
  let dev := set_current_protocol_index dev 0 in
  Some (set_last_scan_time dev (pn5180_get_tick_ms w), w).

Definition pn5180_enter_sleep_mode (fuel : nat) (dev : pn5180_dev_t)
  (w : world) : option (pn5180_error_t * pn5180_dev_t * world) :=
  '(err, rf_control, w) <-
    pn5180_read_register_internal fuel dev PN5180_REG_RF_CONTROL w ;;
  if negb (is_ok err) then Some (err, dev, w) else
  '(err, w) <-
    (if negb (Z.land rf_control PN5180_RF_CONTROL_FIELD_ON =? 0) then
       pn5180_write_register_internal fuel dev PN5180_REG_RF_CONTROL
         (Z.land rf_control (Z.lnot PN5180_RF_CONTROL_FIELD_ON)) w
     else Some (PN5180_OK, w)) ;;
  if negb (is_ok err) then Some (err, dev, w) else
  '(err, w) <-
    pn5180_write_register_internal fuel dev PN5180_REG_SYSTEM_CONFIG
      PN5180_SYSTEM_CONFIG_POWER_DOWN w ;;
  if negb (is_ok err) then Some (err, dev, w) else
  Some (PN5180_OK, set_state dev DEVICE_STATE_SLEEP, w).

Definition pn5180_cmd_sleep (fuel : nat) (dev : pn5180_dev_t) (w : world)
  : option (pn5180_error_t * pn5180_dev_t * world) :=
  '(err, dev, w) <- pn5180_enter_sleep_mode fuel dev w ;;
  if is_ok err then Some (err, set_state dev DEVICE_STATE_SLEEP, w)
  else Some (err, dev, w).

Definition pn5180_cmd_reset (fuel : nat) (dev : pn5180_dev_t) (w : world)
  : option (pn5180_error_t * pn5180_dev_t * world) :=
  '(err, w) <-
    pn5180_write_register_internal fuel dev PN5180_REG_SYSTEM_CONFIG
      PN5180_SYSTEM_CONFIG_RESET w ;;
  if negb (is_ok err) then Some (err, dev, w) else
  let dev := set_state dev DEVICE_STATE_RESETTING in
  Some (PN5180_OK, set_state_timestamp dev (pn5180_get_tick_ms w), w).

(** The values of the enumerators of [pn5180_error_t]. *)
Definition error_code (e : pn5180_error_t) : Z :=
  match e with
  | PN5180_OK => 0
  | PN5180_ERR_INVALID_ARG => -1
  | PN5180_ERR_TIMEOUT => -2
  | PN5180_ERR_CRC => -3
  | PN5180_ERR_AUTH => -4
  | PN5180_ERR_PROTOCOL => -5
  | PN5180_ERR_BUFFER => -6
  | PN5180_ERR_SPI => -7
  | PN5180_ERR_NO_TAG => -8
  | PN5180_ERR_MULTIPLE_TAGS => -9
  | PN5180_ERR_HARDWARE => -10
  | PN5180_ERR_NOT_INIT => -11
  | PN5180_ERR_BUSY => -12
  | PN5180_ERR_RF_FIELD => -13
  | PN5180_ERR_EEPROM => -14
  | PN5180_ERR_UNSUPPORTED => -15
  end.

(** [pn5180_error_to_string], on the integer that the caller passes. *)
Definition pn5180_error_to_string (error : Z) : string :=
  match error with
  | 0 => "OK"
  | -1 => "Invalid argument"
  | -2 => "Timeout"
  | -3 => "CRC error"
  | -4 => "Authentication error"
  | -5 => "Protocol error"
  | -6 => "Buffer error"
  | -7 => "SPI communication error"
  | -8 => "No tag detected"
  | -9 => "Multiple tags detected"
  | -10 => "Hardware error"
  | -11 => "Device not initialized"
  | -12 => "Device busy"
  | -13 => "RF field error"
  | -14 => "EEPROM error"
  | -15 => "Unsupported operation"
  | _ => "Unknown error"
  end.

(** *** More vocabulary *)

(** The transmit buffers of the SPI transfers among [events] (newest
    first, as in a trace), oldest first. *)
Definition sent (events : list event) : list (list Z) :=
  flat_map (fun e => match e with
                     | Spi (SpiTx tx_buffer) _ _ => [tx_buffer]
                     | _ => []
                     end) (rev events).

(** The bus is ready: BUSY is low for good, the SPI mutex is free and
    every transfer succeeds. *)
Definition bus_ready (w : world) : Prop :=
  (forall t, busy_level w t = false) /\
  spi_mutex_held w = false /\
  (forall events trans, fst (spi_device_transmit w events trans) = ESP_OK).

(** The 32-bit value of four bytes, most significant first. *)
Definition be32 (b3 b2 b1 b0 : Z) : Z :=
  b3 * 2^24 + b2 * 2^16 + b1 * 2^8 + b0.

(** An event that the transport makes on behalf of [dev]: a transfer, a
    console log, or a call of the log callback of [dev] with its user
    data.  A call of the card callback is none. *)
Definition bus_event (dev : pn5180_dev_t) (e : event) : Prop :=
  match e with
  | Spi _ _ _ => True
  | EspLog _ _ => True
  | LogCallback fn _ user_data =>
      fn = log_callback dev /\ user_data = callback_user_data dev
  | CardCallback _ _ _ => False
  end.

(** [w'] continues [w] with events of the transport only. *)
Definition only_bus_events (dev : pn5180_dev_t) (w w' : world) : Prop :=
  exists added, trace w' = added ++ trace w /\ Forall (bus_event dev) added.

(** The frame of a register write: the header with the write bit, then
    the value, most significant byte first. *)
Definition write_frame (reg value : Z) : list Z :=
  [128 + reg mod 128; (value / 2^24) mod 2^8; (value / 2^16) mod 2^8;
   (value / 2^8) mod 2^8; value mod 2^8].

(** The value that [pn5180_read_register_internal] makes of the bytes
    it received. *)
Definition register_value (rx_buffer : list Z) : Z :=
  u32 (Z.lor (Z.lor (Z.lor (Z.shiftl (nth 0 rx_buffer 0) 24)
                           (Z.shiftl (nth 1 rx_buffer 0) 16))
                    (Z.shiftl (nth 2 rx_buffer 0) 8))
             (nth 3 rx_buffer 0)).

(** The decoder of the protocol at which [dev] stands accepted the
    response: it got the handle as [pn5180_read_buffer] left it, the
    bytes received with their count and a fresh record that carries
    the protocol and the tick [now], and it returned [PN5180_OK] with
    the record [c]. *)
Definition decoder_accepted
  (decode_a decode_v :
     pn5180_dev_t -> list Z -> Z -> pn5180_card_info_t ->
     pn5180_error_t * pn5180_card_info_t)
  (dev dev1 : pn5180_dev_t) (response : list Z) (n now : Z)
  (c : pn5180_card_info_t) : Prop :=
  (current_protocol_index dev = PN5180_PROTOCOL_ISO14443A /\
   decode_a dev1 response n
     (set_card_header card_info_zero PN5180_PROTOCOL_ISO14443A now)
   = (PN5180_OK, c)) \/
  (current_protocol_index dev = PN5180_PROTOCOL_ISO15693 /\
   decode_v dev1 response n
     (set_card_header card_info_zero PN5180_PROTOCOL_ISO15693 now)
   = (PN5180_OK, c)).

End PN5180.

(** * Properties of the sketch *)

Ltac step H :=
  match type of H with
  | bind ?m _ = Some _ =>
      destruct m eqn:?; cbn [bind] in H; [|discriminate H]
  | (if ?c then _ else _) = Some _ => destruct c eqn:?
  | Some _ = Some _ => inversion H; subst; clear H
  end.

Section SketchFacts.
Import Sketch.

(** *** The accesses of [readCard] stay inside memory that is there *)

Lemma load_defined (mem : list Z) (i : nat) :
  (i < List.length mem)%nat -> exists b, load mem i = Some b.
Proof.
  intros Hi. unfold load.
  destruct (nth_error mem i) as [b|] eqn:Hnth; [eauto|].
  apply nth_error_None in Hnth. lia.
Qed.

Lemma store_defined (v : Z) :
  forall (mem : list Z) (i : nat),
    (i < List.length mem)%nat ->
    exists mem', store mem i v = Some mem' /\
                 List.length mem' = List.length mem.
Proof.
  induction mem as [|b rest IH]; intros i Hi; cbn in Hi; [lia|].
  destruct i as [|i]; cbn [store].
  - eexists. split; reflexivity.
  - destruct (IH i) as (rest' & Hstore & Hlen); [lia|].
    rewrite Hstore. eexists. split; [reflexivity|]. cbn. lia.
Qed.

Lemma all_bytes_are_defined (uid : list Z) (v : Z) :
  forall (count byteIndex : nat),
    (byteIndex + count <= List.length uid)%nat ->
    exists flag, all_bytes_are uid v byteIndex count = Some flag.
Proof.
  induction count as [|count IH]; intros byteIndex Hlen; cbn; [eauto|].
  destruct (load_defined uid byteIndex) as [b Hb]; [lia|].
  rewrite Hb. cbn [bind].
  destruct (b =? v); [apply IH; lia | eauto].
Qed.

Lemma copy_uid_defined (responseBuffer : list Z) :
  forall (count byteIndex : nat) (uidBuffer : list Z),
    (3 + byteIndex + count <= List.length responseBuffer)%nat ->
    (byteIndex + count <= List.length uidBuffer)%nat ->
    exists uidBuffer',
      copy_uid responseBuffer uidBuffer byteIndex count = Some uidBuffer'.
Proof.
  induction count as [|count IH]; intros byteIndex uidBuffer Hresp Huid;
    cbn [copy_uid]; [eauto|].
  destruct (load_defined responseBuffer (3 + byteIndex)) as [b Hb]; [lia|].
  rewrite Hb. cbn [bind].
  destruct (store_defined b uidBuffer byteIndex) as (u' & Hstore & Hlen);
    [lia|].
  rewrite Hstore. cbn [bind]. apply IH; lia.
Qed.

(** With the thirteen bytes that the 10-byte path reads, and a caller's
    buffer of ten bytes, [readCard] returns. *)
Lemma readCard_defined (nfc : PN5180ISO14443) (len : Z)
  (resp uidBuffer : list Z) :
  activateTypeA nfc (repeat 0xFF 10) 0 = (len, resp) ->
  (13 <= List.length resp)%nat ->
  (10 <= List.length uidBuffer)%nat ->
  exists r uidBuffer', readCard nfc uidBuffer = Some (r, uidBuffer').
Proof.
  unfold readCard. intros Hact Hresp Huid. rewrite Hact.
  destruct (len <=? 0); [eauto|].
  destruct (negb (len =? 4) && negb (len =? 7) && negb (len =? 10)); [eauto|].
  destruct (load_defined resp 1) as [b1 H1]; [lia|].
  destruct (load_defined resp 0) as [b0 H0]; [lia|].
  destruct (load_defined resp 2) as [s H2]; [lia|].
  rewrite H1, H0. cbn [bind].
  destruct (_ || _); [eauto|]. rewrite H2. cbn [bind].
  destruct (negb (isValidSAK s)); [eauto|].
  assert (Hskip : List.length (skipn 3 resp) = (List.length resp - 3)%nat)
    by apply length_skipn.
  assert (Hall : forall v i count, (i + count <= 10)%nat ->
             exists flag, all_bytes_are (skipn 3 resp) v i count = Some flag).
  { intros. apply all_bytes_are_defined. lia. }
  assert (Hload : forall i, (i < 10)%nat ->
             exists b, load (skipn 3 resp) i = Some b).
  { intros. apply load_defined. lia. }
  destruct (len =? 4); [|destruct (len =? 7); [|destruct (len =? 10)]].
  - unfold validate4ByteUID.
    destruct (Hload 0%nat) as [u0 Hu0]; [lia|]. rewrite Hu0. cbn [bind].
    destruct (Hall 0 0%nat 4%nat) as [z Hz]; [lia|].
    destruct (Hall 255 0%nat 4%nat) as [f Hf]; [lia|].
    destruct (copy_uid_defined resp 4 0 uidBuffer) as [u' Hu']; [lia|lia|].
    destruct (_ || _); cbn [bind negb]; [eauto|].
    rewrite Hz. cbn [bind]. destruct z; cbn [bind negb]; [eauto|].
    rewrite Hf. cbn [bind]. destruct f; cbn [bind negb]; [eauto|].
    rewrite Hu'. cbn [bind]. eauto.
  - unfold validate7ByteUID.
    destruct (Hload 3%nat) as [u3 Hu3]; [lia|]. rewrite Hu3. cbn [bind].
    destruct (Hload 0%nat) as [u0 Hu0]; [lia|].
    destruct (Hall 0 4%nat 3%nat) as [z Hz]; [lia|].
    destruct (Hall 255 4%nat 3%nat) as [f Hf]; [lia|].
    destruct (copy_uid_defined resp 7 0 uidBuffer) as [u' Hu']; [lia|lia|].
    destruct (negb (u3 =? 136)); cbn [bind negb]; [eauto|].
    rewrite Hz. cbn [bind]. destruct z; cbn [bind negb]; [eauto|].
    rewrite Hf. cbn [bind]. destruct f; cbn [bind negb]; [eauto|].
    rewrite Hu0. cbn [bind]. destruct (u0 =? 0); cbn [bind negb]; [eauto|].
    rewrite Hu'. cbn [bind]. eauto.
  - unfold validate10ByteUID.
    destruct (Hall 0 0%nat 10%nat) as [z Hz]; [lia|].
    destruct (Hall 255 0%nat 10%nat) as [f Hf]; [lia|].
    destruct (copy_uid_defined resp 10 0 uidBuffer) as [u' Hu']; [lia|lia|].
    rewrite Hz. cbn [bind]. destruct z; cbn [bind negb]; [eauto|].
    rewrite Hf. cbn [bind]. destruct f; cbn [bind negb]; [eauto|].
    rewrite Hu'. cbn [bind]. eauto.
  - eauto.
Qed.

(** *** What the validators and the header checks decide *)

Lemma validate4ByteUID_constant (v : Z) (rest : list Z) :
  v = 0x00 \/ v = 0xFF -> validate4ByteUID (repeat v 4 ++ rest) = Some false.
Proof. intros [-> | ->]; reflexivity. Qed.

Lemma validate7ByteUID_constant (v : Z) (rest : list Z) :
  v = 0x00 \/ v = 0xFF -> validate7ByteUID (repeat v 7 ++ rest) = Some false.
Proof. intros [-> | ->]; reflexivity. Qed.

Lemma validate10ByteUID_constant (v : Z) (rest : list Z) :
  v = 0x00 \/ v = 0xFF -> validate10ByteUID (repeat v 10 ++ rest) = Some false.
Proof. intros [-> | ->]; reflexivity. Qed.

Lemma validate7ByteUID_no_cascade_tag (uid : list Z) (u3 : Z) :
  load uid 3 = Some u3 -> u3 <> 0x88 -> validate7ByteUID uid = Some false.
Proof.
  intros Hload Hne. unfold validate7ByteUID. rewrite Hload. simpl.
  apply Z.eqb_neq in Hne. rewrite Hne. reflexivity.
Qed.

(** The header checks of [readCard] either reject with [-3] or let the
    length-specific validator decide. *)
Lemma readCard_header (nfc : PN5180ISO14443) (uidBuffer : list Z)
  (len a0 a1 s : Z) (tail : list Z) :
  activateTypeA nfc (repeat 0xFF 10) 0 = (len, a0 :: a1 :: s :: tail) ->
  len = 4 \/ len = 7 \/ len = 10 ->
  (if len =? 4 then validate4ByteUID tail
   else if len =? 7 then validate7ByteUID tail
   else validate10ByteUID tail) = Some false ->
  readCard nfc uidBuffer = Some (-3, uidBuffer).
Proof.
  intros Hact Hlen Hval. unfold readCard. rewrite Hact.
  replace (load (a0 :: a1 :: s :: tail) 1) with (Some a1) by reflexivity.
  replace (load (a0 :: a1 :: s :: tail) 0) with (Some a0) by reflexivity.
  replace (load (a0 :: a1 :: s :: tail) 2) with (Some s) by reflexivity.
  replace (skipn 3 (a0 :: a1 :: s :: tail)) with tail by reflexivity.
  cbv [bind].
  destruct Hlen as [-> | [-> | ->]]; cbn [Z.leb Z.eqb Z.compare Pos.eqb negb andb];
    (destruct (_ || _); [reflexivity|]);
    (destruct (isValidSAK s); cbn [negb]; [|reflexivity]);
    cbn in Hval; rewrite Hval; reflexivity.
Qed.

(** With no card detected, [updateDisplay] in NFC mode draws no UID. *)
Lemma updateDisplay_no_card (g : globals) :
  currentMode g = MODE_NFC -> cardDetected g = false ->
  exists g' effects,
    updateDisplay g = (g', effects) /\
    cardDetected g' = false /\
    forallb (fun e => negb (is_card_event e)) effects = true.
Proof.
  intros Hmode Hcd. unfold updateDisplay.
  destruct (negb (displayUpdateRequired g) && _ && _).
  - exists g, []. auto.
  - rewrite Hmode, Hcd. do 2 eexists. split; [reflexivity|].
    split; reflexivity.
Qed.

(** [updateDisplay] does not touch the card state. *)
Lemma updateDisplay_keeps_card (g : globals) :
  cardDetected (fst (updateDisplay g)) = cardDetected g /\
  lastUID (fst (updateDisplay g)) = lastUID g.
Proof.
  unfold updateDisplay.
  destruct (negb (displayUpdateRequired g) && _ && _); split; reflexivity.
Qed.

(** The 10-byte path reads [responseBuffer[3..12]].  When the memory
    behind [responseBuffer] is the ten bytes of the array and no more,
    the copy loop leaves it, and no call returns the length 10. *)
Lemma copy_uid_leaves_short_response (responseBuffer : list Z) :
  forall (count byteIndex : nat) (uidBuffer : list Z),
    (3 + byteIndex <= List.length responseBuffer)%nat ->
    (List.length responseBuffer < 3 + byteIndex + count)%nat ->
    copy_uid responseBuffer uidBuffer byteIndex count = None.
Proof.
  induction count as [|count IH]; intros byteIndex uidBuffer Hin Hout;
    [lia|].
  cbn [copy_uid]. unfold load.
  destruct (nth_error responseBuffer (3 + byteIndex)) as [b|] eqn:Hnth;
    cbn [bind]; [|reflexivity].
  destruct (store uidBuffer byteIndex b); cbn [bind]; [|reflexivity].
  assert (3 + byteIndex < List.length responseBuffer)%nat
    by (apply nth_error_Some; congruence).
  apply IH; lia.
Qed.

Lemma readCard_ten_needs_memory_past_the_array
  (nfc : PN5180ISO14443) (resp uidBuffer uidBuffer' : list Z) :
  activateTypeA nfc (repeat 0xFF 10) 0 = (10, resp) ->
  List.length resp = 10%nat ->
  readCard nfc uidBuffer <> Some (10, uidBuffer').
Proof.
  intros Hact Hlen H. unfold readCard in H. rewrite Hact in H.
  change (10 <=? 0) with false in H.
  change (negb (10 =? 4) && negb (10 =? 7) && negb (10 =? 10))
    with false in H.
  change (10 =? 4) with false in H. change (10 =? 7) with false in H.
  change (10 =? 10) with true in H. cbv iota in H.
  do 2 step H. step H; [discriminate H|].
  step H. step H; [discriminate H|].
  step H. step H; [discriminate H|].
  rewrite copy_uid_leaves_short_response in H by (rewrite Hlen; lia).
  discriminate H.
Qed.

End SketchFacts.

Section SketchClaims.
Import Sketch.

(** C1.  A response whose length is positive and is none of 4, 7 and 10
    makes [readCard] return the error [-3] and leave the caller's buffer
    as it was; the pass of [loop] that gets it ends with no card
    detected, prints no detection and does not draw a UID. *)
Theorem readCard_rejects_other_lengths
  (nfc : PN5180ISO14443) (rawResponseLength : Z)
  (responseBuffer uidBuffer : list Z) (g : globals) :
  activateTypeA nfc (repeat 0xFF 10) 0 = (rawResponseLength, responseBuffer) ->
  0 < rawResponseLength ->
  rawResponseLength <> 4 -> rawResponseLength <> 7 ->
  rawResponseLength <> 10 ->
  readCard nfc uidBuffer = Some (-3, uidBuffer) /\
  (currentMode g = MODE_NFC ->
   exists g' effects,
     loop_body nfc g = Some (g', effects) /\
     cardDetected g' = false /\
     forallb (fun e => negb (is_card_event e)) effects = true).
Proof.
  intros Hact Hpos H4 H7 H10.
  assert (Hread : forall u, readCard nfc u = Some (-3, u)).
  { intros u. unfold readCard. rewrite Hact.
    apply Z.leb_gt in Hpos. rewrite Hpos.
    apply Z.eqb_neq in H4, H7, H10. rewrite H4, H7, H10. reflexivity. }
  split; [apply Hread|].
  intros Hmode. unfold loop_body, loop_mode_processing.
  rewrite Hmode, Hread. cbn [bind].
  replace (0 <? -3) with false by reflexivity.
  replace (-3 <? 0) with true by reflexivity.
  replace ((-3 =? -2) || (-3 =? -3)) with true by reflexivity.
  destruct (cardDetected g) eqn:Hcd.
  - destruct (updateDisplay_no_card (set_card g false (lastUID g) true))
      as (g2 & e2 & Hupd & Hcd2 & Hev); [exact Hmode | reflexivity |].
    cbn [bind]. cbv beta iota. rewrite Hupd.
    do 2 eexists. split; [reflexivity|].
    split; [exact Hcd2|]. rewrite forallb_app, Hev. reflexivity.
  - destruct (updateDisplay_no_card g) as (g2 & e2 & Hupd & Hcd2 & Hev);
      [exact Hmode | exact Hcd |].
    cbn [bind]. cbv beta iota. rewrite Hupd.
    do 2 eexists. split; [reflexivity|].
    split; [exact Hcd2|]. rewrite forallb_app, Hev. reflexivity.
Qed.

(** C2.  An identifier of 4, 7 or 10 bytes that are all [0x00] or all
    [0xFF] is refused by the validator of its length, whatever follows
    it in memory, and [readCard] then returns [-3] and leaves the
    caller's buffer as it was, whatever the ATQA and SAK bytes are. *)
Theorem constant_uid_rejected (v : Z) :
  v = 0x00 \/ v = 0xFF ->
  (forall rest, validate4ByteUID (repeat v 4 ++ rest) = Some false) /\
  (forall rest, validate7ByteUID (repeat v 7 ++ rest) = Some false) /\
  (forall rest, validate10ByteUID (repeat v 10 ++ rest) = Some false) /\
  (forall nfc len a0 a1 s rest uidBuffer,
     len = 4 \/ len = 7 \/ len = 10 ->
     activateTypeA nfc (repeat 0xFF 10) 0
     = (len, a0 :: a1 :: s :: repeat v (Z.to_nat len) ++ rest) ->
     readCard nfc uidBuffer = Some (-3, uidBuffer)).
Proof.
  intros Hv. repeat split.
  - intros rest. apply validate4ByteUID_constant, Hv.
  - intros rest. apply validate7ByteUID_constant, Hv.
  - intros rest. apply validate10ByteUID_constant, Hv.
  - intros nfc len a0 a1 s rest uidBuffer Hlen Hact.
    eapply readCard_header; [exact Hact | exact Hlen |].
    destruct Hlen as [-> | [-> | ->]]; cbn [Z.eqb Pos.eqb].
    + apply (validate4ByteUID_constant v rest Hv).
    + apply (validate7ByteUID_constant v rest Hv).
    + apply (validate10ByteUID_constant v rest Hv).
Qed.

Lemma constant_uid_rejected_witness :
  validate10ByteUID (repeat 0xFF 10 ++ []) = Some false /\
  readCard
    {| activateTypeA := fun _ _ => (7, [0x44; 0x00; 0x00] ++ repeat 0 7) |}
    (repeat 0 10)
  = Some (-3, repeat 0 10).
Proof.
  pose proof (constant_uid_rejected 0xFF (or_intror eq_refl)) as [_ [_ [H10 _]]].
  pose proof (constant_uid_rejected 0x00 (or_introl eq_refl)) as [_ [_ [_ Hread]]].
  split.
  - apply H10.
  - apply (Hread _ 7 0x44 0x00 0x00 []); [right; left; reflexivity|].
    reflexivity.
Defined.

Lemma readCard_rejects_other_lengths_witness :
  readCard {| activateTypeA := fun _ _ => (5, repeat 0xFF 10) |} (repeat 0 10)
  = Some (-3, repeat 0 10).
Proof.
  refine (proj1 (readCard_rejects_other_lengths
                   {| activateTypeA := fun _ _ => (5, repeat 0xFF 10) |}
                   5 (repeat 0xFF 10) (repeat 0 10)
                   {| currentMode := MODE_NFC; lastDisplayedMode := MODE_NFC;
                      currentWifiSubMode := WIFI_SUB_NONE;
                      lastWifiSubMode := WIFI_SUB_NONE;
                      displayUpdateRequired := false; lastUID := "";
                      cardDetected := true |}
                   eq_refl _ _ _ _)); lia.
Defined.




(** C4.  A 7-byte identifier whose byte 3 is not the cascade tag [0x88]
    is refused by [validate7ByteUID], and [readCard] returns [-3] for a
    7-byte response that carries it, whatever the ATQA, the SAK and the
    other UID bytes are. *)
Theorem seven_byte_uid_needs_cascade_tag (u3 : Z) :
  u3 <> 0x88 ->
  (forall uid, load uid 3 = Some u3 -> validate7ByteUID uid = Some false) /\
  (forall nfc a0 a1 s u0 u1 u2 rest uidBuffer,
     activateTypeA nfc (repeat 0xFF 10) 0
     = (7, a0 :: a1 :: s :: u0 :: u1 :: u2 :: u3 :: rest) ->
     readCard nfc uidBuffer = Some (-3, uidBuffer)).
Proof.
  intros Hne. split.
  - intros uid Hload. exact (validate7ByteUID_no_cascade_tag uid u3 Hload Hne).
  - intros nfc a0 a1 s u0 u1 u2 rest uidBuffer Hact.
    eapply readCard_header; [exact Hact | right; left; reflexivity |].
    cbn [Z.eqb Pos.eqb].
    apply (validate7ByteUID_no_cascade_tag _ u3); [reflexivity | exact Hne].
Qed.

Lemma seven_byte_uid_needs_cascade_tag_witness :
  validate7ByteUID [0x04; 0xA1; 0xB2; 0xC3; 0xD4; 0xE5; 0xF6] = Some false /\
  readCard
    {| activateTypeA := fun _ _ =>
         (7, [0x44; 0x00; 0x00; 0x04; 0xA1; 0xB2; 0xC3; 0xD4; 0xE5; 0xF6]) |}
    (repeat 0 10)
  = Some (-3, repeat 0 10).
Proof.
  assert (Hne : 0xC3 <> 0x88) by lia.
  destruct (seven_byte_uid_needs_cascade_tag 0xC3 Hne) as [Hval Hread].
  split.
  - apply Hval. reflexivity.
  - apply (Hread _ 0x44 0x00 0x00 0x04 0xA1 0xB2 [0xD4; 0xE5; 0xF6]).
    reflexivity.
Defined.

(** C9.  Whenever [readCard] returns [0] or a negative code the caller's
    buffer is as it was before the call; a call that changed the buffer
    had a response that passed the length, ATQA, SAK and UID checks. *)
Theorem readCard_frame
  (nfc : PN5180ISO14443) (uidBuffer uidBuffer' : list Z) (r : Z) :
  readCard nfc uidBuffer = Some (r, uidBuffer') ->
  (r <= 0 -> uidBuffer' = uidBuffer) /\
  (uidBuffer' <> uidBuffer ->
   exists responseBuffer,
     activateTypeA nfc (repeat 0xFF 10) 0 = (r, responseBuffer) /\
     passed_all_checks r responseBuffer).
Proof.
  unfold readCard. intros H.
  destruct (activateTypeA nfc (repeat 255 10) 0) as [len resp].
  step H; [step H; split; [reflexivity | congruence]|].
  step H; [step H; split; [reflexivity | congruence]|].
  do 2 step H.
  step H; [step H; split; [reflexivity | congruence]|].
  step H.
  step H; [step H; split; [reflexivity | congruence]|].
  apply orb_false_iff in Heqb1. destruct Heqb1 as [Ha Hb].
  apply Z.eqb_neq in Ha, Hb. apply negb_false_iff in Heqb2.
  step H; [|step H; [|step H]].
  - apply Z.eqb_eq in Heqb1. subst len.
    step H. step H; [step H; split; [reflexivity | congruence]|].
    apply negb_false_iff in Heqb1. subst b. step H. step H.
    split; [lia|]. intros _. exists resp. split; [reflexivity|].
    exists z0, z, z1. repeat split; auto.
  - apply Z.eqb_eq in Heqb3. subst len.
    step H. step H; [step H; split; [reflexivity | congruence]|].
    apply negb_false_iff in Heqb3. subst b. step H. step H.
    split; [lia|]. intros _. exists resp. split; [reflexivity|].
    exists z0, z, z1. repeat split; auto.
  - apply Z.eqb_eq in Heqb4. subst len.
    step H. step H; [step H; split; [reflexivity | congruence]|].
    apply negb_false_iff in Heqb4. subst b. step H. step H.
    split; [lia|]. intros _. exists resp. split; [reflexivity|].
    exists z0, z, z1. repeat split; auto.
  - step H. split; [reflexivity | congruence].
Qed.

Lemma readCard_frame_witness :
  (0 <= 0 -> repeat 0 10 = repeat 0 10) /\
  (-3 <= 0 -> [1; 2; 3; 4] = [1; 2; 3; 4]).
Proof.
  split.
  - exact (proj1 (readCard_frame
                    {| activateTypeA := fun _ _ => (0, repeat 0xFF 10) |}
                    (repeat 0 10) (repeat 0 10) 0 eq_refl)).
  - exact (proj1 (readCard_frame
                    {| activateTypeA := fun _ _ =>
                         (4, [0x04; 0x00; 0x08; 0x88; 0xAD; 0xBE; 0xEF;
                              0xFF; 0xFF; 0xFF]) |}
                    [1; 2; 3; 4] [1; 2; 3; 4] (-3) eq_refl)).
Defined.

End SketchClaims.

(** * Properties of the driver *)

Section BusFacts.
Import PN5180.

Lemma u32_elapsed (c0 k : Z) :
  0 <= k < 2^32 -> u32 (u32 (c0 + k) - u32 c0) = k.
Proof.
  intros Hk. unfold u32.
  rewrite <- Zminus_mod.
  replace (c0 + k - c0) with k by lia.
  apply Z.mod_small. exact Hk.
Qed.

Lemma at_time_now (w : world) : at_time (clock_ms w) w = w.
Proof. destruct w; reflexivity. Qed.

(** The polling loop always comes back: a fuel of two more than the
    timeout is enough, whatever the BUSY line does. *)
Lemma wait_busy_loop_total (dev : pn5180_dev_t) (c0 timeout_ms : Z) :
  0 <= timeout_ms < 2^32 - 1 ->
  forall (fuel : nat) (w : world) (k : Z),
    0 <= k <= timeout_ms + 1 ->
    clock_ms w = c0 + k ->
    timeout_ms + 1 < Z.of_nat fuel + k ->
    exists r, wait_busy_loop fuel dev (u32 c0) timeout_ms w = Some r.
Proof.
  intros Ht. induction fuel as [|fuel IH]; intros w k Hk Hclock Hfuel.
  - lia.
  - cbn [wait_busy_loop]. destruct (pn5180_is_busy_active w); [|eauto].
    unfold pn5180_get_tick_ms. rewrite Hclock, u32_elapsed by lia.
    destruct (timeout_ms <? k) eqn:Hlt; [eauto|].
    apply Z.ltb_ge in Hlt.
    apply (IH (vTaskDelay 1 w) (k + 1)); [lia | cbn; lia | lia].
Qed.

Lemma pn5180_wait_busy_total (fuel : nat) (dev : pn5180_dev_t)
  (timeout_ms : Z) (w : world) :
  0 <= timeout_ms < 2^32 - 1 ->
  timeout_ms + 1 < Z.of_nat fuel ->
  exists r, pn5180_wait_busy fuel dev timeout_ms w = Some r.
Proof.
  intros Ht Hfuel. unfold pn5180_wait_busy, pn5180_get_tick_ms.
  apply (wait_busy_loop_total dev (clock_ms w) timeout_ms Ht fuel w 0); lia.
Qed.

(** With BUSY stuck high the loop gives up at the first poll after the
    timeout, one millisecond past it. *)
Lemma wait_busy_loop_stuck (dev : pn5180_dev_t) (c0 timeout_ms : Z)
  (busy : Z -> bool) :
  0 <= timeout_ms < 2^32 - 1 ->
  (forall t, busy t = true) ->
  forall (fuel : nat) (w : world) (k : Z),
    busy_level w = busy ->
    0 <= k <= timeout_ms + 1 ->
    clock_ms w = c0 + k ->
    timeout_ms + 1 < Z.of_nat fuel + k ->
    wait_busy_loop fuel dev (u32 c0) timeout_ms w
    = Some (PN5180_ERR_TIMEOUT,
            pn5180_log_internal dev 2 "BUSY timeout after %lu ms"
              (at_time (c0 + timeout_ms + 1) w)).
Proof.
  intros Ht Hbusy.
  induction fuel as [|fuel IH]; intros w k Hw Hk Hclock Hfuel.
  - lia.
  - cbn [wait_busy_loop]. unfold pn5180_is_busy_active.
    rewrite Hw, Hbusy. unfold pn5180_get_tick_ms.
    rewrite Hclock, u32_elapsed by lia.
    destruct (timeout_ms <? k) eqn:Hlt.
    + apply Z.ltb_lt in Hlt. assert (k = timeout_ms + 1) by lia. subst k.
      rewrite Z.add_assoc in Hclock. rewrite <- Hclock, at_time_now.
      reflexivity.
    + apply Z.ltb_ge in Hlt.
      rewrite (IH (vTaskDelay 1 w) (k + 1)); [reflexivity | exact Hw | lia
                                              | cbn; lia | lia].
Qed.

Lemma pn5180_wait_busy_stuck (fuel : nat) (dev : pn5180_dev_t)
  (timeout_ms : Z) (w : world) :
  0 <= timeout_ms < 2^32 - 1 ->
  (forall t, busy_level w t = true) ->
  timeout_ms + 1 < Z.of_nat fuel ->
  pn5180_wait_busy fuel dev timeout_ms w
  = Some (PN5180_ERR_TIMEOUT, busy_timed_out dev (timeout_ms + 1) w).
Proof.
  intros Ht Hbusy Hfuel. unfold pn5180_wait_busy, pn5180_get_tick_ms.
  rewrite (wait_busy_loop_stuck dev (clock_ms w) timeout_ms (busy_level w)
             Ht Hbusy fuel w 0); [|reflexivity | lia | lia | lia].
  unfold busy_timed_out. rewrite Z.add_assoc. reflexivity.
Qed.

Lemma pn5180_spi_transaction_total (fuel : nat) (dev : pn5180_dev_t)
  (trans : spi_transaction_t) (w : world) :
  CONFIG_PN5180_BUSY_TIMEOUT_MS + 1 < Z.of_nat fuel ->
  exists r, pn5180_spi_transaction fuel dev trans w = Some r.
Proof.
  intros Hfuel. unfold pn5180_spi_transaction.
  destruct (spi_mutex_held w); [eauto|].
  destruct (pn5180_wait_busy_total fuel dev CONFIG_PN5180_BUSY_TIMEOUT_MS w)
    as [[busy w1] Hwait]; [cbv; split; congruence | exact Hfuel |].
  rewrite Hwait. cbn [bind].
  destruct (negb (is_ok busy)); [eauto|].
  destruct (spi_device_transmit w1 (trace w1) trans). eauto.
Qed.

Lemma pn5180_write_register_internal_total (fuel : nat) (dev : pn5180_dev_t)
  (reg value : Z) (w : world) :
  CONFIG_PN5180_BUSY_TIMEOUT_MS + 1 < Z.of_nat fuel ->
  exists r, pn5180_write_register_internal fuel dev reg value w = Some r.
Proof.
  intros Hfuel. unfold pn5180_write_register_internal.
  destruct (spi_device dev =? 0); [eauto|].
  match goal with
  | |- context [pn5180_spi_transaction fuel dev ?t w] =>
      destruct (pn5180_spi_transaction_total fuel dev t w Hfuel)
        as [[[err rx] w1] Hspi]; rewrite Hspi
  end.
  cbn [bind]. destruct (negb (err =? ESP_OK)); eauto.
Qed.

Lemma pn5180_spi_transaction_stuck (fuel : nat) (dev : pn5180_dev_t)
  (trans : spi_transaction_t) (w : world) :
  (forall t, busy_level w t = true) ->
  spi_mutex_held w = false ->
  CONFIG_PN5180_BUSY_TIMEOUT_MS + 1 < Z.of_nat fuel ->
  pn5180_spi_transaction fuel dev trans w
  = Some (ESP_ERR_TIMEOUT, [],
          busy_timed_out dev (CONFIG_PN5180_BUSY_TIMEOUT_MS + 1) w).
Proof.
  intros Hbusy Hmutex Hfuel. unfold pn5180_spi_transaction.
  rewrite Hmutex, pn5180_wait_busy_stuck;
    [reflexivity | cbv; split; congruence | exact Hbusy | exact Hfuel].
Qed.

Lemma busy_timed_out_effect (dev : pn5180_dev_t) (ms : Z) (w : world) :
  clock_ms (busy_timed_out dev ms w) = clock_ms w + ms /\
  exists e,
    trace (busy_timed_out dev ms w) = e :: trace w /\
    (forall trans err rx, e <> Spi trans err rx).
Proof.
  unfold busy_timed_out, pn5180_log_internal.
  cbn [Z.ltb Z.compare CONFIG_PN5180_DEBUG_LEVEL Pos.compare
       Pos.compare_cont].
  destruct (negb (log_callback dev =? 0)); cbn;
    (split; [reflexivity|]); eexists; (split; [reflexivity|]);
    intros; discriminate.
Qed.

End BusFacts.

Section BusClaims.
Import PN5180.

(** C6, as the code has it.  With the BUSY line stuck high and the SPI
    mutex free, [pn5180_wait_busy] returns [PN5180_ERR_TIMEOUT] at the
    first poll after the timeout, one millisecond past it, for every
    timeout; [pn5180_spi_transaction] turns that into [ESP_ERR_TIMEOUT];
    and the register write, the register read and both buffer transfers
    return [PN5180_ERR_SPI], 101 ms after they began, having logged the
    timeout and made no transfer on the bus. *)
Theorem stuck_busy_line_ends_every_bus_operation
  (fuel : nat) (dev : pn5180_dev_t) (w : world) :
  (forall t, busy_level w t = true) ->
  spi_mutex_held w = false ->
  spi_device dev <> 0 ->
  CONFIG_PN5180_BUSY_TIMEOUT_MS + 1 < Z.of_nat fuel ->
  let w' := busy_timed_out dev (CONFIG_PN5180_BUSY_TIMEOUT_MS + 1) w in
  (forall timeout_ms,
     0 <= timeout_ms < 2^32 - 1 -> timeout_ms + 1 < Z.of_nat fuel ->
     pn5180_wait_busy fuel dev timeout_ms w
     = Some (PN5180_ERR_TIMEOUT, busy_timed_out dev (timeout_ms + 1) w)) /\
  (forall trans,
     pn5180_spi_transaction fuel dev trans w
     = Some (ESP_ERR_TIMEOUT, [], w')) /\
  (forall reg value,
     pn5180_write_register_internal fuel dev reg value w
     = Some (PN5180_ERR_SPI, w')) /\
  (forall reg,
     pn5180_read_register_internal fuel dev reg w
     = Some (PN5180_ERR_SPI, 0, w')) /\
  (forall data length,
     0 < length <= CONFIG_PN5180_TX_BUFFER_SIZE ->
     pn5180_write_buffer fuel dev data length w
     = Some (PN5180_ERR_SPI, dev, w')) /\
  (forall length,
     pn5180_read_buffer fuel dev length w
     = Some (PN5180_ERR_SPI, [], length, dev, w')) /\
  clock_ms w' = clock_ms w + 101 /\
  (exists e, trace w' = e :: trace w /\
             forall trans err rx, e <> Spi trans err rx).
Proof.
  intros Hbusy Hmutex Hdev Hfuel w'.
  apply Z.eqb_neq in Hdev.
  assert (Hspi : forall trans,
             pn5180_spi_transaction fuel dev trans w
             = Some (ESP_ERR_TIMEOUT, [], w')).
  { intros trans. apply pn5180_spi_transaction_stuck; assumption. }
  assert (Hwr : forall reg value,
             pn5180_write_register_internal fuel dev reg value w
             = Some (PN5180_ERR_SPI, w')).
  { intros reg value. unfold pn5180_write_register_internal.
    rewrite Hdev, Hspi. reflexivity. }
  split; [|split; [|split; [|split; [|split; [|split]]]]].
  - intros timeout_ms Ht Hf. apply pn5180_wait_busy_stuck; assumption.
  - exact Hspi.
  - exact Hwr.
  - intros reg. unfold pn5180_read_register_internal.
    rewrite Hdev, Hspi. reflexivity.
  - intros data length [Hpos Hmax]. unfold pn5180_write_buffer.
    rewrite Hdev. cbn [orb].
    replace (length =? 0) with false by (symmetry; apply Z.eqb_neq; lia).
    replace (CONFIG_PN5180_TX_BUFFER_SIZE <? length) with false
      by (symmetry; apply Z.ltb_ge; lia).
    rewrite Hwr. reflexivity.
  - intros length. unfold pn5180_read_buffer. rewrite Hdev, Hwr. reflexivity.
  - apply busy_timed_out_effect.
Qed.

Lemma stuck_busy_line_ends_every_bus_operation_witness :
  pn5180_write_register_internal 200 example_dev PN5180_REG_IRQ_STATUS 0
    (example_world 5 true)
  = Some (PN5180_ERR_SPI,
          busy_timed_out example_dev 101 (example_world 5 true)).
Proof.
  refine (proj1 (proj2 (proj2
    (stuck_busy_line_ends_every_bus_operation 200 example_dev
       (example_world 5 true) (fun _ => eq_refl) eq_refl _ _))) _ _).
  - discriminate.
  - reflexivity.
Defined.

(** C6 as the claim words it fails: under a BUSY line that never
    clears the register write does not return the timeout code, it
    returns [PN5180_ERR_SPI], and it returns 101 ms after it began, past
    the bound of 100 ms. *)
Lemma stuck_busy_is_reported_as_spi_error :
  option_map fst
    (pn5180_write_register_internal 200 example_dev PN5180_REG_IRQ_STATUS 0
       (example_world 5 true))
  = Some PN5180_ERR_SPI /\
  option_map fst
    (pn5180_write_register_internal 200 example_dev PN5180_REG_IRQ_STATUS 0
       (example_world 5 true))
  <> Some PN5180_ERR_TIMEOUT /\
  option_map (fun r => clock_ms (snd r))
    (pn5180_write_register_internal 200 example_dev PN5180_REG_IRQ_STATUS 0
       (example_world 5 true))
  = Some (5 + 101).
Proof.
  split; [|split].
  - vm_compute. reflexivity.
  - vm_compute. discriminate.
  - vm_compute. reflexivity.
Qed.

End BusClaims.

Section StateMachineFacts.
Import PN5180.

Lemma rx_timeout_ms_default (i : Z) :
  i <> 0 -> i <> 1 -> i <> 2 -> rx_timeout_ms i = 5.
Proof.
  intros H0 H1 H2.
  destruct i as [|[[p|p|]|[p|p|]|]|p]; try reflexivity; contradiction.
Qed.

Lemma land_bit_clear (mask i : Z) :
  0 <= i -> Z.testbit mask i = false -> Z.land mask (Z.shiftl 1 i) = 0.
Proof.
  intros Hi Hbit. apply Z.bits_inj'. intros n Hn.
  rewrite Z.land_spec, Z.shiftl_1_l, Z.pow2_bits_eqb, Z.bits_0 by lia.
  destruct (Z.eqb_spec i n) as [-> | _].
  - rewrite Hbit. reflexivity.
  - apply andb_false_r.
Qed.

(** The index that follows [i] in the selection loop. *)
Lemma find_enabled_protocol_step (fuel : nat) (mask start i : Z) :
  Z.land mask (Z.shiftl 1 i) = 0 ->
  0 <= i < PN5180_PROTOCOL_COUNT ->
  find_enabled_protocol (S fuel) mask start i
  = let index := if i =? 4 then 0 else i + 1 in
    if index =? start then Some (false, index)
    else find_enabled_protocol fuel mask start index.
Proof.
  intros Hbit Hi. cbn [find_enabled_protocol]. rewrite Hbit. cbn [Z.eqb negb].
  unfold PN5180_PROTOCOL_COUNT in *.
  assert (Hcase : i = 0 \/ i = 1 \/ i = 2 \/ i = 3 \/ i = 4) by lia.
  destruct Hcase as [-> | [-> | [-> | [-> | ->]]]]; reflexivity.
Qed.

(** From a start index below the protocol count, with no protocol bit
    set, the loop comes back to the start index after five tests. *)
Lemma find_enabled_protocol_none (fuel : nat) (mask start : Z) :
  (forall i, 0 <= i < PN5180_PROTOCOL_COUNT -> Z.testbit mask i = false) ->
  0 <= start < PN5180_PROTOCOL_COUNT ->
  (5 <= fuel)%nat ->
  find_enabled_protocol fuel mask start start = Some (false, start).
Proof.
  intros Hmask Hstart Hfuel.
  assert (Hbit : forall i, 0 <= i < PN5180_PROTOCOL_COUNT ->
                           Z.land mask (Z.shiftl 1 i) = 0).
  { intros i Hi. apply land_bit_clear; [lia | apply Hmask, Hi]. }
  do 5 (destruct fuel as [|fuel]; [lia|]).
  unfold PN5180_PROTOCOL_COUNT in *.
  assert (Hcase : start = 0 \/ start = 1 \/ start = 2 \/ start = 3
                  \/ start = 4) by lia.
  destruct Hcase as [-> | [-> | [-> | [-> | ->]]]];
    repeat (rewrite find_enabled_protocol_step
              by (try apply Hbit; unfold PN5180_PROTOCOL_COUNT; lia);
            cbn [Z.eqb Z.add Pos.eqb Pos.add Pos.succ]; cbv zeta;
            cbn [Z.eqb Z.add Pos.eqb Pos.add Pos.succ]);
    reflexivity.
Qed.

(** From the start index 5 and an empty mask the loop never leaves. *)
Lemma find_enabled_protocol_diverges (fuel : nat) (i : Z) :
  0 <= i <= 5 -> find_enabled_protocol fuel 0 5 i = None.
Proof.
  revert i. induction fuel as [|fuel IH]; intros i Hi; [reflexivity|].
  cbn [find_enabled_protocol]. rewrite Z.land_0_l. cbn [Z.eqb negb].
  assert (Hcase : i = 0 \/ i = 1 \/ i = 2 \/ i = 3 \/ i = 4 \/ i = 5) by lia.
  destruct Hcase as [-> | [-> | [-> | [-> | [-> | ->]]]]];
    cbn; apply IH; lia.
Qed.

End StateMachineFacts.

Section StateMachineClaims.
Import PN5180.

(** C5, as the code has it.  When the read of the IRQ status succeeds,
    the Transmitting step does this.  With the TX_DONE bit set the state
    becomes Receiving and the receive deadline is the tick read after
    the interrupt was cleared plus [2] ms for ISO14443A, [2] ms for
    ISO14443B, [5] ms for ISO15693 and [5] ms for every other index.
    With TX_DONE clear and TX_ERROR set, or with both clear and more
    than 100 ms since [state_timestamp], the state becomes Scanning and
    the protocol index is incremented.  With both clear and at most
    100 ms elapsed nothing changes. *)
Theorem transmitting_step
  (fuel : nat) (dev : pn5180_dev_t) (w w1 : world) (irq_status : Z) :
  CONFIG_PN5180_BUSY_TIMEOUT_MS + 1 < Z.of_nat fuel ->
  pn5180_read_register_internal fuel dev PN5180_REG_IRQ_STATUS w
  = Some (PN5180_OK, irq_status, w1) ->
  (rx_timeout_ms PN5180_PROTOCOL_ISO14443A = 2 /\
   rx_timeout_ms PN5180_PROTOCOL_ISO14443B = 2 /\
   rx_timeout_ms PN5180_PROTOCOL_ISO15693 = 5 /\
   forall i, i <> PN5180_PROTOCOL_ISO14443A ->
             i <> PN5180_PROTOCOL_ISO14443B ->
             i <> PN5180_PROTOCOL_ISO15693 -> rx_timeout_ms i = 5) /\
  exists dev' w',
    pn5180_state_transmitting fuel dev w = Some (dev', w') /\
    (Z.land irq_status PN5180_IRQ_STATUS_TX_DONE <> 0 ->
     state dev' = DEVICE_STATE_RECEIVING /\
     current_protocol_index dev' = current_protocol_index dev /\
     busy_wait_start_time dev'
     = u32 (pn5180_get_tick_ms w'
            + rx_timeout_ms (current_protocol_index dev))) /\
    (Z.land irq_status PN5180_IRQ_STATUS_TX_DONE = 0 ->
     Z.land irq_status PN5180_IRQ_STATUS_TX_ERROR <> 0 ->
     state dev' = DEVICE_STATE_SCANNING /\
     current_protocol_index dev' = u8 (current_protocol_index dev + 1)) /\
    (Z.land irq_status PN5180_IRQ_STATUS_TX_DONE = 0 ->
     Z.land irq_status PN5180_IRQ_STATUS_TX_ERROR = 0 ->
     100 < u32 (pn5180_get_tick_ms w1 - state_timestamp dev) ->
     state dev' = DEVICE_STATE_SCANNING /\
     current_protocol_index dev' = u8 (current_protocol_index dev + 1)) /\
    (Z.land irq_status PN5180_IRQ_STATUS_TX_DONE = 0 ->
     Z.land irq_status PN5180_IRQ_STATUS_TX_ERROR = 0 ->
     u32 (pn5180_get_tick_ms w1 - state_timestamp dev) <= 100 ->
     dev' = dev /\ w' = w1).
Proof.
  intros Hfuel Hread. split.
  { repeat split; try reflexivity. apply rx_timeout_ms_default. }
  unfold pn5180_state_transmitting. rewrite Hread. cbn [bind is_ok negb].
  destruct (Z.land irq_status PN5180_IRQ_STATUS_TX_DONE =? 0) eqn:Hdone;
    cbn [negb].
  - apply Z.eqb_eq in Hdone.
    destruct (Z.land irq_status PN5180_IRQ_STATUS_TX_ERROR =? 0) eqn:Herr;
      cbn [negb].
    + apply Z.eqb_eq in Herr.
      destruct (100 <? u32 (pn5180_get_tick_ms w1 - state_timestamp dev))
        eqn:Hlate.
      * apply Z.ltb_lt in Hlate. do 2 eexists. split; [reflexivity|].
        repeat split; try reflexivity; intros; try contradiction; lia.
      * apply Z.ltb_ge in Hlate. do 2 eexists. split; [reflexivity|].
        repeat split; try reflexivity; intros; try contradiction; lia.
    + apply Z.eqb_neq in Herr.
      destruct (pn5180_write_register_internal_total fuel dev
                  PN5180_REG_IRQ_STATUS PN5180_IRQ_STATUS_TX_ERROR w1 Hfuel)
        as [[e w2] Hwrite].
      rewrite Hwrite. cbn [bind]. do 2 eexists. split; [reflexivity|].
      repeat split; try reflexivity; intros; contradiction.
  - apply Z.eqb_neq in Hdone.
    destruct (pn5180_write_register_internal_total fuel dev
                PN5180_REG_IRQ_STATUS PN5180_IRQ_STATUS_TX_DONE w1 Hfuel)
      as [[e w2] Hwrite].
    rewrite Hwrite. cbn [bind]. do 2 eexists. split; [reflexivity|].
    repeat split; try reflexivity; intros; contradiction.
Qed.

Lemma transmitting_step_witness :
  exists dev' w',
    pn5180_state_transmitting 200 example_dev (example_world 101 false)
    = Some (dev', w') /\
    state dev' = DEVICE_STATE_SCANNING /\
    current_protocol_index dev' = 1.
Proof.
  destruct (transmitting_step 200 example_dev (example_world 101 false)
              (emit (Spi (SpiRx 4) ESP_OK [0; 0; 0; 0])
                 (emit (Spi (SpiTx [2]) ESP_OK [0; 0; 0; 0])
                    (example_world 101 false)))
              0 eq_refl eq_refl)
    as [_ (dev' & w' & Hstep & _ & _ & Hlate & _)].
  exists dev', w'. split; [exact Hstep|].
  apply Hlate; reflexivity.
Defined.

(** C5 as the claim words it fails in two places.  With neither bit
    set and exactly 100 ms elapsed since [state_timestamp], the state
    stays Transmitting and the protocol index stays where it was.  And
    with the TX_ERROR bit set together with TX_DONE (status [0x12]) the
    state becomes Receiving, not Scanning, and the index is kept. *)
Lemma transmit_timeout_needs_more_than_100_ms :
  (option_map (fun r => snd (fst r))
     (pn5180_read_register_internal 200 example_dev PN5180_REG_IRQ_STATUS
        (example_world 100 false))
   = Some 0 /\
   u32 (pn5180_get_tick_ms (example_world 100 false)
        - state_timestamp example_dev) = 100 /\
   option_map (fun r => (state (fst r), current_protocol_index (fst r)))
     (pn5180_state_transmitting 200 example_dev (example_world 100 false))
   = Some (DEVICE_STATE_TRANSMITTING, 0)) /\
  (option_map (fun r => snd (fst r))
     (pn5180_read_register_internal 200 example_dev PN5180_REG_IRQ_STATUS
        (example_world_replying 3 [0; 0; 0; 0x12]))
   = Some 0x12 /\
   Z.land 0x12 PN5180_IRQ_STATUS_TX_ERROR <> 0 /\
   option_map (fun r => (state (fst r), current_protocol_index (fst r)))
     (pn5180_state_transmitting 200 example_dev
        (example_world_replying 3 [0; 0; 0; 0x12]))
   = Some (DEVICE_STATE_RECEIVING, 0)).
Proof.
  repeat split; try (vm_compute; reflexivity). vm_compute. discriminate.
Qed.

(** C7.  A stop-scan command on a handle that is not scanning, and a
    start-scan command on a handle that is scanning, return [PN5180_OK]
    and leave the handle and the world as they were: no register is
    read or written, and the mask, the index and the state keep their
    values.  Hence a second stop after a stop, and a second start after
    a start, change nothing. *)
Theorem scan_commands_idempotent :
  (forall fuel dev cmd w,
     scanning_enabled dev = false ->
     pn5180_cmd_stop_scan fuel dev cmd w = Some (PN5180_OK, dev, w)) /\
  (forall dev cmd w,
     scanning_enabled dev = true ->
     pn5180_cmd_start_scan dev (Some cmd) w = (PN5180_OK, dev, w)) /\
  (forall fuel dev cmd cmd' w e dev1 w1,
     pn5180_cmd_stop_scan fuel dev cmd w = Some (e, dev1, w1) ->
     pn5180_cmd_stop_scan fuel dev1 cmd' w1 = Some (PN5180_OK, dev1, w1)) /\
  (forall dev cmd cmd' w e dev1 w1,
     pn5180_cmd_start_scan dev (Some cmd) w = (e, dev1, w1) ->
     pn5180_cmd_start_scan dev1 (Some cmd') w1 = (PN5180_OK, dev1, w1)).
Proof.
  assert (Hstop : forall fuel dev cmd w,
             scanning_enabled dev = false ->
             pn5180_cmd_stop_scan fuel dev cmd w = Some (PN5180_OK, dev, w)).
  { intros fuel dev cmd w Hoff. unfold pn5180_cmd_stop_scan.
    rewrite Hoff. reflexivity. }
  assert (Hstart : forall dev cmd w,
             scanning_enabled dev = true ->
             pn5180_cmd_start_scan dev (Some cmd) w = (PN5180_OK, dev, w)).
  { intros dev cmd w Hon. unfold pn5180_cmd_start_scan.
    rewrite Hon. reflexivity. }
  split; [exact Hstop|]. split; [exact Hstart|]. split.
  - intros fuel dev cmd cmd' w e dev1 w1 Hfirst. apply Hstop.
    unfold pn5180_cmd_stop_scan in Hfirst.
    destruct (scanning_enabled dev) eqn:Hon; cbn [negb] in Hfirst.
    + destruct (pn5180_read_register_internal fuel
                  (set_scanning_enabled dev false) PN5180_REG_RF_CONTROL w)
        as [[[err rf] w2]|]; cbn [bind] in Hfirst; [|discriminate].
      destruct (is_ok err).
      * destruct (pn5180_write_register_internal fuel
                    (set_scanning_enabled dev false) PN5180_REG_RF_CONTROL
                    (Z.land rf (Z.lnot PN5180_RF_CONTROL_FIELD_ON)) w2)
          as [[e2 w3]|]; cbn [bind] in Hfirst; [|discriminate].
        inversion Hfirst. reflexivity.
      * cbn [bind] in Hfirst. inversion Hfirst. reflexivity.
    + inversion Hfirst. subst. exact Hon.
  - intros dev cmd cmd' w e dev1 w1 Hfirst. apply Hstart.
    unfold pn5180_cmd_start_scan in Hfirst.
    destruct (scanning_enabled dev) eqn:Hon; inversion Hfirst; subst.
    + exact Hon.
    + reflexivity.
Qed.

Lemma scan_commands_idempotent_witness :
  pn5180_cmd_stop_scan 200 (set_scanning_enabled example_dev false) None
    (example_world 7 false)
  = Some (PN5180_OK, set_scanning_enabled example_dev false,
          example_world 7 false) /\
  pn5180_cmd_start_scan example_dev
    (Some {| type := CMD_START_SCAN; start_scan_protocols := 4 |})
    (example_world 7 false)
  = (PN5180_OK, example_dev, example_world 7 false).
Proof.
  destruct scan_commands_idempotent as (Hstop & Hstart & _ & _).
  split.
  - apply Hstop. reflexivity.
  - apply Hstart. reflexivity.
Defined.

(** C8, as the code has it.  In a Scanning step with scanning enabled,
    the scan-cycle delay elapsed, no bit of a protocol set in the mask
    and a start index below [PN5180_PROTOCOL_COUNT], the selection loop
    ends within five tests and the state becomes Idle; the index is
    back at its start and the bus was not used. *)
Theorem scanning_without_protocols_goes_idle
  (fuel : nat) (dev : pn5180_dev_t) (w : world) :
  scanning_enabled dev = true ->
  CONFIG_PN5180_SCAN_CYCLE_DELAY_MS
  <= u32 (pn5180_get_tick_ms w - last_scan_time dev) ->
  (forall i, 0 <= i < PN5180_PROTOCOL_COUNT ->
             Z.testbit (enabled_protocols dev) i = false) ->
  0 <= current_protocol_index dev < PN5180_PROTOCOL_COUNT ->
  (5 <= fuel)%nat ->
  pn5180_state_scanning fuel dev w
  = Some (set_state dev DEVICE_STATE_IDLE, w).
Proof.
  intros Hon Hdelay Hmask Hindex Hfuel. unfold pn5180_state_scanning.
  rewrite Hon. cbn [negb].
  replace (u32 (pn5180_get_tick_ms w - last_scan_time dev)
           <? CONFIG_PN5180_SCAN_CYCLE_DELAY_MS) with false
    by (symmetry; apply Z.ltb_ge; exact Hdelay).
  rewrite find_enabled_protocol_none by assumption.
  cbn [bind negb]. destruct dev; reflexivity.
Qed.

Lemma scanning_without_protocols_goes_idle_witness :
  pn5180_state_scanning 5
    (set_current_protocol_index (set_enabled_protocols example_dev 0) 3)
    (example_world 10 false)
  = Some (set_state
            (set_current_protocol_index (set_enabled_protocols example_dev 0)
               3)
            DEVICE_STATE_IDLE,
          example_world 10 false).
Proof.
  apply scanning_without_protocols_goes_idle.
  - reflexivity.
  - vm_compute. discriminate.
  - intros i _. apply Z.bits_0.
  - vm_compute. split; [discriminate | reflexivity].
  - apply le_n.
Defined.

(** C8 as the claim words it fails twice.  Before the scan-cycle delay
    has elapsed the step returns at once and the state stays Scanning.
    And from the start index 5 with an empty mask the selection loop has
    no exit: the step returns for no amount of fuel. *)
Lemma scanning_without_protocols_can_stay_or_spin :
  option_map (fun r => state (fst r))
    (pn5180_state_scanning 10
       (set_state (set_enabled_protocols example_dev 0) DEVICE_STATE_SCANNING)
       (example_world 0 false))
  = Some DEVICE_STATE_SCANNING /\
  ~ (exists fuel,
       pn5180_state_scanning fuel
         (set_current_protocol_index (set_enabled_protocols example_dev 0) 5)
         (example_world 10 false)
       <> None).
Proof.
  split.
  - vm_compute. reflexivity.
  - intros [fuel Hret]. apply Hret. unfold pn5180_state_scanning.
    replace (negb (scanning_enabled _)) with false by reflexivity.
    replace (u32 _ <? CONFIG_PN5180_SCAN_CYCLE_DELAY_MS) with false
      by reflexivity.
    change (find_enabled_protocol fuel _ _ _)
      with (find_enabled_protocol fuel 0 5 5).
    rewrite find_enabled_protocol_diverges by lia. reflexivity.
Qed.

End StateMachineClaims.

Section CallbackFacts.
Import PN5180.

Lemma callbacks_got_refl (ud : Z) (w : world) : callbacks_got ud w w.
Proof. exists []. split; [reflexivity | constructor]. Qed.

Lemma callbacks_got_trans (ud : Z) (w1 w2 w3 : world) :
  callbacks_got ud w1 w2 -> callbacks_got ud w2 w3 -> callbacks_got ud w1 w3.
Proof.
  intros (a1 & H1 & F1) (a2 & H2 & F2). exists (a2 ++ a1). split.
  - rewrite H2, H1, app_assoc. reflexivity.
  - apply Forall_app. split; assumption.
Qed.

Lemma callbacks_got_emit (ud : Z) (e : event) (w : world) :
  (forall u, delivered_user_data e = Some u -> u = ud) ->
  callbacks_got ud w (emit e w).
Proof.
  intros He. exists [e]. split; [reflexivity|].
  constructor; [exact He | constructor].
Qed.

Lemma callbacks_got_delay (ud ms : Z) (w : world) :
  callbacks_got ud w (vTaskDelay ms w).
Proof. exists []. split; [reflexivity | constructor]. Qed.

Lemma callbacks_got_log (dev : pn5180_dev_t) (level : Z) (format : string)
  (w : world) :
  callbacks_got (callback_user_data dev) w
    (pn5180_log_internal dev level format w).
Proof.
  unfold pn5180_log_internal.
  destruct (CONFIG_PN5180_DEBUG_LEVEL <? level);
    [apply callbacks_got_refl|].
  destruct (negb (log_callback dev =? 0)).
  - apply callbacks_got_emit. cbn. intros u Hu. congruence.
  - destruct level as [|[[p|p|]|[p|p|]|]|p];
      try apply callbacks_got_refl;
      apply callbacks_got_emit; cbn; intros; discriminate.
Qed.

Lemma callbacks_got_wait_busy_loop (dev : pn5180_dev_t)
  (start_time timeout_ms : Z) :
  forall (fuel : nat) (w w' : world) (r : pn5180_error_t),
    wait_busy_loop fuel dev start_time timeout_ms w = Some (r, w') ->
    callbacks_got (callback_user_data dev) w w'.
Proof.
  induction fuel as [|fuel IH]; intros w w' r Hrun; [discriminate|].
  cbn [wait_busy_loop] in Hrun.
  destruct (pn5180_is_busy_active w).
  - destruct (timeout_ms <? u32 (pn5180_get_tick_ms w - start_time)).
    + inversion Hrun. apply callbacks_got_log.
    + eapply callbacks_got_trans;
        [apply (callbacks_got_delay _ 1) | eapply IH, Hrun].
  - inversion Hrun. apply callbacks_got_refl.
Qed.

Lemma callbacks_got_spi_transaction (fuel : nat) (dev : pn5180_dev_t)
  (trans : spi_transaction_t) (w w' : world) (err : Z) (rx : list Z) :
  pn5180_spi_transaction fuel dev trans w = Some (err, rx, w') ->
  callbacks_got (callback_user_data dev) w w'.
Proof.
  unfold pn5180_spi_transaction, pn5180_wait_busy. intros Hrun.
  destruct (spi_mutex_held w).
  - inversion Hrun. apply callbacks_got_delay.
  - destruct (wait_busy_loop fuel dev (pn5180_get_tick_ms w)
                CONFIG_PN5180_BUSY_TIMEOUT_MS w) as [[busy w1]|] eqn:Hwait;
      cbn [bind] in Hrun; [|discriminate].
    apply callbacks_got_wait_busy_loop in Hwait.
    destruct (negb (is_ok busy)).
    + inversion Hrun. subst. exact Hwait.
    + destruct (spi_device_transmit w1 (trace w1) trans) as [e d].
      inversion Hrun. subst. eapply callbacks_got_trans; [exact Hwait|].
      apply callbacks_got_emit. cbn. intros; discriminate.
Qed.

Lemma callbacks_got_write_register (fuel : nat) (dev : pn5180_dev_t)
  (reg value : Z) (w w' : world) (r : pn5180_error_t) :
  pn5180_write_register_internal fuel dev reg value w = Some (r, w') ->
  callbacks_got (callback_user_data dev) w w'.
Proof.
  unfold pn5180_write_register_internal. intros Hrun.
  destruct (spi_device dev =? 0);
    [inversion Hrun; apply callbacks_got_refl|].
  match type of Hrun with
  | context [pn5180_spi_transaction fuel dev ?t w] =>
      destruct (pn5180_spi_transaction fuel dev t w) as [[[e d] w1]|] eqn:Hspi
  end; cbn [bind] in Hrun; [|discriminate].
  apply callbacks_got_spi_transaction in Hspi.
  destruct (negb (e =? ESP_OK)); inversion Hrun; subst; exact Hspi.
Qed.

Lemma callbacks_got_read_register (fuel : nat) (dev : pn5180_dev_t)
  (reg : Z) (w w' : world) (r : pn5180_error_t) (value : Z) :
  pn5180_read_register_internal fuel dev reg w = Some (r, value, w') ->
  callbacks_got (callback_user_data dev) w w'.
Proof.
  unfold pn5180_read_register_internal. intros Hrun.
  destruct (spi_device dev =? 0);
    [inversion Hrun; apply callbacks_got_refl|].
  destruct (pn5180_spi_transaction fuel dev (SpiTx [Z.land reg 127]) w)
    as [[[e d] w1]|] eqn:Hcmd; cbn [bind] in Hrun; [|discriminate].
  apply callbacks_got_spi_transaction in Hcmd.
  destruct (negb (e =? ESP_OK)); [inversion Hrun; subst; exact Hcmd|].
  destruct (pn5180_spi_transaction fuel dev (SpiRx 4) w1)
    as [[[e2 d2] w2]|] eqn:Hdata; cbn [bind] in Hrun; [|discriminate].
  apply callbacks_got_spi_transaction in Hdata.
  destruct (negb (e2 =? ESP_OK)); inversion Hrun; subst;
    eapply callbacks_got_trans; eassumption.
Qed.

Lemma callbacks_got_read_chunks (dev : pn5180_dev_t) (bytes_to_read : Z) :
  forall (fuel : nat) (buffer : list Z) (offset : Z) (w w' : world)
         (r : pn5180_error_t) (buffer' : list Z) (offset' : Z),
    read_chunks fuel dev buffer offset bytes_to_read w
    = Some (r, buffer', offset', w') ->
    callbacks_got (callback_user_data dev) w w'.
Proof.
  induction fuel as [|fuel IH];
    intros buffer offset w w' r buffer' offset' Hrun; [discriminate|].
  cbn [read_chunks] in Hrun.
  destruct (offset <? bytes_to_read);
    [|inversion Hrun; apply callbacks_got_refl].
  match type of Hrun with
  | context [pn5180_spi_transaction fuel dev ?t w] =>
      destruct (pn5180_spi_transaction fuel dev t w) as [[[e d] w1]|] eqn:Hspi
  end; cbn [bind] in Hrun; [|discriminate].
  apply callbacks_got_spi_transaction in Hspi.
  destruct (negb (e =? ESP_OK)); [inversion Hrun; subst; exact Hspi|].
  eapply callbacks_got_trans; [exact Hspi | eapply IH, Hrun].
Qed.

Lemma callbacks_got_read_buffer (fuel : nat) (dev dev' : pn5180_dev_t)
  (length length' : Z) (w w' : world) (r : pn5180_error_t)
  (buffer : list Z) :
  pn5180_read_buffer fuel dev length w
  = Some (r, buffer, length', dev', w') ->
  callbacks_got (callback_user_data dev) w w' /\
  callback_user_data dev' = callback_user_data dev /\
  card_callback dev' = card_callback dev.
Proof.
  unfold pn5180_read_buffer. intros Hrun.
  destruct (spi_device dev =? 0);
    [inversion Hrun; subst; auto using callbacks_got_refl|].
  destruct (pn5180_write_register_internal fuel dev PN5180_REG_RX_DATA 0 w)
    as [[e w1]|] eqn:Hptr; cbn [bind] in Hrun; [|discriminate].
  apply callbacks_got_write_register in Hptr.
  destruct (negb (is_ok e)); [inversion Hrun; subst; auto|].
  match type of Hrun with
  | context [read_chunks fuel dev [] 0 ?n w1] =>
      destruct (read_chunks fuel dev [] 0 n w1)
        as [[[[e2 b2] o2] w2]|] eqn:Hchunks
  end; cbn [bind] in Hrun; [|discriminate].
  apply callbacks_got_read_chunks in Hchunks.
  destruct (negb (is_ok e2)); inversion Hrun; subst;
    (split; [eapply callbacks_got_trans; eassumption | auto]).
Qed.

Lemma callbacks_got_state_processing
  (decode_a decode_v :
     pn5180_dev_t -> list Z -> Z -> pn5180_card_info_t ->
     pn5180_error_t * pn5180_card_info_t)
  (fuel : nat) (dev dev' : pn5180_dev_t) (w w' : world) :
  pn5180_state_processing decode_a decode_v fuel dev w = Some (dev', w') ->
  callbacks_got (callback_user_data dev) w w'.
Proof.
  unfold pn5180_state_processing. intros Hrun.
  destruct (pn5180_read_buffer fuel dev CONFIG_PN5180_RX_BUFFER_SIZE w)
    as [[[[[e buffer] len] dev1] w1]|] eqn:Hread;
    cbn [bind] in Hrun; [|discriminate].
  apply callbacks_got_read_buffer in Hread.
  destruct Hread as (Hgot & Hud & Hcb).
  destruct (negb (is_ok e)); [inversion Hrun; subst; exact Hgot|].
  match type of Hrun with
  | context [let '(_, _) := ?d in _] => destruct d as [e2 card]
  end.
  destruct (is_ok e2).
  - destruct (pn5180_read_register_internal fuel
                (set_cards_detected dev1 (u32 (cards_detected dev1 + 1)))
                PN5180_REG_RF_STATUS w1)
      as [[[e3 rf] w2]|] eqn:Hrssi; cbn [bind] in Hrun; [|discriminate].
    apply callbacks_got_read_register in Hrssi.
    change (callback_user_data
              (set_cards_detected dev1 (u32 (cards_detected dev1 + 1))))
      with (callback_user_data dev1) in Hrssi.
    rewrite Hud in Hrssi.
    change (card_callback
              (set_cards_detected dev1 (u32 (cards_detected dev1 + 1))))
      with (card_callback dev1) in Hrun.
    change (callback_user_data
              (set_cards_detected dev1 (u32 (cards_detected dev1 + 1))))
      with (callback_user_data dev1) in Hrun.
    destruct (negb (card_callback dev1 =? 0)); cbn [bind] in Hrun;
      inversion Hrun; subst.
    + eapply callbacks_got_trans; [exact Hgot|].
      eapply callbacks_got_trans; [exact Hrssi|].
      apply callbacks_got_emit. cbn. intros u Hu. congruence.
    + eapply callbacks_got_trans; eassumption.
  - cbn [bind] in Hrun. inversion Hrun. subst. exact Hgot.
Qed.

Lemma setter_sets_user_data (dev : pn5180_dev_t) (c : setter_call) :
  callback_user_data (apply_setter dev c) = user_data_of c.
Proof. destruct c; reflexivity. Qed.

End CallbackFacts.

Section CallbackClaims.
Import PN5180.

(** C10.  The handle has one [callback_user_data] field and each of the
    three setters overwrites it.  After any sequence of setter calls the
    field holds the user data of the last call, whichever setter that
    was; the log callback, when one is set and the level passes, is
    invoked with it; and every callback invoked by a logging call or by
    a Processing step, the card callback included, is given it. *)
Theorem callbacks_share_one_user_data
  (calls : list setter_call) (last : setter_call) (dev : pn5180_dev_t) :
  let dev' := fold_left apply_setter (calls ++ [last]) dev in
  callback_user_data dev' = user_data_of last /\
  (forall level format w,
     level <= CONFIG_PN5180_DEBUG_LEVEL -> log_callback dev' <> 0 ->
     trace (pn5180_log_internal dev' level format w)
     = LogCallback (log_callback dev') format (user_data_of last) :: trace w) /\
  (forall level format w,
     callbacks_got (user_data_of last) w
       (pn5180_log_internal dev' level format w)) /\
  (forall decode_a decode_v fuel w dev'' w',
     pn5180_state_processing decode_a decode_v fuel dev' w
     = Some (dev'', w') ->
     callbacks_got (user_data_of last) w w').
Proof.
  intros dev'.
  assert (Hud : callback_user_data dev' = user_data_of last).
  { unfold dev'. rewrite fold_left_app. cbn [fold_left].
    apply setter_sets_user_data. }
  split; [exact Hud|]. split; [|split].
  - intros level format w Hlevel Hcb. unfold pn5180_log_internal.
    replace (CONFIG_PN5180_DEBUG_LEVEL <? level) with false
      by (symmetry; apply Z.ltb_ge; exact Hlevel).
    apply Z.eqb_neq in Hcb. rewrite Hcb, Hud. reflexivity.
  - intros level format w. rewrite <- Hud. apply callbacks_got_log.
  - intros decode_a decode_v fuel w dev'' w' Hrun. rewrite <- Hud.
    eapply callbacks_got_state_processing, Hrun.
Qed.

Lemma callbacks_share_one_user_data_witness :
  match
    pn5180_state_processing example_decoder example_decoder 200
      (fold_left apply_setter ([SetCard 11 100] ++ [SetLog 22 200])
         example_dev)
      (example_world 0 false)
  with
  | Some (_, w') => callbacks_got 200 (example_world 0 false) w'
  | None => False
  end.
Proof.
  pose proof (callbacks_share_one_user_data [SetCard 11 100] (SetLog 22 200)
                example_dev) as (_ & _ & _ & Hstep).
  specialize (Hstep example_decoder example_decoder 200%nat
                (example_world 0 false)).
  destruct (pn5180_state_processing example_decoder example_decoder 200
              (fold_left apply_setter ([SetCard 11 100] ++ [SetLog 22 200])
                 example_dev)
              (example_world 0 false)) as [[dev'' w']|] eqn:Hrun.
  - apply (Hstep dev'' w'). reflexivity.
  - vm_compute in Hrun. discriminate Hrun.
Defined.

(** The card callback registered with the user data [100] is invoked
    with [200], the user data that came with the log callback. *)
Example card_callback_gets_the_last_user_data :
  option_map (fun r => hd_error (trace (snd r)))
    (pn5180_state_processing example_decoder example_decoder 200
       (fold_left apply_setter [SetCard 11 100; SetLog 22 200] example_dev)
       (example_world 0 false))
  = Some (Some (CardCallback 11
                  (set_card_header card_info_zero 0 0) 200)).
Proof. vm_compute. reflexivity. Qed.

End CallbackClaims.

(** * Further properties of the sketch *)

Section SketchExtras.
Import Sketch.

Lemma SystemMode_eqb_refl (m : SystemMode) : SystemMode_eqb m m = true.
Proof. destruct m; reflexivity. Qed.

Lemma WifiSubMode_eqb_refl (m : WifiSubMode) : WifiSubMode_eqb m m = true.
Proof. destruct m; reflexivity. Qed.

(** What [updateDisplay] leaves behind asks for no refresh: the flag is
    down and the two remembered modes are the current ones, or the
    globals are as they were and asked for none. *)
Lemma updateDisplay_settled (g : globals) :
  let g' := fst (updateDisplay g) in
  negb (displayUpdateRequired g')
  && SystemMode_eqb (currentMode g') (lastDisplayedMode g')
  && WifiSubMode_eqb (currentWifiSubMode g') (lastWifiSubMode g') = true.
Proof.
  unfold updateDisplay.
  destruct (negb (displayUpdateRequired g)
            && SystemMode_eqb (currentMode g) (lastDisplayedMode g)
            && WifiSubMode_eqb (currentWifiSubMode g) (lastWifiSubMode g))
    eqn:Hquiet; cbn [fst].
  - exact Hquiet.
  - cbn [displayUpdateRequired currentMode lastDisplayedMode
         currentWifiSubMode lastWifiSubMode negb].
    rewrite SystemMode_eqb_refl, WifiSubMode_eqb_refl. reflexivity.
Qed.

Lemma updateDisplay_quiet (g : globals) :
  negb (displayUpdateRequired g)
  && SystemMode_eqb (currentMode g) (lastDisplayedMode g)
  && WifiSubMode_eqb (currentWifiSubMode g) (lastWifiSubMode g) = true ->
  updateDisplay g = (g, []).
Proof. intros Hquiet. unfold updateDisplay. rewrite Hquiet. reflexivity. Qed.

(** X1.  [updateDisplay] right after [updateDisplay] draws nothing and
    changes nothing: a screen is refreshed once per change. *)
Theorem updateDisplay_idempotent (g : globals) :
  updateDisplay (fst (updateDisplay g)) = (fst (updateDisplay g), []).
Proof. apply updateDisplay_quiet, updateDisplay_settled. Qed.

Lemma ulong_elapsed (t0 d : Z) :
  0 <= d < 2^32 -> ulong (ulong (t0 + d) - t0) = d.
Proof.
  intros Hd. unfold ulong. rewrite Zminus_mod_idemp_l.
  replace (t0 + d - t0) with d by lia. apply Z.mod_small. exact Hd.
Qed.

(** X2.  A press of the mode button at [t0] released [d] ms later, also
    across the wrap of [millis]: up to 50 ms it is dropped, above 50 and
    below 1000 ms it sets the short-press flag only, from 1000 ms on the
    long-press flag only. *)
Theorem mode_button_press_classified (s : sketch) (t0 d : Z) :
  0 <= d < 2^32 ->
  let s1 := handleModeButtonInterrupt t0 true s in
  let s2 := handleModeButtonInterrupt (ulong (t0 + d)) false s1 in
  (d <= 50 -> s2 = s1) /\
  (50 < d < LONG_PRESS_DURATION ->
   modeButtonPressed s2 = true /\
   modeButtonLongPressed s2 = modeButtonLongPressed s) /\
  (LONG_PRESS_DURATION <= d ->
   modeButtonLongPressed s2 = true /\
   modeButtonPressed s2 = modeButtonPressed s).
Proof.
  intros Hd s1 s2. unfold s2, s1, handleModeButtonInterrupt.
  cbn [set_mode_button modeButtonPressTime modeButtonPressed
       modeButtonLongPressed].
  rewrite ulong_elapsed by exact Hd.
  unfold LONG_PRESS_DURATION.
  destruct (50 <? d) eqn:H50; [apply Z.ltb_lt in H50 | apply Z.ltb_ge in H50].
  - destruct (1000 <=? d) eqn:H1000;
      [apply Z.leb_le in H1000 | apply Z.leb_gt in H1000];
      repeat split; intros; try lia; reflexivity.
  - repeat split; intros; try lia; reflexivity.
Qed.

Lemma mode_button_press_classified_witness :
  modeButtonPressed
    (handleModeButtonInterrupt (ulong (4294967290 + 300)) false
       (handleModeButtonInterrupt 4294967290 true example_sketch))
  = true.
Proof.
  assert (Hd : 0 <= 300 < 2^32) by lia.
  destruct (mode_button_press_classified example_sketch 4294967290 300 Hd)
    as (_ & Hshort & _).
  apply Hshort. unfold LONG_PRESS_DURATION. lia.
Defined.

(** X3.  After a falling edge of the select button that was taken at
    [t], an edge up to 200 ms later changes nothing, also across the
    wrap of [millis]; a later one with the pin low sets the press flag
    and takes its time as the new reference. *)
Theorem select_button_debounced (s : sketch) (t d : Z) (pinLow : bool) :
  0 <= d < 2^32 ->
  SELECT_DEBOUNCE_TIME < ulong (t - lastSelectDebounceTime s) ->
  let s1 := handleSelectButtonInterrupt t true s in
  let s2 := handleSelectButtonInterrupt (ulong (t + d)) pinLow s1 in
  selectButtonPressed s1 = true /\
  (d <= SELECT_DEBOUNCE_TIME -> s2 = s1) /\
  (SELECT_DEBOUNCE_TIME < d ->
   lastSelectDebounceTime s2 = ulong (t + d) /\
   selectButtonPressed s2 = true /\
   (pinLow = true -> selectButtonPressTime s2 = ulong (t + d))).
Proof.
  intros Hd Htaken s1 s2.
  assert (Hs1 : s1 = set_select_button s true t t).
  { unfold s1, handleSelectButtonInterrupt.
    apply Z.ltb_lt in Htaken. rewrite Htaken. reflexivity. }
  unfold s2. rewrite Hs1. unfold handleSelectButtonInterrupt.
  cbn [set_select_button lastSelectDebounceTime selectButtonPressed
       selectButtonPressTime].
  rewrite ulong_elapsed by exact Hd.
  split; [reflexivity|].
  destruct (SELECT_DEBOUNCE_TIME <? d) eqn:Hlate;
    [apply Z.ltb_lt in Hlate | apply Z.ltb_ge in Hlate].
  - split; [intros; lia|]. intros _. destruct pinLow; cbn; auto.
    repeat split. discriminate.
  - split; [reflexivity | intros; lia].
Qed.

Lemma select_button_debounced_witness :
  handleSelectButtonInterrupt (ulong (1000 + 150)) true
    (handleSelectButtonInterrupt 1000 true example_sketch)
  = handleSelectButtonInterrupt 1000 true example_sketch.
Proof.
  assert (Hd : 0 <= 150 < 2^32) by lia.
  assert (Ht : SELECT_DEBOUNCE_TIME
               < ulong (1000 - lastSelectDebounceTime example_sketch))
    by (vm_compute; reflexivity).
  destruct (select_button_debounced example_sketch 1000 150 true Hd Ht)
    as (_ & Hbounce & _).
  apply Hbounce. unfold SELECT_DEBOUNCE_TIME. lia.
Defined.

(** X4.  With the system ready, a short press of the mode button in NFC
    mode opens the WiFi main menu, a press in a WiFi submenu goes back
    to the main menu, and a press in the main menu goes back to NFC
    mode; each asks for a display update and none touches the card
    state. *)
Theorem mode_button_walks_the_menu (s : sketch) :
  systemReady s = true ->
  let g := vars s in
  let g' := vars (fst (handleModeButtonPress s)) in
  displayUpdateRequired g' = true /\
  lastUID g' = lastUID g /\ cardDetected g' = cardDetected g /\
  (currentMode g = MODE_NFC ->
   currentMode g' = MODE_WIFI /\ currentWifiSubMode g' = WIFI_SUB_NONE) /\
  (currentMode g = MODE_WIFI -> currentWifiSubMode g <> WIFI_SUB_NONE ->
   currentMode g' = MODE_WIFI /\ currentWifiSubMode g' = WIFI_SUB_NONE) /\
  (currentMode g = MODE_WIFI -> currentWifiSubMode g = WIFI_SUB_NONE ->
   currentMode g' = MODE_NFC).
Proof.
  intros Hready g g'. unfold g', handleModeButtonPress. rewrite Hready.
  cbn [negb]. fold g.
  destruct (currentMode g) eqn:Hmode; [|destruct (currentWifiSubMode g) eqn:Hsub];
    cbn; repeat split; intros; try congruence; try discriminate.
Qed.

Lemma mode_button_walks_the_menu_witness :
  currentMode
    (vars (fst (handleModeButtonPress
                  (fst (handleModeButtonPress example_sketch)))))
  = MODE_NFC.
Proof.
  destruct (mode_button_walks_the_menu example_sketch eq_refl)
    as (_ & _ & _ & Hnfc & _ & _).
  destruct (Hnfc eq_refl) as [Hmode Hsub].
  destruct (mode_button_walks_the_menu
              (fst (handleModeButtonPress example_sketch)) eq_refl)
    as (_ & _ & _ & _ & _ & Hback).
  exact (Hback Hmode Hsub).
Defined.

(** X5.  In the WiFi scan submenu, with the selection inside the list,
    a press of the select button moves the selection to the next of the
    five networks, wrapping to the first; it stays inside the list, the
    name printed is the one selected, and the mode is kept. *)
Theorem select_button_cycles_networks (s : sketch) :
  systemReady s = true ->
  currentMode (vars s) = MODE_WIFI ->
  currentWifiSubMode (vars s) = WIFI_SUB_SCAN ->
  0 <= scanWifiSelection s < MAX_WIFI_NETWORKS ->
  exists s' name,
    handleSelectButtonPress s
    = Some (s', [SerialPrint "Selected WiFi: "; SerialPrint name]) /\
    scanWifiSelection s' = (scanWifiSelection s + 1) mod MAX_WIFI_NETWORKS /\
    0 <= scanWifiSelection s' < MAX_WIFI_NETWORKS /\
    nth_error wifiNetworks (Z.to_nat (scanWifiSelection s')) = Some name /\
    currentMode (vars s') = MODE_WIFI /\
    currentWifiSubMode (vars s') = WIFI_SUB_SCAN /\
    displayUpdateRequired (vars s') = true.
Proof.
  intros Hready Hmode Hsub Hsel. unfold handleSelectButtonPress.
  rewrite Hready, Hmode, Hsub. cbn [negb]. unfold MAX_WIFI_NETWORKS in *.
  assert (Hcase : scanWifiSelection s = 0 \/ scanWifiSelection s = 1 \/
                  scanWifiSelection s = 2 \/ scanWifiSelection s = 3 \/
                  scanWifiSelection s = 4) by lia.
  destruct Hcase as [H | [H | [H | [H | H]]]]; rewrite H; cbn;
    do 2 eexists; repeat split; try reflexivity; try lia; cbn; lia.
Qed.

Lemma select_button_cycles_networks_witness :
  option_map (fun r => scanWifiSelection (fst r))
    (handleSelectButtonPress
       (set_selections
          (set_vars example_sketch
             (set_mode (vars example_sketch) MODE_WIFI WIFI_SUB_SCAN false))
          0 4 0))
  = Some 0.
Proof.
  destruct (select_button_cycles_networks
              (set_selections
                 (set_vars example_sketch
                    (set_mode (vars example_sketch) MODE_WIFI WIFI_SUB_SCAN
                       false))
                 0 4 0) eq_refl eq_refl eq_refl)
    as (s' & name & Hpress & Hnext & _).
  - vm_compute. split; [discriminate | reflexivity].
  - rewrite Hpress. cbn [option_map fst]. rewrite Hnext. reflexivity.
Defined.

(** X6.  Until [systemReady] is set the button block of [loop] only
    clears the three press flags: the mode, the submenu, the selections
    and the card state stay, and nothing is printed. *)
Theorem buttons_ignored_until_ready (s : sketch) :
  systemReady s = false ->
  exists s',
    loop_buttons s = Some (s', []) /\
    vars s' = vars s /\
    wifiMenuSelection s' = wifiMenuSelection s /\
    scanWifiSelection s' = scanWifiSelection s /\
    manualInputField s' = manualInputField s /\
    modeButtonPressed s' = false /\
    modeButtonLongPressed s' = false /\
    selectButtonPressed s' = false.
Proof.
  intros Hready. destruct s as [g ready mp ml mt sp st sd wm sc mf].
  cbn in Hready. subst ready.
  unfold loop_buttons, handleModeButtonPress, handleModeButtonLongPress,
    handleSelectButtonPress.
  destruct mp, ml, sp; cbn; eexists; (split; [reflexivity|]); cbn; auto 10.
Qed.

Lemma buttons_ignored_until_ready_witness :
  exists s',
    loop_buttons {| vars := vars example_sketch; systemReady := false;
                    modeButtonPressed := true; modeButtonLongPressed := false;
                    modeButtonPressTime := 0;
                    selectButtonPressed := true; selectButtonPressTime := 0;
                    lastSelectDebounceTime := 0;
                    wifiMenuSelection := 1; scanWifiSelection := 2;
                    manualInputField := 0 |}
    = Some (s', []) /\ vars s' = vars example_sketch.
Proof.
  destruct (buttons_ignored_until_ready
              {| vars := vars example_sketch; systemReady := false;
                 modeButtonPressed := true; modeButtonLongPressed := false;
                 modeButtonPressTime := 0;
                 selectButtonPressed := true; selectButtonPressTime := 0;
                 lastSelectDebounceTime := 0;
                 wifiMenuSelection := 1; scanWifiSelection := 2;
                 manualInputField := 0 |} eq_refl)
    as (s' & Hloop & Hvars & _).
  exists s'. split; [exact Hloop | exact Hvars].
Defined.

(** *** One pass of the NFC branch *)

Lemma store_length (v : Z) :
  forall (mem mem' : list Z) (i : nat),
    store mem i v = Some mem' -> List.length mem' = List.length mem.
Proof.
  induction mem as [|b rest IH]; intros mem' i Hstore; [discriminate|].
  destruct i as [|i]; cbn [store] in Hstore.
  - inversion Hstore. reflexivity.
  - destruct (store rest i v) as [rest'|] eqn:Hrest; [|discriminate].
    inversion Hstore. cbn. f_equal. eapply IH, Hrest.
Qed.

Lemma copy_uid_length (responseBuffer : list Z) :
  forall (count byteIndex : nat) (uidBuffer uidBuffer' : list Z),
    copy_uid responseBuffer uidBuffer byteIndex count = Some uidBuffer' ->
    List.length uidBuffer' = List.length uidBuffer.
Proof.
  induction count as [|count IH]; intros byteIndex u u' Hcopy;
    cbn [copy_uid] in Hcopy.
  - inversion Hcopy. reflexivity.
  - step Hcopy. step Hcopy. apply IH in Hcopy. rewrite Hcopy.
    eapply store_length. eassumption.
Qed.

(** [readCard] returns [0], a negative code or one of the lengths 4, 7
    and 10, and the caller's buffer keeps its size. *)
Lemma readCard_result (nfc : PN5180ISO14443) (uidBuffer uidBuffer' : list Z)
  (r : Z) :
  readCard nfc uidBuffer = Some (r, uidBuffer') ->
  List.length uidBuffer' = List.length uidBuffer /\
  (r <= 0 \/ r = 4 \/ r = 7 \/ r = 10).
Proof.
  unfold readCard. intros H.
  destruct (activateTypeA nfc (repeat 255 10) 0) as [len resp].
  step H; [step H; split; [reflexivity | left; lia]|].
  step H; [step H; split; [reflexivity | left; lia]|].
  do 2 step H.
  step H; [step H; split; [reflexivity | left; lia]|].
  step H.
  step H; [step H; split; [reflexivity | left; lia]|].
  step H; [|step H; [|step H]].
  - step H. step H; [step H; split; [reflexivity | left; lia]|].
    step H. step H. split; [eapply copy_uid_length; eassumption | auto].
  - step H. step H; [step H; split; [reflexivity | left; lia]|].
    step H. step H. split; [eapply copy_uid_length; eassumption | auto].
  - step H. step H; [step H; split; [reflexivity | left; lia]|].
    step H. step H. split; [eapply copy_uid_length; eassumption | auto].
  - step H. split; [reflexivity | left; lia].
Qed.

Lemma format_uid_defined (uidBuffer : list Z) (uidLength : Z) :
  forall (count byteIndex : nat) (newUID : string),
    (byteIndex + count <= List.length uidBuffer)%nat ->
    exists s, format_uid uidBuffer uidLength byteIndex count newUID = Some s.
Proof.
  induction count as [|count IH]; intros byteIndex newUID Hlen;
    cbn [format_uid]; [eauto|].
  destruct (load_defined uidBuffer byteIndex) as [b Hb]; [lia|].
  rewrite Hb. cbn [bind]. apply IH. lia.
Qed.

Lemma updateDisplay_draws_uid (g : globals) (uid : string) :
  In (ShowUIDSmall uid) (snd (updateDisplay g)) ->
  cardDetected g = true /\ uid = lastUID g.
Proof.
  unfold updateDisplay.
  destruct (negb (displayUpdateRequired g) && _ && _); cbn [snd In];
    [tauto|].
  intros [Hscreen | []].
  destruct (currentMode g); [|destruct (currentWifiSubMode g); discriminate].
  destruct (cardDetected g); [|discriminate].
  inversion Hscreen. auto.
Qed.

(** What the NFC branch leaves behind after a pass that read [r]. *)
Lemma loop_mode_processing_nfc (nfc : PN5180ISO14443) (g : globals)
  (r : Z) (uidBuffer : list Z) :
  currentMode g = MODE_NFC ->
  readCard nfc (repeat 0 10) = Some (r, uidBuffer) ->
  exists g1 e1,
    loop_mode_processing nfc g = Some (g1, e1) /\
    currentMode g1 = MODE_NFC /\
    cardDetected g1 = (0 <? r) /\
    (forall uid, ~ In (ShowUIDSmall uid) e1) /\
    (0 < r ->
     option_map toUpperCase
       (format_uid uidBuffer r 0 (Z.to_nat r) "")
     = Some (lastUID g1)).
Proof.
  intros Hmode Hread. unfold loop_mode_processing. rewrite Hmode, Hread.
  cbn [bind]. cbv beta iota.
  destruct (readCard_result _ _ _ _ Hread) as [Hlen Hr].
  rewrite repeat_length in Hlen.
  destruct (0 <? r) eqn:Hpos; [apply Z.ltb_lt in Hpos | apply Z.ltb_ge in Hpos].
  - destruct (format_uid_defined uidBuffer r (Z.to_nat r) 0 "") as [s Hs];
      [lia|].
    rewrite Hs. cbn [bind option_map].
    destruct (negb (cardDetected g) || negb (toUpperCase s =? lastUID g)%string)
      eqn:Hnew.
    + do 2 eexists. split; [reflexivity|].
      repeat split; try assumption.
      intros uid [H | [H | [H | []]]]; discriminate.
    + apply orb_false_iff in Hnew. destruct Hnew as [Hcd Hsame].
      apply negb_false_iff in Hcd, Hsame. apply String.eqb_eq in Hsame.
      do 2 eexists. split; [reflexivity|].
      repeat split; try assumption.
      * intros uid [H | []]. discriminate.
      * intros _. rewrite Hsame. reflexivity.
  - destruct (r <? 0) eqn:Hneg.
    + destruct (cardDetected g) eqn:Hcd; do 2 eexists;
        (split; [reflexivity|]); repeat split; try assumption;
        try (intros; lia);
        destruct ((r =? -2) || (r =? -3)); cbn;
        intros uid H; repeat (destruct H as [H | H]; try discriminate);
        contradiction.
    + destruct (cardDetected g) eqn:Hcd; do 2 eexists;
        (split; [reflexivity|]); repeat split; try assumption;
        try (intros; lia);
        cbn; intros uid H; repeat (destruct H as [H | H]; try discriminate);
        contradiction.
Qed.

(** X7.  After a pass of the NFC branch the card flag says whether this
    pass read a valid UID, and a UID is drawn only in a pass that read
    one: the UID drawn is the one just read, in upper-case hex. *)
Theorem nfc_pass_reflects_the_read (nfc : PN5180ISO14443) (g : globals)
  (r : Z) (uidBuffer : list Z) :
  currentMode g = MODE_NFC ->
  readCard nfc (repeat 0 10) = Some (r, uidBuffer) ->
  exists g' effects,
    loop_body nfc g = Some (g', effects) /\
    cardDetected g' = (0 <? r) /\
    (forall uid,
       In (ShowUIDSmall uid) effects ->
       0 < r /\
       option_map toUpperCase (format_uid uidBuffer r 0 (Z.to_nat r) "")
       = Some uid).
Proof.
  intros Hmode Hread.
  destruct (loop_mode_processing_nfc nfc g r uidBuffer Hmode Hread)
    as (g1 & e1 & Hstep & Hmode1 & Hcd & Hquiet & Huid).
  unfold loop_body. rewrite Hstep. cbn [bind]. cbv beta iota.
  pose proof (updateDisplay_keeps_card g1) as [Hcd' Huid'].
  pose proof (updateDisplay_draws_uid g1) as Hdraw.
  destruct (updateDisplay g1) as [g2 e2]. cbn [fst snd] in *.
  do 2 eexists. split; [reflexivity|]. split; [congruence|].
  intros uid Hin. apply in_app_or in Hin. destruct Hin as [Hin | Hin].
  - exfalso. exact (Hquiet uid Hin).
  - destruct (Hdraw uid Hin) as [Hon Heq].
    assert (Hpos : 0 < r) by (apply Z.ltb_lt; congruence).
    split; [exact Hpos|]. rewrite (Huid Hpos). congruence.
Qed.

(** X8.  While the same card stays in the field the display is left
    alone: after a pass that ended with a card detected, the next pass
    with the same answer of the reader changes nothing and only waits
    its 200 ms. *)
Theorem steady_card_is_quiet (nfc : PN5180ISO14443) (g g1 : globals)
  (e1 : list effect) :
  currentMode g = MODE_NFC ->
  loop_body nfc g = Some (g1, e1) ->
  cardDetected g1 = true ->
  loop_body nfc g1 = Some (g1, [Delay 200]).
Proof.
  intros Hmode Hpass Hcd.
  assert (Hdef : exists r u, readCard nfc (repeat 0 10) = Some (r, u)).
  { unfold loop_body, loop_mode_processing in Hpass. rewrite Hmode in Hpass.
    destruct (readCard nfc (repeat 0 10)) as [[r u]|]; [eauto|discriminate]. }
  destruct Hdef as (r & u & Hread).
  destruct (loop_mode_processing_nfc nfc g r u Hmode Hread)
    as (gm & em & Hstep & Hmodem & Hcdm & _ & Huid).
  unfold loop_body in Hpass. rewrite Hstep in Hpass. cbn [bind] in Hpass.
  cbv beta iota in Hpass.
  pose proof (updateDisplay_keeps_card gm) as [Hcd' Huid'].
  pose proof (updateDisplay_quiet _ (updateDisplay_settled gm)) as Hidem.
  assert (Hmode1 : currentMode (fst (updateDisplay gm)) = MODE_NFC).
  { unfold updateDisplay.
    destruct (negb (displayUpdateRequired gm) && _ && _); exact Hmodem. }
  destruct (updateDisplay gm) as [g2 e2]. cbn [fst] in *.
  inversion Hpass. subst g2. clear Hpass.
  assert (Hpos : 0 < r) by (apply Z.ltb_lt; congruence).
  specialize (Huid Hpos).
  unfold loop_body, loop_mode_processing. rewrite Hmode1, Hread.
  cbn [bind]. cbv beta iota.
  replace (0 <? r) with true by (symmetry; apply Z.ltb_lt; exact Hpos).
  destruct (format_uid u r 0 (Z.to_nat r) "") as [s|]; [|discriminate].
  cbn [option_map] in Huid. inversion Huid as [Hs]. cbn [bind].
  rewrite Hcd, Huid', Hs, String.eqb_refl. cbn [negb orb bind].
  cbv beta iota. rewrite Hidem. reflexivity.
Qed.

Lemma nfc_pass_reflects_the_read_witness :
  exists g' effects,
    loop_body example_reader (vars example_sketch) = Some (g', effects) /\
    cardDetected g' = true.
Proof.
  destruct (nfc_pass_reflects_the_read example_reader (vars example_sketch) 4
              [0xDE; 0xAD; 0xBE; 0xEF; 0; 0; 0; 0; 0; 0] eq_refl eq_refl)
    as (g' & effects & Hpass & Hcd & _).
  exists g', effects. split; [exact Hpass | exact Hcd].
Defined.

Lemma steady_card_is_quiet_witness :
  loop_body example_reader
    (set_card (vars example_sketch) true "DE AD BE EF" false)
  = Some (set_card (vars example_sketch) true "DE AD BE EF" false,
          [Delay 200]).
Proof.
  apply (steady_card_is_quiet example_reader (vars example_sketch)
           (set_card (vars example_sketch) true "DE AD BE EF" false)
           [SerialPrint "Card detected: "; SerialPrint "DE AD BE EF";
            Delay 200; ShowUIDSmall "DE AD BE EF"]);
    reflexivity.
Defined.

(** *** The text of an identifier *)

Lemma string_append_assoc (a b c : string) :
  ((a ++ b) ++ c)%string = (a ++ (b ++ c))%string.
Proof. induction a as [|x a IH]; cbn; [reflexivity | rewrite IH; reflexivity]. Qed.

Lemma toUpperCase_append (a b : string) :
  toUpperCase (a ++ b) = (toUpperCase a ++ toUpperCase b)%string.
Proof. induction a as [|x a IH]; cbn; [reflexivity | rewrite IH; reflexivity]. Qed.

(** What one round of the loop appends for a byte: two hexadecimal
    digits, then a space unless the byte is the last. *)
Lemma format_uid_round (b : Z) (last : bool) (newUID : string) :
  0 <= b < 256 ->
  (if last
   then (((if (b <? 0x10)%Z then newUID ++ "0" else newUID)
          ++ String_HEX b) ++ " ")%string
   else ((if (b <? 0x10)%Z then newUID ++ "0" else newUID)
         ++ String_HEX b)%string)
  = (newUID
     ++ String (hex_digit (b / 16))
          (String (hex_digit (b mod 16)) (if last then " " else "")))%string.
Proof.
  intros Hb. unfold String_HEX.
  destruct (b <? 16) eqn:Hsmall.
  - apply Z.ltb_lt in Hsmall.
    rewrite Z.div_small, Z.mod_small by lia.
    change (hex_digit 0) with "0"%char.
    destruct last; rewrite ?string_append_assoc; reflexivity.
  - destruct last; rewrite ?string_append_assoc; reflexivity.
Qed.

Lemma format_uid_unfold (uidBuffer : list Z) (uidLength : Z) :
  (forall i b, load uidBuffer i = Some b -> 0 <= b < 256) ->
  forall (count byteIndex : nat) (newUID : string),
    format_uid uidBuffer uidLength byteIndex count newUID
    = option_map (append newUID)
        (format_uid uidBuffer uidLength byteIndex count "").
Proof.
  intros Hbytes. induction count as [|count IH]; intros byteIndex newUID.
  - cbn. induction newUID as [|x s IHs]; cbn; [reflexivity|].
    injection IHs as IHs. rewrite <- IHs. reflexivity.
  - cbn [format_uid].
    destruct (load uidBuffer byteIndex) as [b|] eqn:Hb; cbn [bind];
      [|reflexivity].
    cbv zeta.
    rewrite (format_uid_round b (Z.of_nat byteIndex <? uidLength - 1) newUID
               (Hbytes _ _ Hb)).
    rewrite (format_uid_round b (Z.of_nat byteIndex <? uidLength - 1) ""
               (Hbytes _ _ Hb)).
    rewrite IH. rewrite (IH _ (append "" _)).
    destruct (format_uid uidBuffer uidLength (S byteIndex) count "");
      cbn [option_map]; [|reflexivity].
    rewrite string_append_assoc. reflexivity.
Qed.

Lemma format_uid_cons (uidBuffer : list Z) (uidLength : Z)
  (count byteIndex : nat) (s : string) :
  (forall i b, load uidBuffer i = Some b -> 0 <= b < 256) ->
  format_uid uidBuffer uidLength byteIndex (S count) "" = Some s ->
  exists b rest,
    load uidBuffer byteIndex = Some b /\ 0 <= b < 256 /\
    format_uid uidBuffer uidLength (S byteIndex) count "" = Some rest /\
    s = String (hex_digit (b / 16))
          (String (hex_digit (b mod 16))
             ((if Z.of_nat byteIndex <? uidLength - 1 then " " else "")
              ++ rest)).
Proof.
  intros Hbytes Hrun. cbn [format_uid] in Hrun.
  destruct (load uidBuffer byteIndex) as [b|] eqn:Hb; cbn [bind] in Hrun;
    [|discriminate].
  cbv zeta in Hrun.
  rewrite (format_uid_round b (Z.of_nat byteIndex <? uidLength - 1) ""
             (Hbytes _ _ Hb)) in Hrun.
  rewrite (format_uid_unfold _ _ Hbytes) in Hrun.
  destruct (format_uid uidBuffer uidLength (S byteIndex) count "")
    as [rest|]; cbn [option_map] in Hrun; [|discriminate].
  inversion Hrun. exists b, rest. repeat split; try reflexivity.
  - apply (Hbytes _ _ Hb).
  - apply (Hbytes _ _ Hb).
Qed.

Lemma hex_digit_upper_code (d : Z) :
  0 <= d < 16 ->
  Z.of_nat (nat_of_ascii (toUpper (hex_digit d)))
  = if d <? 10 then 48 + d else 55 + d.
Proof.
  intros Hd.
  assert (Hcases : d = 0 \/ d = 1 \/ d = 2 \/ d = 3 \/ d = 4 \/ d = 5 \/
                   d = 6 \/ d = 7 \/ d = 8 \/ d = 9 \/ d = 10 \/ d = 11 \/
                   d = 12 \/ d = 13 \/ d = 14 \/ d = 15) by lia.
  repeat (destruct Hcases as [-> | Hcases]; [reflexivity|]).
  subst d. reflexivity.
Qed.

Lemma hex_digits_identify_the_byte (b1 b2 : Z) :
  0 <= b1 < 256 -> 0 <= b2 < 256 ->
  toUpper (hex_digit (b1 / 16)) = toUpper (hex_digit (b2 / 16)) ->
  toUpper (hex_digit (b1 mod 16)) = toUpper (hex_digit (b2 mod 16)) ->
  b1 = b2.
Proof.
  intros H1 H2 Hhigh Hlow.
  apply (f_equal (fun c => Z.of_nat (nat_of_ascii c))) in Hhigh, Hlow.
  rewrite !hex_digit_upper_code in Hhigh, Hlow
    by (Z.to_euclidean_division_equations; lia).
  destruct (b1 / 16 <? 10) eqn:Ha1; destruct (b2 / 16 <? 10) eqn:Ha2;
    destruct (b1 mod 16 <? 10) eqn:Hb1; destruct (b2 mod 16 <? 10) eqn:Hb2;
    rewrite ?Z.ltb_lt, ?Z.ltb_ge in *;
    Z.to_euclidean_division_equations; lia.
Qed.

Lemma skipn_load (uidBuffer : list Z) :
  forall (i : nat) (b : Z),
    load uidBuffer i = Some b ->
    skipn i uidBuffer = b :: skipn (S i) uidBuffer.
Proof.
  unfold load. induction uidBuffer as [|x rest IH]; intros [|i] b Hb;
    try discriminate.
  - inversion Hb. reflexivity.
  - cbn [skipn]. apply IH. exact Hb.
Qed.

(** The upper-case text determines the identifier, its length
    included. *)
Lemma uid_text_injective (u1 u2 : list Z) (n1 n2 : nat) :
  (forall i b, load u1 i = Some b -> 0 <= b < 256) ->
  (forall i b, load u2 i = Some b -> 0 <= b < 256) ->
  forall (c1 c2 i : nat) (s1 s2 : string),
    (i + c1 = n1)%nat -> (i + c2 = n2)%nat ->
    format_uid u1 (Z.of_nat n1) i c1 "" = Some s1 ->
    format_uid u2 (Z.of_nat n2) i c2 "" = Some s2 ->
    toUpperCase s1 = toUpperCase s2 ->
    c1 = c2 /\ firstn c1 (skipn i u1) = firstn c2 (skipn i u2).
Proof.
  intros Hbytes1 Hbytes2.
  induction c1 as [|c1 IH]; intros c2 i s1 s2 Hn1 Hn2 Hs1 Hs2 Heq.
  - cbn in Hs1. inversion Hs1. subst s1.
    destruct c2 as [|c2]; [split; reflexivity|].
    destruct (format_uid_cons _ _ _ _ _ Hbytes2 Hs2)
      as (b & rest & _ & _ & _ & ->).
    discriminate Heq.
  - destruct (format_uid_cons _ _ _ _ _ Hbytes1 Hs1)
      as (b1 & rest1 & Hb1 & Hr1 & Hrest1 & ->).
    destruct c2 as [|c2].
    { cbn in Hs2. inversion Hs2. subst s2. discriminate Heq. }
    destruct (format_uid_cons _ _ _ _ _ Hbytes2 Hs2)
      as (b2 & rest2 & Hb2 & Hr2 & Hrest2 & ->).
    cbn [toUpperCase] in Heq. injection Heq as Hhigh Hlow Htail.
    assert (Hb : b1 = b2)
      by (apply hex_digits_identify_the_byte; assumption).
    subst b2.
    rewrite !toUpperCase_append in Htail.
    rewrite (skipn_load u1 i b1 Hb1), (skipn_load u2 i b1 Hb2).
    cbn [firstn].
    assert (Hnext : c1 = c2 /\
                    firstn c1 (skipn (S i) u1) = firstn c2 (skipn (S i) u2)).
    { destruct c1 as [|c1]; destruct c2 as [|c2].
      - split; reflexivity.
      - exfalso. cbn in Hrest1. inversion Hrest1. subst rest1.
        destruct (format_uid_cons _ _ _ _ _ Hbytes2 Hrest2)
          as (b & rest & _ & _ & _ & ->).
        replace (Z.of_nat i <? Z.of_nat n1 - 1) with false in Htail
          by (symmetry; apply Z.ltb_ge; lia).
        destruct (Z.of_nat i <? Z.of_nat n2 - 1); discriminate Htail.
      - exfalso. cbn in Hrest2. inversion Hrest2. subst rest2.
        destruct (format_uid_cons _ _ _ _ _ Hbytes1 Hrest1)
          as (b & rest & _ & _ & _ & ->).
        replace (Z.of_nat i <? Z.of_nat n2 - 1) with false in Htail
          by (symmetry; apply Z.ltb_ge; lia).
        destruct (Z.of_nat i <? Z.of_nat n1 - 1); discriminate Htail.
      - replace (Z.of_nat i <? Z.of_nat n1 - 1) with true in Htail
          by (symmetry; apply Z.ltb_lt; lia).
        replace (Z.of_nat i <? Z.of_nat n2 - 1) with true in Htail
          by (symmetry; apply Z.ltb_lt; lia).
        cbn in Htail. injection Htail as Htail.
        apply (IH (S c2) (S i) rest1 rest2); try assumption; lia. }
    destruct Hnext as [Hc Hfirst]. split; congruence.
Qed.

Lemma bytes_loaded (uidBuffer : list Z) :
  Forall (fun b => 0 <= b < 256) uidBuffer ->
  forall i b, load uidBuffer i = Some b -> 0 <= b < 256.
Proof.
  intros Hall i b Hb. unfold load in Hb. apply nth_error_In in Hb.
  rewrite Forall_forall in Hall. apply Hall, Hb.
Qed.

(** X26.  A change of card is never missed.  The sketch compares the
    upper-case hexadecimal text of the identifier it read with the text
    it shows, and that text determines the identifier: when a card is
    shown and the reader returns an identifier that differs from the
    shown one in its length or in one of its bytes, the pass prints and
    stores the new text, which differs from the old one, and draws it
    on the display. *)
Theorem card_change_is_shown
  (nfc : PN5180ISO14443) (g : globals) (r : Z) (uid_new uid_old : list Z)
  (length_old : nat) (text_old : string) :
  currentMode g = MODE_NFC ->
  cardDetected g = true ->
  Forall (fun b => 0 <= b < 256) uid_old ->
  format_uid uid_old (Z.of_nat length_old) 0 length_old "" = Some text_old ->
  lastUID g = toUpperCase text_old ->
  readCard nfc (repeat 0 10) = Some (r, uid_new) ->
  0 < r ->
  Forall (fun b => 0 <= b < 256) uid_new ->
  (Z.to_nat r <> length_old \/
   firstn (Z.to_nat r) uid_new <> firstn length_old uid_old) ->
  exists g' text_new,
    format_uid uid_new r 0 (Z.to_nat r) "" = Some text_new /\
    toUpperCase text_new <> lastUID g /\
    loop_body nfc g
    = Some (g', [SerialPrint "Card detected: ";
                 SerialPrint (toUpperCase text_new); Delay 200;
                 ShowUIDSmall (toUpperCase text_new)]) /\
    lastUID g' = toUpperCase text_new /\
    cardDetected g' = true.
Proof.
  intros Hmode Hcd Hold Htext Hlast Hread Hpos Hnew Hdiff.
  destruct (readCard_result _ _ _ _ Hread) as [Hlen Hr].
  rewrite repeat_length in Hlen.
  destruct (format_uid_defined uid_new r (Z.to_nat r) 0 "") as [s Hs];
    [lia|].
  assert (Hne : toUpperCase s <> lastUID g).
  { rewrite Hlast. intros Heq.
    rewrite <- (Z2Nat.id r) in Hs at 1 by lia.
    destruct (uid_text_injective uid_new uid_old (Z.to_nat r) length_old
                (bytes_loaded _ Hnew) (bytes_loaded _ Hold)
                (Z.to_nat r) length_old 0%nat s text_old
                eq_refl eq_refl Hs Htext Heq) as [Hn Hfirst].
    cbn [skipn] in Hfirst. destruct Hdiff as [Hd | Hd]; contradiction. }
  unfold loop_body, loop_mode_processing. rewrite Hmode, Hread.
  cbn [bind]. cbv beta iota zeta.
  replace (0 <? r) with true by (symmetry; apply Z.ltb_lt; exact Hpos).
  rewrite Hs. cbn [bind]. rewrite Hcd. cbn [negb orb].
  replace (toUpperCase s =? lastUID g)%string with false
    by (symmetry; apply String.eqb_neq; exact Hne).
  cbn [negb bind]. cbv beta iota zeta. unfold updateDisplay.
  cbn [set_card displayUpdateRequired negb andb currentMode cardDetected
       lastUID].
  rewrite Hmode. cbn [app].
  do 2 eexists. split; [reflexivity|]. split; [exact Hne|].
  split; [reflexivity|]. split; reflexivity.
Qed.

Lemma card_change_is_shown_witness :
  exists g',
    loop_body example_reader
      (set_card (vars example_sketch) true "04 11 22 33" false)
    = Some (g', [SerialPrint "Card detected: "; SerialPrint "DE AD BE EF";
                 Delay 200; ShowUIDSmall "DE AD BE EF"]) /\
    lastUID g' = "DE AD BE EF"%string.
Proof.
  assert (Hold : Forall (fun b => 0 <= b < 256)
                   [0x04; 0x11; 0x22; 0x33; 0; 0; 0; 0; 0; 0])
    by (repeat constructor; lia).
  assert (Hnew : Forall (fun b => 0 <= b < 256)
                   [0xDE; 0xAD; 0xBE; 0xEF; 0; 0; 0; 0; 0; 0])
    by (repeat constructor; lia).
  assert (Hdiff : Z.to_nat 4 <> 4%nat \/
                  firstn (Z.to_nat 4)
                    [0xDE; 0xAD; 0xBE; 0xEF; 0; 0; 0; 0; 0; 0]
                  <> firstn 4 [0x04; 0x11; 0x22; 0x33; 0; 0; 0; 0; 0; 0])
    by (right; discriminate).
  assert (Hpos : 0 < 4) by lia.
  destruct (card_change_is_shown example_reader
              (set_card (vars example_sketch) true "04 11 22 33" false)
              4 [0xDE; 0xAD; 0xBE; 0xEF; 0; 0; 0; 0; 0; 0]
              [0x04; 0x11; 0x22; 0x33; 0; 0; 0; 0; 0; 0] 4 "04 11 22 33"
              eq_refl eq_refl Hold eq_refl eq_refl eq_refl Hpos Hnew Hdiff)
    as (g' & text_new & Htext & _ & Hrun & Hlast & _).
  vm_compute in Htext. inversion Htext. subst text_new.
  exists g'. split; [exact Hrun | exact Hlast].
Defined.

End SketchExtras.


(** * Further properties of the bus transport *)

Section BusExtras.
Import PN5180.

Lemma wait_busy_loop_first_low_poll (dev : pn5180_dev_t) (w : world)
  (timeout_ms : Z) :
  0 <= timeout_ms < 2^32 - 1 ->
  forall (fuel : nat) (w' : world) (k0 : Z),
    (forall t, at_time t w' = at_time t w) ->
    clock_ms w' = clock_ms w + k0 ->
    0 <= k0 <= timeout_ms + 1 ->
    (forall j, 0 <= j < k0 -> busy_level w (clock_ms w + j) = true) ->
    timeout_ms + 1 < Z.of_nat fuel + k0 ->
    exists k,
      0 <= k <= timeout_ms + 1 /\
      (forall j, 0 <= j < k -> busy_level w (clock_ms w + j) = true) /\
      ((busy_level w (clock_ms w + k) = false /\
        wait_busy_loop fuel dev (u32 (clock_ms w)) timeout_ms w'
        = Some (PN5180_OK, at_time (clock_ms w + k) w)) \/
       (k = timeout_ms + 1 /\
        busy_level w (clock_ms w + k) = true /\
        wait_busy_loop fuel dev (u32 (clock_ms w)) timeout_ms w'
        = Some (PN5180_ERR_TIMEOUT,
                busy_timed_out dev (timeout_ms + 1) w))).
Proof.
  intros Ht. induction fuel as [|fuel IH];
    intros w' k0 Hsame Hclock Hk0 Hhigh Hfuel; [lia|].
  assert (Hbusy : busy_level w' = busy_level w).
  { change (busy_level (at_time 0 w') = busy_level (at_time 0 w)).
    rewrite Hsame. reflexivity. }
  assert (Hnow : w' = at_time (clock_ms w + k0) w).
  { rewrite <- Hsame, <- Hclock. symmetry. apply at_time_now. }
  cbn [wait_busy_loop]. unfold pn5180_is_busy_active.
  rewrite Hbusy, Hclock.
  destruct (busy_level w (clock_ms w + k0)) eqn:Hlevel.
  - unfold pn5180_get_tick_ms. rewrite Hclock, u32_elapsed by lia.
    destruct (timeout_ms <? k0) eqn:Hlate;
      [apply Z.ltb_lt in Hlate | apply Z.ltb_ge in Hlate].
    + exists k0. assert (k0 = timeout_ms + 1) by lia. subst k0.
      split; [lia|]. split; [exact Hhigh|]. right.
      split; [reflexivity|]. split; [exact Hlevel|].
      rewrite Hnow. reflexivity.
    + apply (IH (vTaskDelay 1 w') (k0 + 1)).
      * intros t. rewrite <- Hsame. reflexivity.
      * cbn [vTaskDelay clock_ms]. lia.
      * lia.
      * intros j Hj. destruct (Z.eq_dec j k0) as [-> | Hne];
          [exact Hlevel | apply Hhigh; lia].
      * lia.
  - exists k0. split; [lia|]. split; [exact Hhigh|]. left.
    split; [exact Hlevel|]. rewrite Hnow. reflexivity.
Qed.

(** X9.  [pn5180_wait_busy] polls BUSY once per millisecond and returns
    at the first poll that finds it low, with [PN5180_OK] and nothing
    logged; when it is high at every poll up to one millisecond past the
    timeout it returns [PN5180_ERR_TIMEOUT] there.  It returns for every
    behaviour of the BUSY line. *)
Theorem pn5180_wait_busy_first_low_poll
  (fuel : nat) (dev : pn5180_dev_t) (timeout_ms : Z) (w : world) :
  0 <= timeout_ms < 2^32 - 1 ->
  timeout_ms + 1 < Z.of_nat fuel ->
  exists k,
    0 <= k <= timeout_ms + 1 /\
    (forall j, 0 <= j < k -> busy_level w (clock_ms w + j) = true) /\
    ((busy_level w (clock_ms w + k) = false /\
      pn5180_wait_busy fuel dev timeout_ms w
      = Some (PN5180_OK, at_time (clock_ms w + k) w)) \/
     (k = timeout_ms + 1 /\
      busy_level w (clock_ms w + k) = true /\
      pn5180_wait_busy fuel dev timeout_ms w
      = Some (PN5180_ERR_TIMEOUT, busy_timed_out dev (timeout_ms + 1) w))).
Proof.
  intros Ht Hfuel. unfold pn5180_wait_busy, pn5180_get_tick_ms.
  apply (wait_busy_loop_first_low_poll dev w timeout_ms Ht fuel w 0);
    try reflexivity; lia.
Qed.

Lemma pn5180_wait_busy_first_low_poll_witness :
  exists k,
    pn5180_wait_busy 200 example_dev 100
      {| clock_ms := 5; busy_level := fun t => t <? 8;
         spi_mutex_held := false;
         spi_device_transmit := fun _ _ => (ESP_OK, []); trace := [] |}
    = Some (PN5180_OK,
            at_time (5 + k)
              {| clock_ms := 5; busy_level := fun t => t <? 8;
                 spi_mutex_held := false;
                 spi_device_transmit := fun _ _ => (ESP_OK, []);
                 trace := [] |}).
Proof.
  assert (Ht : 0 <= 100 < 2^32 - 1) by lia.
  assert (Hf : 100 + 1 < Z.of_nat 200) by lia.
  destruct (pn5180_wait_busy_first_low_poll 200 example_dev 100
              {| clock_ms := 5; busy_level := fun t => t <? 8;
                 spi_mutex_held := false;
                 spi_device_transmit := fun _ _ => (ESP_OK, []);
                 trace := [] |} Ht Hf)
    as (k & _ & _ & [[_ Hres] | (Hk & Hhigh & _)]).
  - exists k. exact Hres.
  - exfalso. subst k. vm_compute in Hhigh. discriminate Hhigh.
Defined.

(** *** Bytes on the wire *)

Lemma lor_disjoint (hi lo n : Z) :
  0 <= n -> 0 <= lo < 2^n -> Z.lor (hi * 2^n) lo = hi * 2^n + lo.
Proof.
  intros Hn Hlo.
  assert (Hland : Z.land (hi * 2^n) lo = 0).
  { apply Z.bits_inj'. intros i Hi. rewrite Z.land_spec, Z.bits_0.
    destruct (Z.lt_ge_cases i n) as [Hlt | Hge].
    - rewrite Z.mul_pow2_bits_low by lia. reflexivity.
    - rewrite <- (Z.mod_small lo (2^n)) by lia.
      rewrite Z.mod_pow2_bits_high by lia. apply andb_false_r. }
  rewrite <- Z.lxor_lor by exact Hland.
  symmetry. apply Z.add_nocarry_lxor. exact Hland.
Qed.

Lemma byte_of_shift (v i : Z) :
  0 <= i -> Z.land (Z.shiftr v i) 0xFF = (v / 2^i) mod 2^8.
Proof.
  intros Hi. change 255 with (Z.ones 8).
  rewrite Z.land_ones by lia. rewrite Z.shiftr_div_pow2 by lia. reflexivity.
Qed.

Lemma be32_of_bytes (b3 b2 b1 b0 : Z) :
  0 <= b3 < 256 -> 0 <= b2 < 256 -> 0 <= b1 < 256 -> 0 <= b0 < 256 ->
  u32 (Z.lor (Z.lor (Z.lor (Z.shiftl b3 24) (Z.shiftl b2 16))
                (Z.shiftl b1 8)) b0)
  = be32 b3 b2 b1 b0.
Proof.
  intros H3 H2 H1 H0. rewrite !Z.shiftl_mul_pow2 by lia.
  replace (b2 * 2^16) with ((b2 * 2^8) * 2^8) by ring.
  replace (b3 * 2^24) with ((b3 * 2^16) * 2^8) by ring.
  replace (Z.lor (b3 * 2^16 * 2^8) (b2 * 2^8 * 2^8))
    with ((b3 * 2^16 + b2 * 2^8) * 2^8).
  2:{ replace (b3 * 2^16 * 2^8) with (b3 * 2^24) by ring.
      replace (b2 * 2^8 * 2^8) with (b2 * 2^16) by ring.
      rewrite lor_disjoint by lia. ring. }
  replace (Z.lor ((b3 * 2^16 + b2 * 2^8) * 2^8) (b1 * 2^8))
    with ((b3 * 2^16 + b2 * 2^8 + b1) * 2^8).
  2:{ replace ((b3 * 2^16 + b2 * 2^8) * 2^8)
        with ((b3 * 2^8 + b2) * 2^16) by ring.
      rewrite lor_disjoint by lia. ring. }
  rewrite lor_disjoint by lia.
  unfold u32, be32. rewrite Z.mod_small by lia. ring.
Qed.

Lemma write_header (reg : Z) :
  Z.lor PN5180_SPI_WRITE_MASK (Z.land reg 0x7F) = 128 + reg mod 128.
Proof.
  change 127 with (Z.ones 7). rewrite Z.land_ones by lia.
  change PN5180_SPI_WRITE_MASK with (1 * 2^7). change (2^7) with 128 at 2.
  rewrite lor_disjoint; [lia | lia |].
  apply Z.mod_pos_bound. lia.
Qed.

(** A transfer on a chip that is not busy, with the mutex free, goes to
    the bus at once. *)
Lemma pn5180_spi_transaction_idle (fuel : nat) (dev : pn5180_dev_t)
  (trans : spi_transaction_t) (w : world) :
  spi_mutex_held w = false ->
  busy_level w (clock_ms w) = false ->
  pn5180_spi_transaction (S fuel) dev trans w
  = Some (fst (spi_device_transmit w (trace w) trans),
          snd (spi_device_transmit w (trace w) trans),
          emit (Spi trans (fst (spi_device_transmit w (trace w) trans))
                  (snd (spi_device_transmit w (trace w) trans))) w).
Proof.
  intros Hmutex Hbusy. unfold pn5180_spi_transaction, pn5180_wait_busy.
  rewrite Hmutex. cbn [wait_busy_loop]. unfold pn5180_is_busy_active.
  rewrite Hbusy. cbn [bind is_ok negb].
  destruct (spi_device_transmit w (trace w) trans). reflexivity.
Qed.

(** The four bytes that a register write sends for a 32-bit value are
    bytes and make up the value. *)
Lemma value_bytes (value : Z) :
  0 <= value < 2^32 ->
  0 <= (value / 2^24) mod 2^8 < 256 /\
  0 <= (value / 2^16) mod 2^8 < 256 /\
  0 <= (value / 2^8) mod 2^8 < 256 /\
  0 <= value mod 2^8 < 256 /\
  be32 ((value / 2^24) mod 2^8) ((value / 2^16) mod 2^8)
    ((value / 2^8) mod 2^8) (value mod 2^8) = value.
Proof.
  intros Hvalue. unfold be32.
  change (2^8) with 256. change (2^16) with 65536.
  change (2^24) with 16777216. change (2^32) with 4294967296 in Hvalue.
  repeat split; try (apply Z.mod_pos_bound; lia).
  Z.to_euclidean_division_equations. lia.
Qed.

Lemma write_register_idle
  (fuel : nat) (dev : pn5180_dev_t) (reg value : Z) (w : world) :
  spi_device dev <> 0 ->
  spi_mutex_held w = false ->
  busy_level w (clock_ms w) = false ->
  pn5180_write_register_internal (S fuel) dev reg value w
  = Some (if fst (spi_device_transmit w (trace w)
                    (SpiTx (write_frame reg value))) =? ESP_OK
          then PN5180_OK else PN5180_ERR_SPI,
          emit (Spi (SpiTx (write_frame reg value))
                  (fst (spi_device_transmit w (trace w)
                          (SpiTx (write_frame reg value))))
                  (snd (spi_device_transmit w (trace w)
                          (SpiTx (write_frame reg value))))) w).
Proof.
  intros Hdev Hmutex Hbusy.
  unfold pn5180_write_register_internal.
  apply Z.eqb_neq in Hdev. rewrite Hdev.
  rewrite pn5180_spi_transaction_idle by assumption.
  rewrite write_header.
  rewrite (byte_of_shift value 24), (byte_of_shift value 16),
    (byte_of_shift value 8) by lia.
  replace (Z.land value 255) with (value mod 2^8)
    by (change 255 with (Z.ones 8); rewrite Z.land_ones by lia; reflexivity).
  fold (write_frame reg value). cbn [bind].
  destruct (fst (spi_device_transmit w (trace w)
                   (SpiTx (write_frame reg value))) =? ESP_OK);
    reflexivity.
Qed.

(** X10.  On a chip that is not busy, a register write is one transfer
    of five bytes: the header [0x80 | (reg & 0x7F)] and the value, most
    significant byte first.  Its four value bytes are bytes and make up
    the 32-bit value again; the result is [PN5180_OK] when the bus
    reports success and [PN5180_ERR_SPI] otherwise. *)
Theorem register_write_frame
  (fuel : nat) (dev : pn5180_dev_t) (reg value : Z) (w : world) :
  spi_device dev <> 0 ->
  spi_mutex_held w = false ->
  busy_level w (clock_ms w) = false ->
  0 <= value < 2^32 ->
  exists b3 b2 b1 b0 err rx,
    spi_device_transmit w (trace w) (SpiTx [128 + reg mod 128; b3; b2; b1; b0])
    = (err, rx) /\
    pn5180_write_register_internal (S fuel) dev reg value w
    = Some (if err =? ESP_OK then PN5180_OK else PN5180_ERR_SPI,
            emit (Spi (SpiTx [128 + reg mod 128; b3; b2; b1; b0]) err rx) w) /\
    0 <= b3 < 256 /\ 0 <= b2 < 256 /\ 0 <= b1 < 256 /\ 0 <= b0 < 256 /\
    be32 b3 b2 b1 b0 = value.
Proof.
  intros Hdev Hmutex Hbusy Hvalue.
  rewrite write_register_idle by assumption.
  destruct (spi_device_transmit w (trace w) (SpiTx (write_frame reg value)))
    as [err rx] eqn:Hbus.
  cbn [fst snd].
  exists ((value / 2^24) mod 2^8), ((value / 2^16) mod 2^8),
    ((value / 2^8) mod 2^8), (value mod 2^8), err, rx.
  split; [exact Hbus|]. split; [reflexivity|].
  apply value_bytes, Hvalue.
Qed.

Lemma register_write_frame_witness :
  exists b3 b2 b1 b0 err rx,
    pn5180_write_register_internal 1 example_dev PN5180_REG_RF_CONTROL
      0x12345678 (example_world 0 false)
    = Some (if err =? ESP_OK then PN5180_OK else PN5180_ERR_SPI,
            emit (Spi (SpiTx [128 + PN5180_REG_RF_CONTROL mod 128;
                              b3; b2; b1; b0]) err rx)
              (example_world 0 false)) /\
    be32 b3 b2 b1 b0 = 0x12345678.
Proof.
  assert (Hdev : spi_device example_dev <> 0) by discriminate.
  assert (Hv : 0 <= 0x12345678 < 2^32) by lia.
  destruct (register_write_frame 0 example_dev PN5180_REG_RF_CONTROL
              0x12345678 (example_world 0 false) Hdev eq_refl eq_refl Hv)
    as (b3 & b2 & b1 & b0 & err & rx & _ & Hwrite & _ & _ & _ & _ & Hbe).
  exists b3, b2, b1, b0, err, rx. split; [exact Hwrite | exact Hbe].
Defined.

(** The frame of a write of [0x12345678] to the RF control register. *)
Example register_write_frame_bytes :
  pn5180_write_register_internal 1 example_dev PN5180_REG_RF_CONTROL
    0x12345678 (example_world 0 false)
  = Some (PN5180_OK,
          emit (Spi (SpiTx [0x85; 0x12; 0x34; 0x56; 0x78]) ESP_OK [0; 0; 0; 0])
            (example_world 0 false)).
Proof. reflexivity. Qed.

(** A register read on a chip that is not busy: the command byte
    [reg & 0x7F], then a transfer that receives four bytes, which are
    put together most significant first. *)
Lemma register_read_value
  (fuel : nat) (dev : pn5180_dev_t) (reg : Z) (w : world) (rx1 rx : list Z) :
  spi_device dev <> 0 ->
  spi_mutex_held w = false ->
  busy_level w (clock_ms w) = false ->
  spi_device_transmit w (trace w) (SpiTx [reg mod 128]) = (ESP_OK, rx1) ->
  spi_device_transmit w (Spi (SpiTx [reg mod 128]) ESP_OK rx1 :: trace w)
    (SpiRx 4) = (ESP_OK, rx) ->
  0 <= nth 0 rx 0 < 256 -> 0 <= nth 1 rx 0 < 256 ->
  0 <= nth 2 rx 0 < 256 -> 0 <= nth 3 rx 0 < 256 ->
  pn5180_read_register_internal (S fuel) dev reg w
  = Some (PN5180_OK,
          be32 (nth 0 rx 0) (nth 1 rx 0) (nth 2 rx 0) (nth 3 rx 0),
          emit (Spi (SpiRx 4) ESP_OK rx)
            (emit (Spi (SpiTx [reg mod 128]) ESP_OK rx1) w)).
Proof.
  intros Hdev Hmutex Hbusy Hcmd Hdata H0 H1 H2 H3.
  unfold pn5180_read_register_internal.
  apply Z.eqb_neq in Hdev. rewrite Hdev.
  replace (Z.land reg 127) with (reg mod 128)
    by (change 127 with (Z.ones 7); rewrite Z.land_ones by lia; reflexivity).
  rewrite pn5180_spi_transaction_idle by assumption.
  rewrite Hcmd. cbn [fst snd bind]. cbv beta iota.
  change (negb (ESP_OK =? ESP_OK)) with false. cbv iota.
  rewrite pn5180_spi_transaction_idle by assumption.
  cbn [emit trace spi_device_transmit]. rewrite Hdata.
  cbn [fst snd bind]. cbv beta iota.
  change (negb (ESP_OK =? ESP_OK)) with false. cbv iota.
  rewrite be32_of_bytes by assumption. reflexivity.
Qed.

(** X11.  Round trip over the wire: when the chip answers a register
    read with the four value bytes of the frame that a register write
    of [value] put on the bus, the read returns [value]. *)
Theorem register_round_trip
  (fuel : nat) (dev : pn5180_dev_t) (reg value : Z) (w0 w0' w : world)
  (r : pn5180_error_t) (header e : Z) (payload x rx1 : list Z) :
  spi_device dev <> 0 ->
  0 <= value < 2^32 ->
  spi_mutex_held w0 = false -> busy_level w0 (clock_ms w0) = false ->
  pn5180_write_register_internal (S fuel) dev reg value w0 = Some (r, w0') ->
  trace w0' = Spi (SpiTx (header :: payload)) e x :: trace w0 ->
  spi_mutex_held w = false -> busy_level w (clock_ms w) = false ->
  spi_device_transmit w (trace w) (SpiTx [reg mod 128]) = (ESP_OK, rx1) ->
  spi_device_transmit w (Spi (SpiTx [reg mod 128]) ESP_OK rx1 :: trace w)
    (SpiRx 4) = (ESP_OK, payload) ->
  exists w',
    pn5180_read_register_internal (S fuel) dev reg w
    = Some (PN5180_OK, value, w').
Proof.
  intros Hdev Hvalue Hmutex0 Hbusy0 Hwrite Htrace Hmutex Hbusy Hcmd Hdata.
  rewrite write_register_idle in Hwrite by assumption.
  inversion Hwrite as [[Hr Hw0']].
  rewrite <- Hw0' in Htrace. cbn [emit trace] in Htrace.
  unfold write_frame in Htrace. inversion Htrace. subst payload.
  destruct (value_bytes value Hvalue) as (Hb3 & Hb2 & Hb1 & Hb0 & Hbe).
  eexists. rewrite <- Hbe at 1.
  apply (register_read_value fuel dev reg w rx1
           [(value / 2^24) mod 2^8; (value / 2^16) mod 2^8;
            (value / 2^8) mod 2^8; value mod 2^8]);
    assumption.
Qed.

Lemma register_round_trip_witness :
  exists w',
    pn5180_read_register_internal 1 example_dev PN5180_REG_RF_CONTROL
      (example_world_replying 0 [0x12; 0x34; 0x56; 0x78])
    = Some (PN5180_OK, 0x12345678, w').
Proof.
  assert (Hdev : spi_device example_dev <> 0) by discriminate.
  assert (Hv : 0 <= 0x12345678 < 2^32) by lia.
  exact (register_round_trip 0 example_dev PN5180_REG_RF_CONTROL 0x12345678
           (example_world 0 false)
           (emit (Spi (SpiTx [0x85; 0x12; 0x34; 0x56; 0x78]) ESP_OK
                    [0; 0; 0; 0]) (example_world 0 false))
           (example_world_replying 0 [0x12; 0x34; 0x56; 0x78])
           PN5180_OK 0x85 ESP_OK [0x12; 0x34; 0x56; 0x78] [0; 0; 0; 0]
           [0x12; 0x34; 0x56; 0x78]
           Hdev Hv eq_refl eq_refl eq_refl eq_refl eq_refl eq_refl eq_refl
           eq_refl).
Defined.

(** *** Every access returns *)

Lemma busy_timed_out_mutex (dev : pn5180_dev_t) (ms : Z) (w : world) :
  spi_mutex_held (busy_timed_out dev ms w) = spi_mutex_held w.
Proof.
  unfold busy_timed_out, pn5180_log_internal.
  cbn [Z.ltb Z.compare CONFIG_PN5180_DEBUG_LEVEL Pos.compare
       Pos.compare_cont].
  destruct (negb (log_callback dev =? 0)); reflexivity.
Qed.

(** A transfer returns.  It leaves the mutex as it found it, and with
    the mutex free the clock moves by the wait for BUSY, 101 ms at
    most. *)
Lemma pn5180_spi_transaction_returns (fuel : nat) (dev : pn5180_dev_t)
  (trans : spi_transaction_t) (w : world) :
  CONFIG_PN5180_BUSY_TIMEOUT_MS + 1 < Z.of_nat fuel ->
  exists err rx w',
    pn5180_spi_transaction fuel dev trans w = Some (err, rx, w') /\
    spi_mutex_held w' = spi_mutex_held w /\
    (spi_mutex_held w = false ->
     clock_ms w <= clock_ms w' <= clock_ms w + 101).
Proof.
  intros Hfuel. unfold pn5180_spi_transaction.
  destruct (spi_mutex_held w) eqn:Hmutex.
  - do 3 eexists. split; [reflexivity|].
    split; [exact Hmutex | discriminate].
  - assert (Ht : 0 <= CONFIG_PN5180_BUSY_TIMEOUT_MS < 2^32 - 1)
      by (cbv; split; congruence).
    unfold pn5180_wait_busy, pn5180_get_tick_ms.
    destruct (wait_busy_loop_first_low_poll dev w
                CONFIG_PN5180_BUSY_TIMEOUT_MS Ht fuel w 0)
      as (k & Hk & _ & [[_ Hres] | (_ & _ & Hres)]);
      try reflexivity; try lia;
      rewrite Hres; cbn [bind is_ok negb].
    + destruct (spi_device_transmit _ _ trans) as [err rx].
      do 3 eexists. split; [reflexivity|].
      split; [exact Hmutex|]. intros _.
      cbn [emit at_time clock_ms].
      unfold CONFIG_PN5180_BUSY_TIMEOUT_MS in Hk. lia.
    + do 3 eexists. split; [reflexivity|].
      split; [rewrite busy_timed_out_mutex; exact Hmutex|]. intros _.
      destruct (busy_timed_out_effect dev
                  (CONFIG_PN5180_BUSY_TIMEOUT_MS + 1) w) as [Hclock _].
      rewrite Hclock. unfold CONFIG_PN5180_BUSY_TIMEOUT_MS. lia.
Qed.

(** X12.  Register access always returns.  Whatever the BUSY line and
    the bus do, and whether the SPI mutex is free or stays taken, a
    register write returns with [PN5180_OK], [PN5180_ERR_NOT_INIT] or
    [PN5180_ERR_SPI] and a register read with [PN5180_OK],
    [PN5180_ERR_INVALID_ARG] or [PN5180_ERR_SPI]: neither reports a
    timeout as such.  The value of a read that returned [PN5180_OK] is a
    32-bit value; nothing is said of the value after a failure, where
    the code writes none.  With the mutex free the waits for BUSY of a
    write take 101 ms at most and those of a read 202 ms.  Without an
    SPI device both leave the world as it is. *)
Theorem register_access_always_returns
  (fuel : nat) (dev : pn5180_dev_t) (reg value : Z) (w : world) :
  CONFIG_PN5180_BUSY_TIMEOUT_MS + 1 < Z.of_nat fuel ->
  (exists r w',
     pn5180_write_register_internal fuel dev reg value w = Some (r, w') /\
     (r = PN5180_OK \/ r = PN5180_ERR_NOT_INIT \/ r = PN5180_ERR_SPI) /\
     (spi_mutex_held w = false ->
      clock_ms w <= clock_ms w' <= clock_ms w + 101) /\
     (spi_device dev = 0 -> r = PN5180_ERR_NOT_INIT /\ w' = w)) /\
  (exists r v w',
     pn5180_read_register_internal fuel dev reg w = Some (r, v, w') /\
     (r = PN5180_OK \/ r = PN5180_ERR_INVALID_ARG \/ r = PN5180_ERR_SPI) /\
     (r = PN5180_OK -> 0 <= v < 2^32) /\
     (spi_mutex_held w = false ->
      clock_ms w <= clock_ms w' <= clock_ms w + 202) /\
     (spi_device dev = 0 -> r = PN5180_ERR_INVALID_ARG /\ w' = w)).
Proof.
  intros Hfuel. split.
  - unfold pn5180_write_register_internal.
    destruct (spi_device dev =? 0) eqn:Hdev.
    + do 2 eexists. split; [reflexivity|].
      repeat split; auto; intros; lia.
    + apply Z.eqb_neq in Hdev.
      match goal with
      | |- context [pn5180_spi_transaction fuel dev ?t w] =>
          destruct (pn5180_spi_transaction_returns fuel dev t w Hfuel)
            as (err & rx & w1 & Hspi & _ & Hclock); rewrite Hspi
      end.
      cbn [bind].
      destruct (negb (err =? ESP_OK)); do 2 eexists;
        (split; [reflexivity|]); (split; [auto|]);
        (split; [exact Hclock | intros; contradiction]).
  - unfold pn5180_read_register_internal.
    destruct (spi_device dev =? 0) eqn:Hdev.
    + do 3 eexists. split; [reflexivity|].
      repeat split; auto; intros; try discriminate; lia.
    + apply Z.eqb_neq in Hdev.
      destruct (pn5180_spi_transaction_returns fuel dev
                  (SpiTx [Z.land reg 127]) w Hfuel)
        as (err & rx & w1 & Hspi & Hmutex1 & Hclock).
      rewrite Hspi. cbn [bind].
      destruct (negb (err =? ESP_OK)).
      * do 3 eexists. split; [reflexivity|]. split; [auto|].
        split; [discriminate|].
        split; [intros Hfree; specialize (Hclock Hfree); lia
               |intros; contradiction].
      * destruct (pn5180_spi_transaction_returns fuel dev (SpiRx 4) w1 Hfuel)
          as (err2 & rx2 & w2 & Hspi2 & _ & Hclock2).
        rewrite Hspi2. cbn [bind].
        assert (Htime : spi_mutex_held w = false ->
                        clock_ms w <= clock_ms w2 <= clock_ms w + 202).
        { intros Hfree. specialize (Hclock Hfree).
          rewrite Hfree in Hmutex1. specialize (Hclock2 Hmutex1). lia. }
        destruct (negb (err2 =? ESP_OK)).
        -- do 3 eexists. split; [reflexivity|]. split; [auto|].
           split; [discriminate|].
           split; [exact Htime | intros; contradiction].
        -- do 3 eexists. split; [reflexivity|]. split; [auto|].
           split; [intros _; apply Z.mod_pos_bound; lia|].
           split; [exact Htime | intros; contradiction].
Qed.

Lemma register_access_always_returns_witness :
  exists r v w',
    pn5180_read_register_internal 102 example_dev PN5180_REG_IRQ_STATUS
      (example_world 0 true) = Some (r, v, w') /\
    clock_ms w' <= 202.
Proof.
  assert (Hf : CONFIG_PN5180_BUSY_TIMEOUT_MS + 1 < Z.of_nat 102)
    by (vm_compute; reflexivity).
  destruct (register_access_always_returns 102 example_dev
              PN5180_REG_IRQ_STATUS 0 (example_world 0 true) Hf)
    as [_ (r & v & w' & Hread & _ & _ & Hclock & _)].
  exists r, v, w'. split; [exact Hread|].
  specialize (Hclock eq_refl). cbn in Hclock. lia.
Defined.

(** *** Buffer transfers *)

Lemma bus_ready_emit (e : event) (w : world) :
  bus_ready w -> bus_ready (emit e w).
Proof. intros H. exact H. Qed.

Lemma pn5180_spi_transaction_ready (fuel : nat) (dev : pn5180_dev_t)
  (trans : spi_transaction_t) (w : world) :
  bus_ready w ->
  exists rx,
    pn5180_spi_transaction (S fuel) dev trans w
    = Some (ESP_OK, rx, emit (Spi trans ESP_OK rx) w).
Proof.
  intros (Hbusy & Hmutex & Hok).
  rewrite pn5180_spi_transaction_idle by auto.
  rewrite Hok. eauto.
Qed.

Lemma sent_app (a b : list event) : sent (a ++ b) = sent b ++ sent a.
Proof. unfold sent. rewrite rev_app_distr, flat_map_app. reflexivity. Qed.

Lemma firstn_add {A : Type} (a b : nat) (l : list A) :
  firstn (a + b) l = firstn a l ++ firstn b (skipn a l).
Proof.
  revert l. induction a as [|a IH]; intros l; [reflexivity|].
  destruct l as [|x l]; cbn.
  - rewrite firstn_nil. reflexivity.
  - rewrite IH. reflexivity.
Qed.

Lemma write_chunks_ready (dev : pn5180_dev_t) (data : list Z) (len : Z) :
  forall (fuel : nat) (offset : Z) (w : world),
    bus_ready w ->
    0 <= offset <= len ->
    len - offset <= 64 * (Z.of_nat fuel - 1) ->
    exists w' added,
      write_chunks fuel dev data offset len w = Some (PN5180_OK, w') /\
      bus_ready w' /\
      trace w' = added ++ trace w /\
      List.concat (sent added)
      = firstn (Z.to_nat (len - offset)) (skipn (Z.to_nat offset) data) /\
      Forall (fun c => (List.length c <= 64)%nat) (sent added) /\
      Z.of_nat (List.length (sent added)) = (len - offset + 63) / 64.
Proof.
  induction fuel as [|fuel IH]; intros offset w Hready Hoff Hfuel; [lia|].
  cbn [write_chunks].
  destruct (offset <? len) eqn:Hmore;
    [apply Z.ltb_lt in Hmore | apply Z.ltb_ge in Hmore].
  - destruct fuel as [|fuel]; [lia|].
    set (chunk := chunk_of (len - offset)).
    assert (Hchunk : 0 < chunk <= 64 /\ chunk <= len - offset /\
                     (chunk = 64 \/ chunk = len - offset)).
    { unfold chunk, chunk_of.
      destruct (64 <? len - offset) eqn:Hbig;
        [apply Z.ltb_lt in Hbig | apply Z.ltb_ge in Hbig]; lia. }
    destruct (pn5180_spi_transaction_ready fuel dev
                (SpiTx (firstn (Z.to_nat chunk)
                          (skipn (Z.to_nat offset) data))) w Hready)
      as [rx Hspi].
    rewrite Hspi. cbn [bind]. cbv beta iota.
    change (negb (ESP_OK =? ESP_OK)) with false. cbv iota.
    destruct (IH (offset + chunk)
                (emit (Spi (SpiTx (firstn (Z.to_nat chunk)
                                     (skipn (Z.to_nat offset) data)))
                         ESP_OK rx) w))
      as (w' & added & Hrun & Hready' & Htrace & Hcat & Hsize & Hcount).
    + apply bus_ready_emit, Hready.
    + lia.
    + lia.
    + exists w', (added ++ [Spi (SpiTx (firstn (Z.to_nat chunk)
                                       (skipn (Z.to_nat offset) data)))
                              ESP_OK rx]).
      split; [exact Hrun|]. split; [exact Hready'|]. split.
      { rewrite Htrace, <- app_assoc. reflexivity. }
      rewrite sent_app. cbn [sent rev app flat_map List.concat List.length].
      split; [|split].
      * rewrite Hcat.
        replace (Z.to_nat (len - offset))
          with (Z.to_nat chunk + Z.to_nat (len - (offset + chunk)))%nat
          by lia.
        rewrite firstn_add, skipn_skipn.
        replace (Z.to_nat chunk + Z.to_nat offset)%nat
          with (Z.to_nat (offset + chunk)) by lia.
        reflexivity.
      * constructor; [|exact Hsize].
        etransitivity; [apply firstn_le_length|]. lia.
      * rewrite Nat2Z.inj_succ, Hcount. clearbody chunk.
        Z.to_euclidean_division_equations. lia.
  - exists w, []. split; [reflexivity|]. split; [exact Hready|].
    split; [reflexivity|].
    assert (offset = len) by lia. subst offset.
    replace (len - len) with 0 by lia.
    repeat split; try reflexivity. constructor.
Qed.

Lemma write_buffer_ready
  (fuel : nat) (dev : pn5180_dev_t) (data : list Z) (len : Z) (w : world) :
  bus_ready w ->
  spi_device dev <> 0 ->
  0 < len <= CONFIG_PN5180_TX_BUFFER_SIZE ->
  (18 <= fuel)%nat ->
  exists w' added chunks,
    pn5180_write_buffer fuel dev data len w
    = Some (PN5180_OK, set_tx_length dev len, w') /\
    bus_ready w' /\
    trace w' = added ++ trace w /\
    sent added = [0xC0; 0; 0; 0; 0] :: chunks /\
    List.concat chunks = firstn (Z.to_nat len) data /\
    Forall (fun c => (List.length c <= 64)%nat) chunks /\
    Z.of_nat (List.length chunks) = (len + 63) / 64.
Proof.
  intros Hready Hdev Hlen Hfuel. unfold CONFIG_PN5180_TX_BUFFER_SIZE in Hlen.
  unfold pn5180_write_buffer, pn5180_write_register_internal.
  apply Z.eqb_neq in Hdev. rewrite Hdev. cbn [orb].
  replace (len =? 0) with false by (symmetry; apply Z.eqb_neq; lia).
  replace (CONFIG_PN5180_TX_BUFFER_SIZE <? len) with false
    by (symmetry; apply Z.ltb_ge; unfold CONFIG_PN5180_TX_BUFFER_SIZE; lia).
  destruct fuel as [|fuel]; [lia|].
  match goal with
  | |- context [pn5180_spi_transaction (S fuel) dev ?t w] =>
      destruct (pn5180_spi_transaction_ready fuel dev t w Hready)
        as [rx Hspi]; rewrite Hspi
  end.
  cbn [bind]. cbv beta iota.
  change (negb (ESP_OK =? ESP_OK)) with false. cbv iota.
  cbn [bind is_ok negb]. cbv beta iota.
  match goal with
  | |- context [write_chunks (S fuel) dev data 0 len ?w1] =>
      destruct (write_chunks_ready dev data len (S fuel) 0 w1)
        as (w' & added & Hrun & Hready' & Htrace & Hcat & Hsize & Hcount);
        [apply bus_ready_emit, Hready | lia | lia |]
  end.
  rewrite Hrun. cbn [bind is_ok negb]. cbv beta iota.
  exists w'. eexists (added ++ [_]). exists (sent added).
  split.
  { unfold u16. rewrite Z.mod_small by lia. reflexivity. }
  split; [exact Hready'|].
  split.
  { rewrite Htrace. cbn [emit trace]. rewrite <- app_assoc. reflexivity. }
  split.
  { rewrite sent_app. reflexivity. }
  replace (len - 0) with len in * by lia.
  split; [exact Hcat|]. split; [exact Hsize | exact Hcount].
Qed.

(** X13.  On a ready bus [pn5180_write_buffer] first writes [0] to the
    TX pointer register and then sends the payload in chunks of at most
    64 bytes, as many as the length needs; the chunks in the order sent
    are the first [length] bytes of the data, none left out, repeated or
    moved; the stored TX length is [length]. *)
Theorem write_buffer_sends_the_data_in_order
  (fuel : nat) (dev : pn5180_dev_t) (data : list Z) (len : Z) (w : world) :
  bus_ready w ->
  spi_device dev <> 0 ->
  0 < len <= CONFIG_PN5180_TX_BUFFER_SIZE ->
  (18 <= fuel)%nat ->
  exists w' added chunks,
    pn5180_write_buffer fuel dev data len w
    = Some (PN5180_OK, set_tx_length dev len, w') /\
    trace w' = added ++ trace w /\
    sent added = [0xC0; 0; 0; 0; 0] :: chunks /\
    List.concat chunks = firstn (Z.to_nat len) data /\
    Forall (fun c => (List.length c <= 64)%nat) chunks /\
    Z.of_nat (List.length chunks) = (len + 63) / 64.
Proof.
  intros Hready Hdev Hlen Hfuel.
  destruct (write_buffer_ready fuel dev data len w Hready Hdev Hlen Hfuel)
    as (w' & added & chunks & Hrun & _ & Hrest).
  exists w', added, chunks. split; [exact Hrun | exact Hrest].
Qed.

Lemma example_world_ready (now : Z) : bus_ready (example_world now false).
Proof. repeat split. Qed.

Lemma write_buffer_sends_the_data_in_order_witness :
  exists w' added chunks,
    pn5180_write_buffer 18 example_dev (repeat 7 130) 130
      (example_world 0 false)
    = Some (PN5180_OK, set_tx_length example_dev 130, w') /\
    trace w' = added ++ [] /\
    sent added = [0xC0; 0; 0; 0; 0] :: chunks /\
    List.concat chunks = firstn 130 (repeat 7 130) /\
    Z.of_nat (List.length chunks) = 3.
Proof.
  assert (Hdev : spi_device example_dev <> 0) by discriminate.
  assert (Hlen : 0 < 130 <= CONFIG_PN5180_TX_BUFFER_SIZE)
    by (unfold CONFIG_PN5180_TX_BUFFER_SIZE; lia).
  destruct (write_buffer_sends_the_data_in_order 18 example_dev
              (repeat 7 130) 130 (example_world 0 false)
              (example_world_ready 0) Hdev Hlen (le_n 18))
    as (w' & added & chunks & Hrun & Htrace & Hsent & Hcat & _ & Hcount).
  exists w', added, chunks. repeat split; assumption.
Defined.

Lemma read_chunks_result (dev : pn5180_dev_t) (bytes_to_read : Z) :
  forall (fuel : nat) (buffer : list Z) (offset : Z) (w w' : world)
         (r : pn5180_error_t) (buffer' : list Z) (offset' : Z),
    0 <= offset <= bytes_to_read ->
    Z.of_nat (List.length buffer) = offset ->
    read_chunks fuel dev buffer offset bytes_to_read w
    = Some (r, buffer', offset', w') ->
    Z.of_nat (List.length buffer') = offset' /\
    offset <= offset' <= bytes_to_read /\
    (r = PN5180_OK -> offset' = bytes_to_read) /\
    (r = PN5180_OK \/ r = PN5180_ERR_SPI).
Proof.
  induction fuel as [|fuel IH];
    intros buffer offset w w' r buffer' offset' Hoff Hlen Hrun;
    [discriminate|].
  cbn [read_chunks] in Hrun.
  destruct (offset <? bytes_to_read) eqn:Hmore;
    [apply Z.ltb_lt in Hmore | apply Z.ltb_ge in Hmore].
  - set (chunk := chunk_of (bytes_to_read - offset)) in *.
    assert (Hchunk : 0 < chunk <= bytes_to_read - offset).
    { unfold chunk, chunk_of.
      destruct (64 <? bytes_to_read - offset) eqn:Hbig;
        [apply Z.ltb_lt in Hbig | apply Z.ltb_ge in Hbig]; lia. }
    destruct (pn5180_spi_transaction fuel dev (SpiRx chunk) w)
      as [[[e rx] w1]|]; cbn [bind] in Hrun; [|discriminate].
    destruct (negb (e =? ESP_OK)).
    + inversion Hrun. subst. repeat split; try lia; auto. discriminate.
    + apply IH in Hrun.
      * destruct Hrun as (H1 & H2 & H3 & H4). repeat split; auto; lia.
      * lia.
      * rewrite length_app, firstn_length_le.
        -- lia.
        -- rewrite length_app, repeat_length. lia.
  - inversion Hrun. subst. repeat split; auto; lia.
Qed.

Lemma read_chunks_total (dev : pn5180_dev_t) (bytes_to_read : Z) :
  forall (fuel : nat) (buffer : list Z) (offset : Z) (w : world),
    offset <= bytes_to_read ->
    bytes_to_read - offset <= 64 * (Z.of_nat fuel - 103) ->
    exists res, read_chunks fuel dev buffer offset bytes_to_read w = Some res.
Proof.
  induction fuel as [|fuel IH]; intros buffer offset w Hoff Hfuel; [lia|].
  cbn [read_chunks].
  destruct (offset <? bytes_to_read) eqn:Hmore;
    [apply Z.ltb_lt in Hmore | eauto].
  set (chunk := chunk_of (bytes_to_read - offset)).
  assert (Hchunk : chunk = 64 /\ 64 < bytes_to_read - offset \/
                   chunk = bytes_to_read - offset).
  { unfold chunk, chunk_of.
    destruct (64 <? bytes_to_read - offset) eqn:Hbig;
      [apply Z.ltb_lt in Hbig | apply Z.ltb_ge in Hbig]; lia. }
  destruct (pn5180_spi_transaction_returns fuel dev (SpiRx chunk) w)
    as (e & rx & w1 & Hspi & _);
    [unfold CONFIG_PN5180_BUSY_TIMEOUT_MS; lia|].
  rewrite Hspi. cbn [bind]. cbv beta iota.
  destruct (negb (e =? ESP_OK)); [eauto|].
  apply IH; lia.
Qed.

(** X14.  [pn5180_read_buffer] returns whatever the hardware does.  On
    [PN5180_OK] it has read the asked length capped at the RX buffer
    size of 1024 bytes: that many bytes are delivered and [*length] and
    the stored RX length are set to it.  On an error [*length] and the
    handle are as before.  It never delivers more than 1024 bytes. *)
Theorem read_buffer_length
  (fuel : nat) (dev : pn5180_dev_t) (len : Z) (w : world) :
  (119 <= fuel)%nat ->
  0 <= len ->
  exists r buffer len' dev' w',
    pn5180_read_buffer fuel dev len w = Some (r, buffer, len', dev', w') /\
    (r = PN5180_OK ->
     len' = Z.min len CONFIG_PN5180_RX_BUFFER_SIZE /\
     Z.of_nat (List.length buffer) = len' /\
     dev' = set_rx_length dev len') /\
    (r <> PN5180_OK -> len' = len /\ dev' = dev) /\
    Z.of_nat (List.length buffer) <= CONFIG_PN5180_RX_BUFFER_SIZE.
Proof.
  intros Hfuel Hlen. unfold pn5180_read_buffer.
  unfold CONFIG_PN5180_RX_BUFFER_SIZE.
  destruct (spi_device dev =? 0).
  { do 5 eexists. split; [reflexivity|]. cbn [List.length].
    repeat split; try lia; intros; congruence. }
  destruct (pn5180_write_register_internal_total fuel dev PN5180_REG_RX_DATA
              0 w) as [[e w1] Hptr];
    [unfold CONFIG_PN5180_BUSY_TIMEOUT_MS; lia|].
  rewrite Hptr. cbn [bind]. cbv beta iota.
  destruct (is_ok e) eqn:Hok; cbn [negb].
  2:{ do 5 eexists. split; [reflexivity|]. cbn [List.length].
      repeat split; try lia; intros; subst; discriminate. }
  set (bytes := if 1024 <? len then 1024 else len).
  assert (Hbytes : bytes = Z.min len 1024 /\ 0 <= bytes <= 1024).
  { unfold bytes. destruct (1024 <? len) eqn:Hbig;
      [apply Z.ltb_lt in Hbig | apply Z.ltb_ge in Hbig]; lia. }
  destruct (read_chunks_total dev bytes fuel [] 0 w1) as [res Hrun];
    [lia | lia |].
  destruct res as [[[r buffer] offset] w2]. rewrite Hrun.
  cbn [bind]. cbv beta iota.
  apply read_chunks_result in Hrun; [|lia | reflexivity].
  destruct Hrun as (Hsize & Hrange & Hdone & Hcode).
  destruct (is_ok r) eqn:Hr; cbn [negb].
  - destruct r; try discriminate.
    do 5 eexists. split; [reflexivity|].
    specialize (Hdone eq_refl). subst offset.
    split; [|split].
    + intros _. unfold u16. rewrite Z.mod_small by lia.
      split; [lia | split; [lia | reflexivity]].
    + intros Hne. contradiction.
    + lia.
  - do 5 eexists. split; [reflexivity|].
    repeat split; try lia; intros; subst; discriminate.
Qed.

Lemma read_buffer_length_witness :
  exists r buffer len' dev' w',
    pn5180_read_buffer 119 example_dev 5000 (example_world 0 false)
    = Some (r, buffer, len', dev', w') /\
    Z.of_nat (List.length buffer) <= CONFIG_PN5180_RX_BUFFER_SIZE.
Proof.
  assert (Hlen : 0 <= 5000) by lia.
  destruct (read_buffer_length 119 example_dev 5000 (example_world 0 false)
              (le_n 119) Hlen)
    as (r & buffer & len' & dev' & w' & Hrun & _ & _ & Hcap).
  exists r, buffer, len', dev', w'. split; [exact Hrun | exact Hcap].
Defined.

End BusExtras.


(** * Further properties of the state machine *)

Section StateMachineExtras.
Import PN5180.

Lemma find_enabled_protocol_found (fuel : nat) (mask start i : Z) :
  0 <= i -> Z.testbit mask i = true ->
  find_enabled_protocol (S fuel) mask start i = Some (true, i).
Proof.
  intros Hi Hbit. cbn [find_enabled_protocol].
  destruct (Z.land mask (Z.shiftl 1 i) =? 0) eqn:Hzero; [|reflexivity].
  apply Z.eqb_eq in Hzero.
  assert (Hcontra : Z.testbit (Z.land mask (Z.shiftl 1 i)) i = true).
  { rewrite Z.land_spec, Hbit, Z.shiftl_1_l, Z.pow2_bits_eqb by lia.
    rewrite Z.eqb_refl. reflexivity. }
  rewrite Hzero, Z.bits_0 in Hcontra. discriminate.
Qed.

Lemma find_enabled_protocol_skip (fuel : nat) (mask start i : Z) :
  0 <= i < 5 -> Z.testbit mask i = false ->
  find_enabled_protocol (S fuel) mask start i
  = let index := if i =? 4 then 0 else i + 1 in
    if index =? start then Some (false, index)
    else find_enabled_protocol fuel mask start index.
Proof.
  intros Hi Hbit. apply find_enabled_protocol_step.
  - apply land_bit_clear; [lia | exact Hbit].
  - exact Hi.
Qed.

Ltac selection_found k :=
  exists k; split; [lia|]; split;
  [ repeat (rewrite find_enabled_protocol_skip by (try lia; assumption);
            cbv zeta; cbn [Z.eqb Z.add Pos.eqb Pos.add Pos.succ]);
    rewrite find_enabled_protocol_found by (try lia; assumption);
    reflexivity
  | split;
    [ assumption
    | let j := fresh "j" in
      let Hj := fresh "Hj" in
      intros j Hj;
      assert (j = 0 \/ j = 1 \/ j = 2 \/ j = 3) as Hcase by lia;
      destruct Hcase as [-> | [-> | [-> | ->]]];
      try lia; assumption ] ].

(** X15.  The selection loop of the Scanning step is a round robin:
    from a start index below the protocol count, with a protocol bit
    set in the mask, it stops at the first index at or cyclically after
    the start whose bit is set, having skipped only indices whose bit
    is clear, within five tests. *)
Theorem selection_is_round_robin (fuel : nat) (mask start : Z) :
  0 <= start < PN5180_PROTOCOL_COUNT ->
  (exists i, 0 <= i < PN5180_PROTOCOL_COUNT /\ Z.testbit mask i = true) ->
  (5 <= fuel)%nat ->
  exists k,
    0 <= k < PN5180_PROTOCOL_COUNT /\
    find_enabled_protocol fuel mask start start
    = Some (true, (start + k) mod PN5180_PROTOCOL_COUNT) /\
    Z.testbit mask ((start + k) mod PN5180_PROTOCOL_COUNT) = true /\
    (forall j, 0 <= j < k ->
               Z.testbit mask ((start + j) mod PN5180_PROTOCOL_COUNT) = false).
Proof.
  unfold PN5180_PROTOCOL_COUNT. intros Hstart (i & Hi & Hbit) Hfuel.
  do 5 (destruct fuel as [|fuel]; [lia|]).
  assert (Hnone : Z.testbit mask 0 = false -> Z.testbit mask 1 = false ->
                  Z.testbit mask 2 = false -> Z.testbit mask 3 = false ->
                  Z.testbit mask 4 = false -> False).
  { intros B0 B1 B2 B3 B4.
    assert (Hcase : i = 0 \/ i = 1 \/ i = 2 \/ i = 3 \/ i = 4) by lia.
    destruct Hcase as [-> | [-> | [-> | [-> | ->]]]]; congruence. }
  assert (Hcase : start = 0 \/ start = 1 \/ start = 2 \/ start = 3
                  \/ start = 4) by lia.
  destruct Hcase as [-> | [-> | [-> | [-> | ->]]]].
  - destruct (Z.testbit mask 0) eqn:B0; [selection_found 0|].
    destruct (Z.testbit mask 1) eqn:B1; [selection_found 1|].
    destruct (Z.testbit mask 2) eqn:B2; [selection_found 2|].
    destruct (Z.testbit mask 3) eqn:B3; [selection_found 3|].
    destruct (Z.testbit mask 4) eqn:B4; [selection_found 4|].
    exfalso. auto.
  - destruct (Z.testbit mask 1) eqn:B1; [selection_found 0|].
    destruct (Z.testbit mask 2) eqn:B2; [selection_found 1|].
    destruct (Z.testbit mask 3) eqn:B3; [selection_found 2|].
    destruct (Z.testbit mask 4) eqn:B4; [selection_found 3|].
    destruct (Z.testbit mask 0) eqn:B0; [selection_found 4|].
    exfalso. auto.
  - destruct (Z.testbit mask 2) eqn:B2; [selection_found 0|].
    destruct (Z.testbit mask 3) eqn:B3; [selection_found 1|].
    destruct (Z.testbit mask 4) eqn:B4; [selection_found 2|].
    destruct (Z.testbit mask 0) eqn:B0; [selection_found 3|].
    destruct (Z.testbit mask 1) eqn:B1; [selection_found 4|].
    exfalso. auto.
  - destruct (Z.testbit mask 3) eqn:B3; [selection_found 0|].
    destruct (Z.testbit mask 4) eqn:B4; [selection_found 1|].
    destruct (Z.testbit mask 0) eqn:B0; [selection_found 2|].
    destruct (Z.testbit mask 1) eqn:B1; [selection_found 3|].
    destruct (Z.testbit mask 2) eqn:B2; [selection_found 4|].
    exfalso. auto.
  - destruct (Z.testbit mask 4) eqn:B4; [selection_found 0|].
    destruct (Z.testbit mask 0) eqn:B0; [selection_found 1|].
    destruct (Z.testbit mask 1) eqn:B1; [selection_found 2|].
    destruct (Z.testbit mask 2) eqn:B2; [selection_found 3|].
    destruct (Z.testbit mask 3) eqn:B3; [selection_found 4|].
    exfalso. auto.
Qed.

Lemma selection_is_round_robin_witness :
  exists k,
    find_enabled_protocol 5 17 1 1
    = Some (true, (1 + k) mod PN5180_PROTOCOL_COUNT) /\
    (forall j, 0 <= j < k ->
               Z.testbit 17 ((1 + j) mod PN5180_PROTOCOL_COUNT) = false).
Proof.
  assert (Hstart : 0 <= 1 < PN5180_PROTOCOL_COUNT)
    by (unfold PN5180_PROTOCOL_COUNT; lia).
  assert (Hbit : exists i, 0 <= i < PN5180_PROTOCOL_COUNT /\
                           Z.testbit 17 i = true).
  { exists 4. split; [unfold PN5180_PROTOCOL_COUNT; lia | reflexivity]. }
  destruct (selection_is_round_robin 5 17 1 Hstart Hbit (le_n 5))
    as (k & _ & Hfind & _ & Hskip).
  exists k. split; [exact Hfind | exact Hskip].
Defined.

(** *** What the transport adds to the trace *)

Lemma only_bus_events_refl (dev : pn5180_dev_t) (w : world) :
  only_bus_events dev w w.
Proof. exists []. split; [reflexivity | constructor]. Qed.

Lemma only_bus_events_trans (dev : pn5180_dev_t) (w1 w2 w3 : world) :
  only_bus_events dev w1 w2 -> only_bus_events dev w2 w3 ->
  only_bus_events dev w1 w3.
Proof.
  intros (a1 & H1 & F1) (a2 & H2 & F2). exists (a2 ++ a1). split.
  - rewrite H2, H1, app_assoc. reflexivity.
  - apply Forall_app. split; assumption.
Qed.

Lemma only_bus_events_emit (dev : pn5180_dev_t) (e : event) (w : world) :
  bus_event dev e -> only_bus_events dev w (emit e w).
Proof.
  intros He. exists [e]. split; [reflexivity|].
  constructor; [exact He | constructor].
Qed.

Lemma only_bus_events_log (dev : pn5180_dev_t) (level : Z) (format : string)
  (w : world) :
  only_bus_events dev w (pn5180_log_internal dev level format w).
Proof.
  unfold pn5180_log_internal.
  destruct (CONFIG_PN5180_DEBUG_LEVEL <? level);
    [apply only_bus_events_refl|].
  destruct (negb (log_callback dev =? 0)).
  - apply only_bus_events_emit. cbn. auto.
  - destruct level as [|[[p|p|]|[p|p|]|]|p];
      try apply only_bus_events_refl;
      apply only_bus_events_emit; exact I.
Qed.

Lemma only_bus_events_wait_busy_loop (dev : pn5180_dev_t)
  (start_time timeout_ms : Z) :
  forall (fuel : nat) (w w' : world) (r : pn5180_error_t),
    wait_busy_loop fuel dev start_time timeout_ms w = Some (r, w') ->
    only_bus_events dev w w'.
Proof.
  induction fuel as [|fuel IH]; intros w w' r Hrun; [discriminate|].
  cbn [wait_busy_loop] in Hrun.
  destruct (pn5180_is_busy_active w).
  - destruct (timeout_ms <? u32 (pn5180_get_tick_ms w - start_time)).
    + inversion Hrun. apply only_bus_events_log.
    + apply IH in Hrun. destruct Hrun as (added & Htrace & Hall).
      exists added. split; [exact Htrace | exact Hall].
  - inversion Hrun. apply only_bus_events_refl.
Qed.

Lemma only_bus_events_spi_transaction (fuel : nat) (dev : pn5180_dev_t)
  (trans : spi_transaction_t) (w w' : world) (err : Z) (rx : list Z) :
  pn5180_spi_transaction fuel dev trans w = Some (err, rx, w') ->
  only_bus_events dev w w'.
Proof.
  unfold pn5180_spi_transaction, pn5180_wait_busy. intros Hrun.
  destruct (spi_mutex_held w).
  - inversion Hrun. exists []. split; [reflexivity | constructor].
  - destruct (wait_busy_loop fuel dev (pn5180_get_tick_ms w)
                CONFIG_PN5180_BUSY_TIMEOUT_MS w) as [[busy w1]|] eqn:Hwait;
      cbn [bind] in Hrun; [|discriminate].
    apply only_bus_events_wait_busy_loop in Hwait.
    destruct (negb (is_ok busy)).
    + inversion Hrun. subst. exact Hwait.
    + destruct (spi_device_transmit w1 (trace w1) trans) as [e d].
      inversion Hrun. subst. eapply only_bus_events_trans; [exact Hwait|].
      apply only_bus_events_emit. exact I.
Qed.

Lemma only_bus_events_write_register (fuel : nat) (dev : pn5180_dev_t)
  (reg value : Z) (w w' : world) (r : pn5180_error_t) :
  pn5180_write_register_internal fuel dev reg value w = Some (r, w') ->
  only_bus_events dev w w'.
Proof.
  unfold pn5180_write_register_internal. intros Hrun.
  destruct (spi_device dev =? 0);
    [inversion Hrun; apply only_bus_events_refl|].
  match type of Hrun with
  | context [pn5180_spi_transaction fuel dev ?t w] =>
      destruct (pn5180_spi_transaction fuel dev t w) as [[[e d] w1]|] eqn:Hspi
  end; cbn [bind] in Hrun; [|discriminate].
  apply only_bus_events_spi_transaction in Hspi.
  destruct (negb (e =? ESP_OK)); inversion Hrun; subst; exact Hspi.
Qed.

Lemma only_bus_events_read_register (fuel : nat) (dev : pn5180_dev_t)
  (reg : Z) (w w' : world) (r : pn5180_error_t) (value : Z) :
  pn5180_read_register_internal fuel dev reg w = Some (r, value, w') ->
  only_bus_events dev w w'.
Proof.
  unfold pn5180_read_register_internal. intros Hrun.
  destruct (spi_device dev =? 0);
    [inversion Hrun; apply only_bus_events_refl|].
  destruct (pn5180_spi_transaction fuel dev (SpiTx [Z.land reg 127]) w)
    as [[[e d] w1]|] eqn:Hcmd; cbn [bind] in Hrun; [|discriminate].
  apply only_bus_events_spi_transaction in Hcmd.
  destruct (negb (e =? ESP_OK)); [inversion Hrun; subst; exact Hcmd|].
  destruct (pn5180_spi_transaction fuel dev (SpiRx 4) w1)
    as [[[e2 d2] w2]|] eqn:Hdata; cbn [bind] in Hrun; [|discriminate].
  apply only_bus_events_spi_transaction in Hdata.
  destruct (negb (e2 =? ESP_OK)); inversion Hrun; subst;
    eapply only_bus_events_trans; eassumption.
Qed.

Lemma only_bus_events_read_chunks (dev : pn5180_dev_t) (bytes_to_read : Z) :
  forall (fuel : nat) (buffer : list Z) (offset : Z) (w w' : world)
         (r : pn5180_error_t) (buffer' : list Z) (offset' : Z),
    read_chunks fuel dev buffer offset bytes_to_read w
    = Some (r, buffer', offset', w') ->
    only_bus_events dev w w'.
Proof.
  induction fuel as [|fuel IH];
    intros buffer offset w w' r buffer' offset' Hrun; [discriminate|].
  cbn [read_chunks] in Hrun.
  destruct (offset <? bytes_to_read);
    [|inversion Hrun; apply only_bus_events_refl].
  match type of Hrun with
  | context [pn5180_spi_transaction fuel dev ?t w] =>
      destruct (pn5180_spi_transaction fuel dev t w) as [[[e d] w1]|] eqn:Hspi
  end; cbn [bind] in Hrun; [|discriminate].
  apply only_bus_events_spi_transaction in Hspi.
  destruct (negb (e =? ESP_OK)); [inversion Hrun; subst; exact Hspi|].
  eapply only_bus_events_trans; [exact Hspi | eapply IH, Hrun].
Qed.

(** The handle after [pn5180_read_buffer] differs from the one before in
    the stored RX length at most. *)
Lemma read_buffer_handle (fuel : nat) (dev dev' : pn5180_dev_t)
  (len len' : Z) (w w' : world) (r : pn5180_error_t) (buffer : list Z) :
  pn5180_read_buffer fuel dev len w = Some (r, buffer, len', dev', w') ->
  only_bus_events dev w w' /\
  (dev' = dev \/ exists n, dev' = set_rx_length dev n).
Proof.
  unfold pn5180_read_buffer. intros Hrun.
  destruct (spi_device dev =? 0);
    [inversion Hrun; subst; auto using only_bus_events_refl|].
  destruct (pn5180_write_register_internal fuel dev PN5180_REG_RX_DATA 0 w)
    as [[e w1]|] eqn:Hptr; cbn [bind] in Hrun; [|discriminate].
  apply only_bus_events_write_register in Hptr.
  destruct (negb (is_ok e)); [inversion Hrun; subst; auto|].
  match type of Hrun with
  | context [read_chunks fuel dev [] 0 ?n w1] =>
      destruct (read_chunks fuel dev [] 0 n w1)
        as [[[[e2 b2] o2] w2]|] eqn:Hchunks
  end; cbn [bind] in Hrun; [|discriminate].
  apply only_bus_events_read_chunks in Hchunks.
  destruct (negb (is_ok e2)); inversion Hrun; subst;
    (split; [eapply only_bus_events_trans; eassumption | eauto]).
Qed.

(** *** The scanning step *)

(** Runs a hypothesis [H : ... = Some _] through the binds, pairs and
    conditionals of the function on its left. *)
Ltac run H :=
  repeat (cbv beta zeta in H;
          match type of H with
          | bind ?m _ = Some _ =>
              destruct m as [?|] eqn:?; cbn [bind] in H; [|discriminate H]
          | match ?p with pair _ _ => _ end = Some _ => destruct p
          | (if ?c then _ else _) = Some _ => destruct c eqn:?
          | Some _ = Some _ => inversion H; subst; clear H
          end).

Lemma is_ok_true (e : pn5180_error_t) : is_ok e = true -> e = PN5180_OK.
Proof. destruct e; intros H; try discriminate H; reflexivity. Qed.

Lemma find_enabled_protocol_bit (mask start : Z) :
  forall (fuel : nat) (i index : Z),
    find_enabled_protocol fuel mask start i = Some (true, index) ->
    Z.land mask (Z.shiftl 1 index) <> 0.
Proof.
  induction fuel as [|fuel IH]; intros i index Hrun; [discriminate|].
  cbn [find_enabled_protocol] in Hrun. cbv zeta in Hrun.
  destruct (Z.land mask (Z.shiftl 1 i) =? 0) eqn:Hbit; cbn [negb] in Hrun.
  - match type of Hrun with
    | (if ?c then _ else _) = _ => destruct c; [discriminate|]
    end.
    eapply IH, Hrun.
  - inversion Hrun. subst. apply Z.eqb_neq. exact Hbit.
Qed.

Lemma switch_protocol_ok (fuel : nat) (dev : pn5180_dev_t) (protocol : Z)
  (w w' : world) :
  pn5180_switch_protocol fuel dev protocol w = Some (PN5180_OK, w') ->
  protocol = PN5180_PROTOCOL_ISO14443A \/
  protocol = PN5180_PROTOCOL_ISO15693.
Proof.
  unfold pn5180_switch_protocol. intros Hrun.
  destruct (PN5180_PROTOCOL_COUNT <=? protocol); [discriminate|].
  destruct (protocol =? PN5180_PROTOCOL_ISO14443A) eqn:Ha;
    [left; apply Z.eqb_eq; exact Ha|].
  destruct (protocol =? PN5180_PROTOCOL_ISO15693) eqn:Hv;
    [right; apply Z.eqb_eq; exact Hv|].
  cbn [bind is_ok negb] in Hrun. discriminate.
Qed.

Lemma write_tx_buffer_handle (fuel : nat) (dev dev' : pn5180_dev_t)
  (data : list Z) (len : Z) (w w' : world) (e : pn5180_error_t) :
  pn5180_write_tx_buffer_with_length fuel dev data len w
  = Some (e, dev', w') ->
  dev' = dev \/ exists n, dev' = set_tx_length dev n.
Proof.
  unfold pn5180_write_tx_buffer_with_length. intros Hrun.
  assert (Hbuf : forall e1 d1 w1,
             pn5180_write_buffer fuel dev data len w = Some (e1, d1, w1) ->
             d1 = dev \/ exists n, d1 = set_tx_length dev n).
  { unfold pn5180_write_buffer. intros e1 d1 w1 Hb. run Hb; eauto. }
  destruct (pn5180_write_buffer fuel dev data len w) as [[[e1 d1] w1]|];
    cbn [bind] in Hrun; [|discriminate].
  specialize (Hbuf e1 d1 w1 eq_refl).
  run Hrun; exact Hbuf.
Qed.

Lemma send_detect_command_handle (fuel : nat) (dev dev' : pn5180_dev_t)
  (protocol : Z) (w w' : world) (e : pn5180_error_t) :
  pn5180_send_detect_command fuel dev protocol w = Some (e, dev', w') ->
  dev' = dev \/ exists n, dev' = set_tx_length dev n.
Proof.
  unfold pn5180_send_detect_command. intros Hrun.
  destruct (protocol =? PN5180_PROTOCOL_ISO14443A);
    [|destruct (protocol =? PN5180_PROTOCOL_ISO15693)];
    cbv zeta iota beta in Hrun;
    try (inversion Hrun; subst; auto; fail);
    match type of Hrun with
    | (if ?c then _ else _) = _ =>
        change c with false in Hrun; cbv iota in Hrun
    end;
    match type of Hrun with
    | context [pn5180_write_tx_buffer_with_length fuel dev ?d ?l w] =>
        destruct (pn5180_write_tx_buffer_with_length fuel dev d l w)
          as [[[e1 d1] w1]|] eqn:Htx; cbn [bind] in Hrun; [|discriminate];
        apply write_tx_buffer_handle in Htx
    end;
    run Hrun; exact Htx.
Qed.

(** X16.  A scanning step leaves the state at Scanning or moves it to
    Idle or Transmitting.  It moves to Transmitting only with scanning
    enabled, after the scan-cycle delay, and for ISO 14443-A or
    ISO 15693 with the bit of that protocol set in the enabled mask; the
    scan counter then goes up by one and the state timestamp is the tick
    read at the start of the step. *)
Theorem scanning_transmits_for_two_protocols_only
  (fuel : nat) (dev dev' : pn5180_dev_t) (w w' : world) :
  state dev = DEVICE_STATE_SCANNING ->
  pn5180_state_scanning fuel dev w = Some (dev', w') ->
  (state dev' = DEVICE_STATE_SCANNING \/
   state dev' = DEVICE_STATE_IDLE \/
   state dev' = DEVICE_STATE_TRANSMITTING) /\
  (state dev' = DEVICE_STATE_TRANSMITTING ->
   (current_protocol_index dev' = PN5180_PROTOCOL_ISO14443A \/
    current_protocol_index dev' = PN5180_PROTOCOL_ISO15693) /\
   Z.land (enabled_protocols dev)
     (Z.shiftl 1 (current_protocol_index dev')) <> 0 /\
   scanning_enabled dev = true /\
   CONFIG_PN5180_SCAN_CYCLE_DELAY_MS
   <= u32 (pn5180_get_tick_ms w - last_scan_time dev) /\
   total_scans dev' = u32 (total_scans dev + 1) /\
   state_timestamp dev' = pn5180_get_tick_ms w).
Proof.
  intros Hstate Hrun. unfold pn5180_state_scanning in Hrun.
  cbv zeta in Hrun.
  destruct (scanning_enabled dev) eqn:Hen; cbn [negb] in Hrun.
  2:{ inversion Hrun. subst. cbn [state set_state].
      split; [auto | discriminate]. }
  destruct (u32 (pn5180_get_tick_ms w - last_scan_time dev)
            <? CONFIG_PN5180_SCAN_CYCLE_DELAY_MS) eqn:Hdelay.
  { inversion Hrun. subst. rewrite Hstate. split; [auto | discriminate]. }
  apply Z.ltb_ge in Hdelay.
  destruct (find_enabled_protocol fuel (enabled_protocols dev)
              (current_protocol_index dev) (current_protocol_index dev))
    as [[found index]|] eqn:Hfind; cbn [bind] in Hrun; [|discriminate].
  cbv beta iota zeta in Hrun.
  destruct found; cbn [negb] in Hrun.
  2:{ inversion Hrun. subst. cbn [state set_state].
      split; [auto | discriminate]. }
  apply find_enabled_protocol_bit in Hfind.
  cbn [current_protocol_index set_current_protocol_index] in Hrun.
  destruct (pn5180_switch_protocol fuel
              (set_current_protocol_index dev index) index w)
    as [[err w1]|] eqn:Hswitch; cbn [bind] in Hrun; [|discriminate].
  cbv beta iota zeta in Hrun.
  destruct (is_ok err) eqn:Hok; cbn [negb] in Hrun.
  2:{ inversion Hrun. subst. cbn. rewrite Hstate.
      split; [auto | discriminate]. }
  apply is_ok_true in Hok. subst err.
  apply switch_protocol_ok in Hswitch.
  destruct (pn5180_send_detect_command fuel
              (set_current_protocol_index dev index) index w1)
    as [[[err2 dev2] w2]|] eqn:Hdetect; cbn [bind] in Hrun; [|discriminate].
  cbv beta iota zeta in Hrun.
  apply send_detect_command_handle in Hdetect.
  destruct (is_ok err2); cbn [negb] in Hrun; inversion Hrun; subst;
    destruct Hdetect as [-> | [n ->]]; cbn;
    try (rewrite Hstate; split; [auto | discriminate]);
    (split; [auto|]); intros _; repeat split; auto.
Qed.

Lemma scanning_transmits_for_two_protocols_only_witness :
  exists dev' w',
    pn5180_state_scanning 120
      (set_state example_dev DEVICE_STATE_SCANNING) (example_world 50 false)
    = Some (dev', w') /\
    state dev' = DEVICE_STATE_TRANSMITTING /\
    current_protocol_index dev' = PN5180_PROTOCOL_ISO14443A /\
    total_scans dev' = 1.
Proof.
  destruct (pn5180_state_scanning 120
              (set_state example_dev DEVICE_STATE_SCANNING)
              (example_world 50 false)) as [[dev' w']|] eqn:Hrun;
    [|vm_compute in Hrun; discriminate Hrun].
  exists dev', w'. split; [reflexivity|].
  assert (Hstate : state dev' = DEVICE_STATE_TRANSMITTING).
  { vm_compute in Hrun. inversion Hrun. reflexivity. }
  destruct (scanning_transmits_for_two_protocols_only 120
              (set_state example_dev DEVICE_STATE_SCANNING) dev'
              (example_world 50 false) w' eq_refl Hrun)
    as [_ Htx].
  destruct (Htx Hstate) as ([Ha | Hv] & _ & _ & _ & Hscans & _).
  - split; [exact Hstate|]. split; [exact Ha | exact Hscans].
  - exfalso. vm_compute in Hrun. inversion Hrun as [[Hdev Hw]].
    rewrite <- Hdev in Hv. discriminate Hv.
Defined.

Lemma switch_protocol_unsupported (fuel : nat) (dev : pn5180_dev_t)
  (protocol : Z) (w : world) :
  protocol <> PN5180_PROTOCOL_ISO14443A ->
  protocol <> PN5180_PROTOCOL_ISO15693 ->
  exists e,
    pn5180_switch_protocol fuel dev protocol w = Some (e, w) /\
    is_ok e = false.
Proof.
  intros Ha Hv. unfold pn5180_switch_protocol.
  destruct (PN5180_PROTOCOL_COUNT <=? protocol);
    [exists PN5180_ERR_INVALID_ARG; split; reflexivity|].
  apply Z.eqb_neq in Ha. apply Z.eqb_neq in Hv. rewrite Ha, Hv.
  exists PN5180_ERR_UNSUPPORTED. split; reflexivity.
Qed.

(** X17.  With neither ISO 14443-A nor ISO 15693 in the enabled mask, a
    scanning step never reaches the chip: whatever else is enabled, the
    world after the step is the world before it (no transfer, no
    callback, no wait), the state stays Scanning or becomes Idle, and
    the scan counter and the mask are as before.  The other three
    protocols of [pn5180_protocol_t] are selected and dropped again. *)
Theorem unsupported_protocols_are_never_polled
  (fuel : nat) (dev dev' : pn5180_dev_t) (w w' : world) :
  Z.testbit (enabled_protocols dev) PN5180_PROTOCOL_ISO14443A = false ->
  Z.testbit (enabled_protocols dev) PN5180_PROTOCOL_ISO15693 = false ->
  state dev = DEVICE_STATE_SCANNING ->
  pn5180_state_scanning fuel dev w = Some (dev', w') ->
  w' = w /\
  (state dev' = DEVICE_STATE_SCANNING \/ state dev' = DEVICE_STATE_IDLE) /\
  enabled_protocols dev' = enabled_protocols dev /\
  scanning_enabled dev' = scanning_enabled dev /\
  total_scans dev' = total_scans dev.
Proof.
  intros Hno_a Hno_v Hstate Hrun. unfold pn5180_state_scanning in Hrun.
  cbv zeta in Hrun.
  destruct (negb (scanning_enabled dev)).
  { inversion Hrun. subst. cbn. auto. }
  destruct (u32 (pn5180_get_tick_ms w - last_scan_time dev)
            <? CONFIG_PN5180_SCAN_CYCLE_DELAY_MS).
  { inversion Hrun. subst. auto. }
  destruct (find_enabled_protocol fuel (enabled_protocols dev)
              (current_protocol_index dev) (current_protocol_index dev))
    as [[found index]|] eqn:Hfind; cbn [bind] in Hrun; [|discriminate].
  cbv beta iota zeta in Hrun.
  destruct found; cbn [negb] in Hrun.
  2:{ inversion Hrun. subst. cbn. auto. }
  apply find_enabled_protocol_bit in Hfind.
  cbn [current_protocol_index set_current_protocol_index] in Hrun.
  assert (Ha : index <> PN5180_PROTOCOL_ISO14443A).
  { intros ->. apply Hfind, land_bit_clear;
      [unfold PN5180_PROTOCOL_ISO14443A; lia | exact Hno_a]. }
  assert (Hv : index <> PN5180_PROTOCOL_ISO15693).
  { intros ->. apply Hfind, land_bit_clear;
      [unfold PN5180_PROTOCOL_ISO15693; lia | exact Hno_v]. }
  destruct (switch_protocol_unsupported fuel
              (set_current_protocol_index dev index) index w Ha Hv)
    as (e & Hswitch & Hfail).
  rewrite Hswitch in Hrun. cbn [bind] in Hrun. cbv beta iota zeta in Hrun.
  rewrite Hfail in Hrun. cbn [negb] in Hrun.
  inversion Hrun. subst. cbn. rewrite Hstate. auto.
Qed.

Lemma unsupported_protocols_are_never_polled_witness :
  exists dev',
    pn5180_state_scanning 5
      (set_enabled_protocols (set_state example_dev DEVICE_STATE_SCANNING)
         (Z.shiftl 1 PN5180_PROTOCOL_ISO14443B))
      (example_world 50 false)
    = Some (dev', example_world 50 false) /\
    state dev' = DEVICE_STATE_SCANNING.
Proof.
  destruct (pn5180_state_scanning 5
              (set_enabled_protocols
                 (set_state example_dev DEVICE_STATE_SCANNING)
                 (Z.shiftl 1 PN5180_PROTOCOL_ISO14443B))
              (example_world 50 false)) as [[dev' w']|] eqn:Hrun;
    [|vm_compute in Hrun; discriminate Hrun].
  destruct (unsupported_protocols_are_never_polled 5
              (set_enabled_protocols
                 (set_state example_dev DEVICE_STATE_SCANNING)
                 (Z.shiftl 1 PN5180_PROTOCOL_ISO14443B))
              dev' (example_world 50 false) w'
              eq_refl eq_refl eq_refl Hrun)
    as (Hw & [Hs | Hi] & _).
  - exists dev'. rewrite Hw. split; [reflexivity | exact Hs].
  - exfalso. vm_compute in Hrun. inversion Hrun as [[Hdev Hw']].
    rewrite <- Hdev in Hi. discriminate Hi.
Defined.

(** *** From the transmission to the end of the receive window *)

Lemma pn5180_read_register_internal_total (fuel : nat) (dev : pn5180_dev_t)
  (reg : Z) (w : world) :
  CONFIG_PN5180_BUSY_TIMEOUT_MS + 1 < Z.of_nat fuel ->
  exists r, pn5180_read_register_internal fuel dev reg w = Some r.
Proof.
  intros Hfuel. unfold pn5180_read_register_internal.
  destruct (spi_device dev =? 0); [eauto|].
  destruct (pn5180_spi_transaction_total fuel dev
              (SpiTx [Z.land reg 127]) w Hfuel) as [[[e rx] w1] Hcmd].
  rewrite Hcmd. cbn [bind]. destruct (negb (e =? ESP_OK)); [eauto|].
  destruct (pn5180_spi_transaction_total fuel dev (SpiRx 4) w1 Hfuel)
    as [[[e2 rx2] w2] Hdata].
  rewrite Hdata. cbn [bind]. destruct (negb (e2 =? ESP_OK)); eauto.
Qed.

(** A Transmitting step that ends in Receiving saw TX_DONE: it stored
    the tick at its end plus the reply timeout of the protocol as the
    deadline and kept the protocol. *)
Lemma transmitting_to_receiving (fuel : nat) (dev dT : pn5180_dev_t)
  (w wT : world) :
  state dev = DEVICE_STATE_TRANSMITTING ->
  pn5180_state_transmitting fuel dev w = Some (dT, wT) ->
  state dT = DEVICE_STATE_RECEIVING ->
  busy_wait_start_time dT
  = u32 (pn5180_get_tick_ms wT + rx_timeout_ms (current_protocol_index dev))
  /\ current_protocol_index dT = current_protocol_index dev
  /\ state_timestamp dT = pn5180_get_tick_ms wT.
Proof.
  intros Hstate Hrun HdT. unfold pn5180_state_transmitting in Hrun.
  run Hrun; cbn in HdT; try rewrite Hstate in HdT; try discriminate HdT.
  cbn. auto.
Qed.

(** X18.  The receive window.  After a Transmitting step that saw
    TX_DONE at tick [t], with [t] plus the reply timeout of the protocol
    below 2^32, a Receiving step that reads the IRQ status goes to
    Processing on RX_DONE, whatever the time; to Scanning with the next
    protocol on RX_ERROR; and with neither of them it stays as it is
    while the tick is at most [t] plus the timeout and gives up for
    Scanning with the next protocol once the tick is past it. *)
Theorem receive_window_follows_transmission
  (fuel : nat) (dev dT : pn5180_dev_t) (w wT wR w1 : world)
  (irq_status : Z) :
  CONFIG_PN5180_BUSY_TIMEOUT_MS + 1 < Z.of_nat fuel ->
  state dev = DEVICE_STATE_TRANSMITTING ->
  pn5180_state_transmitting fuel dev w = Some (dT, wT) ->
  state dT = DEVICE_STATE_RECEIVING ->
  pn5180_get_tick_ms wT + rx_timeout_ms (current_protocol_index dev) < 2^32 ->
  pn5180_read_register_internal fuel dT PN5180_REG_IRQ_STATUS wR
  = Some (PN5180_OK, irq_status, w1) ->
  exists dR w',
    pn5180_state_receiving fuel dT wR = Some (dR, w') /\
    (Z.land irq_status PN5180_IRQ_STATUS_RX_DONE <> 0 ->
     state dR = DEVICE_STATE_PROCESSING /\
     current_protocol_index dR = current_protocol_index dev) /\
    (Z.land irq_status PN5180_IRQ_STATUS_RX_DONE = 0 ->
     Z.land irq_status PN5180_IRQ_STATUS_RX_ERROR <> 0 ->
     state dR = DEVICE_STATE_SCANNING /\
     current_protocol_index dR = u8 (current_protocol_index dev + 1)) /\
    (Z.land irq_status PN5180_IRQ_STATUS_RX_DONE = 0 ->
     Z.land irq_status PN5180_IRQ_STATUS_RX_ERROR = 0 ->
     pn5180_get_tick_ms w1
     <= pn5180_get_tick_ms wT + rx_timeout_ms (current_protocol_index dev) ->
     dR = dT /\ w' = w1) /\
    (Z.land irq_status PN5180_IRQ_STATUS_RX_DONE = 0 ->
     Z.land irq_status PN5180_IRQ_STATUS_RX_ERROR = 0 ->
     pn5180_get_tick_ms wT + rx_timeout_ms (current_protocol_index dev)
     < pn5180_get_tick_ms w1 ->
     state dR = DEVICE_STATE_SCANNING /\
     current_protocol_index dR = u8 (current_protocol_index dev + 1) /\
     last_scan_time dR = pn5180_get_tick_ms w1 /\ w' = w1).
Proof.
  intros Hfuel Hstate Htx HdT Hnowrap Hread.
  destruct (transmitting_to_receiving fuel dev dT w wT Hstate Htx HdT)
    as (Hdeadline & Hindex & _).
  assert (Htick : 0 <= pn5180_get_tick_ms wT)
    by (apply Z.mod_pos_bound; lia).
  assert (Hrx : 0 <= rx_timeout_ms (current_protocol_index dev)).
  { unfold rx_timeout_ms.
    destruct (current_protocol_index dev) as [|[[p|p|]|[p|p|]|]|p];
      cbv; congruence. }
  unfold u32 in Hdeadline. rewrite Z.mod_small in Hdeadline by lia.
  unfold pn5180_state_receiving. rewrite Hread. cbn [bind is_ok negb].
  cbv beta iota zeta.
  destruct (Z.land irq_status PN5180_IRQ_STATUS_RX_DONE =? 0) eqn:Hdone;
    cbn [negb].
  - apply Z.eqb_eq in Hdone.
    destruct (Z.land irq_status PN5180_IRQ_STATUS_RX_ERROR =? 0) eqn:Herr;
      cbn [negb].
    + apply Z.eqb_eq in Herr. rewrite Hdeadline.
      destruct (pn5180_get_tick_ms wT
                + rx_timeout_ms (current_protocol_index dev)
                <? pn5180_get_tick_ms w1) eqn:Hlate;
        [apply Z.ltb_lt in Hlate | apply Z.ltb_ge in Hlate];
        do 2 eexists; (split; [reflexivity|]);
        cbn; rewrite ?Hindex;
        repeat split; try reflexivity; intros; try contradiction; lia.
    + apply Z.eqb_neq in Herr.
      destruct (pn5180_write_register_internal_total fuel dT
                  PN5180_REG_IRQ_STATUS PN5180_IRQ_STATUS_RX_ERROR w1 Hfuel)
        as [[e w2] Hwrite].
      rewrite Hwrite. cbn [bind]. do 2 eexists. split; [reflexivity|].
      cbn. rewrite ?Hindex.
      repeat split; try reflexivity; intros; contradiction.
  - apply Z.eqb_neq in Hdone.
    destruct (pn5180_write_register_internal_total fuel dT
                PN5180_REG_IRQ_STATUS PN5180_IRQ_STATUS_RX_DONE w1 Hfuel)
      as [[e w2] Hwrite].
    rewrite Hwrite. cbn [bind]. do 2 eexists. split; [reflexivity|].
    cbn. rewrite ?Hindex.
    repeat split; try reflexivity; intros; contradiction.
Qed.

Lemma receive_window_follows_transmission_witness :
  exists dT wT dR w',
    pn5180_state_transmitting 102 example_dev
      (example_world_replying 10 [0; 0; 0; 2]) = Some (dT, wT) /\
    pn5180_state_receiving 102 dT (example_world_replying 13 [0; 0; 0; 0])
    = Some (dR, w') /\
    state dR = DEVICE_STATE_SCANNING /\
    current_protocol_index dR = 1.
Proof.
  destruct (pn5180_state_transmitting 102 example_dev
              (example_world_replying 10 [0; 0; 0; 2]))
    as [[dT wT]|] eqn:Htx; [|vm_compute in Htx; discriminate Htx].
  pose proof Htx as Hval. vm_compute in Hval.
  inversion Hval as [[HdT HwT]]. clear Hval.
  destruct (pn5180_read_register_internal 102 dT PN5180_REG_IRQ_STATUS
              (example_world_replying 13 [0; 0; 0; 0]))
    as [[[e v] w1]|] eqn:Hread;
    [|rewrite <- HdT in Hread; vm_compute in Hread; discriminate Hread].
  pose proof Hread as Hval. rewrite <- HdT in Hval. vm_compute in Hval.
  inversion Hval as [[He Hv Hw1]]. clear Hval.
  rewrite <- He, <- Hv in Hread.
  assert (Hfuel : CONFIG_PN5180_BUSY_TIMEOUT_MS + 1 < Z.of_nat 102)
    by (vm_compute; reflexivity).
  assert (Hstate : state dT = DEVICE_STATE_RECEIVING)
    by (rewrite <- HdT; reflexivity).
  assert (Hnowrap : pn5180_get_tick_ms wT
                    + rx_timeout_ms (current_protocol_index example_dev)
                    < 2^32)
    by (rewrite <- HwT; vm_compute; reflexivity).
  destruct (receive_window_follows_transmission 102 example_dev dT
              (example_world_replying 10 [0; 0; 0; 2]) wT
              (example_world_replying 13 [0; 0; 0; 0]) w1 0
              Hfuel eq_refl Htx Hstate Hnowrap Hread)
    as (dR & w' & Hrx & _ & _ & _ & Hlate).
  exists dT, wT, dR, w'. split; [exact Htx|]. split; [exact Hrx|].
  assert (Hpast : pn5180_get_tick_ms wT
                  + rx_timeout_ms (current_protocol_index example_dev)
                  < pn5180_get_tick_ms w1)
    by (rewrite <- HwT, <- Hw1; vm_compute; reflexivity).
  destruct (Hlate eq_refl eq_refl Hpast) as (Hs & Hi & _).
  split; [exact Hs | exact Hi].
Defined.

(** *** The processing step *)

Lemma only_bus_events_same (dev dev' : pn5180_dev_t) (w w' : world) :
  log_callback dev' = log_callback dev ->
  callback_user_data dev' = callback_user_data dev ->
  only_bus_events dev' w w' -> only_bus_events dev w w'.
Proof.
  intros Hlog Hud (added & Htrace & Hall). exists added.
  split; [exact Htrace|].
  eapply Forall_impl; [|exact Hall].
  intros [t e rx | fn card ud | fn format ud | level format]; cbn; auto.
  rewrite Hlog, Hud. auto.
Qed.

Lemma pn5180_read_buffer_total (fuel : nat) (dev : pn5180_dev_t) (len : Z)
  (w : world) :
  (119 <= fuel)%nat -> 0 <= len ->
  exists res, pn5180_read_buffer fuel dev len w = Some res.
Proof.
  intros Hfuel Hlen. unfold pn5180_read_buffer.
  destruct (spi_device dev =? 0); [eauto|].
  destruct (pn5180_write_register_internal_total fuel dev PN5180_REG_RX_DATA
              0 w) as [[e w1] Hptr];
    [unfold CONFIG_PN5180_BUSY_TIMEOUT_MS; lia|].
  rewrite Hptr. cbn [bind]. cbv beta iota zeta.
  destruct (negb (is_ok e)); [eauto|].
  unfold CONFIG_PN5180_RX_BUFFER_SIZE.
  set (bytes := if 1024 <? len then 1024 else len).
  assert (Hbytes : 0 <= bytes <= 1024).
  { unfold bytes. destruct (1024 <? len) eqn:Hbig;
      [apply Z.ltb_lt in Hbig | apply Z.ltb_ge in Hbig]; lia. }
  destruct (read_chunks_total dev bytes fuel [] 0 w1)
    as [[[[r buffer] offset] w2] Hrun]; [lia | lia |].
  rewrite Hrun. cbn [bind]. cbv beta iota.
  destruct (negb (is_ok r)); eauto.
Qed.

(** X19.  The processing step returns for every behaviour of the
    hardware, always with the state Scanning, and the card callback is
    called exactly for an accepted response.  It is called at most once,
    as the last thing the step does to the outside, and only when the
    RX buffer was read with [PN5180_OK] and the decoder of the current
    protocol, ISO 14443-A or ISO 15693, returned [PN5180_OK] for the
    very bytes and count that [pn5180_read_buffer] delivered; it then
    gets the record of that decoder, with the RSSI of the RF status
    register filled in when that could be read, and the user data of
    the handle.  Whenever the buffer was read, the decoder accepted and
    a callback is registered, the callback is called.  Everything else
    the step does to the outside is transport. *)
Theorem processing_reports_accepted_cards_only
  (decode_a decode_v :
     pn5180_dev_t -> list Z -> Z -> pn5180_card_info_t ->
     pn5180_error_t * pn5180_card_info_t)
  (fuel : nat) (dev : pn5180_dev_t) (w : world) :
  (119 <= fuel)%nat ->
  exists e response n dev1 w1 dev' w',
    pn5180_read_buffer fuel dev CONFIG_PN5180_RX_BUFFER_SIZE w
    = Some (e, response, n, dev1, w1) /\
    pn5180_state_processing decode_a decode_v fuel dev w = Some (dev', w') /\
    state dev' = DEVICE_STATE_SCANNING /\
    (only_bus_events dev w w' \/
     exists card c w2 rf_err rf_status,
       w' = emit (CardCallback (card_callback dev) card
                    (callback_user_data dev)) w2 /\
       only_bus_events dev w w2 /\
       card_callback dev <> 0 /\
       e = PN5180_OK /\
       decoder_accepted decode_a decode_v dev dev1 response n
         (pn5180_get_tick_ms w1) c /\
       pn5180_read_register_internal fuel
         (set_cards_detected dev1 (u32 (cards_detected dev1 + 1)))
         PN5180_REG_RF_STATUS w1
       = Some (rf_err, rf_status, w2) /\
       card = (if is_ok rf_err
               then set_rssi c (Z.land rf_status PN5180_RF_STATUS_RSSI_MASK)
               else c) /\
       cards_detected dev' = u32 (cards_detected dev + 1)) /\
    (e = PN5180_OK -> card_callback dev <> 0 ->
     forall c,
       decoder_accepted decode_a decode_v dev dev1 response n
         (pn5180_get_tick_ms w1) c ->
       exists card w2,
         w' = emit (CardCallback (card_callback dev) card
                      (callback_user_data dev)) w2).
Proof.
  intros Hfuel.
  destruct (pn5180_read_buffer_total fuel dev CONFIG_PN5180_RX_BUFFER_SIZE w
              Hfuel) as [[[[[e response] n] dev1] w1] Hread];
    [unfold CONFIG_PN5180_RX_BUFFER_SIZE; lia|].
  exists e, response, n, dev1, w1.
  unfold pn5180_state_processing. rewrite Hread. cbn [bind].
  cbv beta iota zeta.
  destruct (read_buffer_handle _ _ _ _ _ _ _ _ _ Hread) as [Hbus Hdev1].
  assert (Hsame : card_callback dev1 = card_callback dev /\
                  callback_user_data dev1 = callback_user_data dev /\
                  log_callback dev1 = log_callback dev /\
                  current_protocol_index dev1 = current_protocol_index dev /\
                  cards_detected dev1 = cards_detected dev).
  { destruct Hdev1 as [-> | [m ->]]; cbn; auto. }
  destruct Hsame as (Hcb & Hud & Hlog & Hidx & Hcount). clear Hdev1.
  destruct (is_ok e) eqn:He; cbn [negb].
  2:{ do 2 eexists. split; [reflexivity|]. split; [reflexivity|].
      split; [reflexivity|]. split; [left; exact Hbus|].
      intros ->. discriminate He. }
  apply is_ok_true in He. subst e.
  rewrite Hidx.
  match goal with
  | |- context [match ?d with pair _ _ => _ end] => set (decoded := d)
  end.
  assert (Hacc : forall c0,
             decoder_accepted decode_a decode_v dev dev1 response n
               (pn5180_get_tick_ms w1) c0 <->
             decoded = (PN5180_OK, c0)).
  { intros c0. unfold decoder_accepted, decoded.
    destruct (current_protocol_index dev =? PN5180_PROTOCOL_ISO14443A)
      eqn:Ha;
      [apply Z.eqb_eq in Ha
      |apply Z.eqb_neq in Ha;
       destruct (current_protocol_index dev =? PN5180_PROTOCOL_ISO15693)
         eqn:Hv; [apply Z.eqb_eq in Hv | apply Z.eqb_neq in Hv]].
    - rewrite Ha. split.
      + intros [[_ H] | [H _]]; [exact H | discriminate H].
      + intros H. left. split; [reflexivity | exact H].
    - rewrite Hv. split.
      + intros [[H _] | [_ H]]; [discriminate H | exact H].
      + intros H. right. split; [reflexivity | exact H].
    - split.
      + intros [[H _] | [H _]]; contradiction.
      + intros H. discriminate H. }
  clearbody decoded. destruct decoded as [e2 c].
  destruct (is_ok e2) eqn:Hok.
  2:{ cbn [bind]. do 2 eexists. split; [reflexivity|].
      split; [reflexivity|]. split; [reflexivity|].
      split; [left; exact Hbus|].
      intros _ _ c0 Hc0. apply Hacc in Hc0. inversion Hc0. subst e2.
      discriminate Hok. }
  apply is_ok_true in Hok. subst e2.
  destruct (pn5180_read_register_internal_total fuel
              (set_cards_detected dev1 (u32 (cards_detected dev1 + 1)))
              PN5180_REG_RF_STATUS w1)
    as [[[rf_err rf_status] w2] Hrssi];
    [unfold CONFIG_PN5180_BUSY_TIMEOUT_MS; lia|].
  rewrite Hrssi. cbn [bind]. cbv beta iota zeta.
  pose proof (only_bus_events_read_register _ _ _ _ _ _ _ Hrssi) as Hbus2.
  apply (only_bus_events_same dev) in Hbus2; [|exact Hlog | exact Hud].
  pose proof (only_bus_events_trans dev w w1 w2 Hbus Hbus2) as Hbus'.
  cbn [card_callback callback_user_data set_cards_detected].
  rewrite Hcb, Hud.
  destruct (card_callback dev =? 0) eqn:Hnull; cbn [negb bind].
  - apply Z.eqb_eq in Hnull.
    do 2 eexists. split; [reflexivity|]. split; [reflexivity|].
    split; [reflexivity|]. split; [left; exact Hbus'|].
    intros _ Hset. contradiction.
  - apply Z.eqb_neq in Hnull.
    do 2 eexists. split; [reflexivity|]. split; [reflexivity|].
    split; [reflexivity|]. split.
    + right. exists (if is_ok rf_err
                     then set_rssi c
                            (Z.land rf_status PN5180_RF_STATUS_RSSI_MASK)
                     else c), c, w2, rf_err, rf_status.
      split; [reflexivity|]. split; [exact Hbus'|].
      split; [exact Hnull|]. split; [reflexivity|].
      split; [apply Hacc; reflexivity|].
      split; [reflexivity|]. split; [reflexivity|].
      cbn. rewrite Hcount. reflexivity.
    + intros _ _ c0 _. do 2 eexists. reflexivity.
Qed.

Lemma processing_reports_accepted_cards_only_witness :
  exists dev' w',
    pn5180_state_processing example_decoder example_decoder 120
      (pn5180_set_card_callback example_dev 7 9) (example_world 0 false)
    = Some (dev', w') /\
    state dev' = DEVICE_STATE_SCANNING.
Proof.
  assert (Hfuel : (119 <= 120)%nat) by lia.
  destruct (processing_reports_accepted_cards_only example_decoder
              example_decoder 120 (pn5180_set_card_callback example_dev 7 9)
              (example_world 0 false) Hfuel)
    as (e & response & n & dev1 & w1 & dev' & w' & _ & Hrun & Hstate & _).
  exists dev', w'. split; [exact Hrun | exact Hstate].
Defined.

(** The run of the witness does call the callback, with the user data
    [9] that was registered with it. *)
Example processing_calls_the_callback :
  exists dev' w' card rest,
    pn5180_state_processing example_decoder example_decoder 120
      (pn5180_set_card_callback example_dev 7 9) (example_world 0 false)
    = Some (dev', w') /\
    trace w' = CardCallback 7 card 9 :: rest /\
    protocol card = PN5180_PROTOCOL_ISO14443A /\
    cards_detected dev' = 1.
Proof. vm_compute. do 4 eexists. repeat split. Qed.

(** *** Stopping a scan *)

Lemma bits_above_u32 (x i : Z) :
  0 <= x < 2^32 -> 32 <= i -> Z.testbit x i = false.
Proof.
  intros Hx Hi. rewrite <- (Z.mod_small x (2^32)) by exact Hx.
  apply Z.mod_pow2_bits_high. lia.
Qed.

Lemma u32_of_bits (x : Z) :
  (forall i, 32 <= i -> Z.testbit x i = false) -> 0 <= x < 2^32.
Proof.
  intros Hhigh.
  assert (Hmod : x = x mod 2^32).
  { apply Z.bits_inj'. intros i Hi.
    destruct (Z.lt_ge_cases i 32) as [Hlow | Hge].
    - rewrite Z.mod_pow2_bits_low by lia. reflexivity.
    - rewrite Z.mod_pow2_bits_high by lia. apply Hhigh, Hge. }
  rewrite Hmod. apply Z.mod_pos_bound. lia.
Qed.

Lemma field_off_value (v : Z) :
  0 <= v < 2^32 ->
  Z.land v (Z.lnot PN5180_RF_CONTROL_FIELD_ON) = Z.clearbit v 7 /\
  0 <= Z.clearbit v 7 < 2^32.
Proof.
  intros Hv. split.
  - unfold Z.clearbit. rewrite Z.ldiff_land. reflexivity.
  - apply u32_of_bits. intros i Hi.
    rewrite Z.clearbit_eqb, (bits_above_u32 v i Hv Hi). reflexivity.
Qed.

Lemma field_on_value (v : Z) :
  0 <= v < 2^32 ->
  Z.lor v PN5180_RF_CONTROL_FIELD_ON = Z.setbit v 7 /\
  0 <= Z.setbit v 7 < 2^32.
Proof.
  intros Hv. split; [reflexivity|].
  apply u32_of_bits. intros i Hi.
  rewrite Z.setbit_eqb, (bits_above_u32 v i Hv Hi) by lia.
  destruct (Z.eqb_spec 7 i); [lia | reflexivity].
Qed.

Lemma write_register_ready
  (fuel : nat) (dev : pn5180_dev_t) (reg value : Z) (w : world) :
  spi_device dev <> 0 -> bus_ready w ->
  exists rx,
    pn5180_write_register_internal (S fuel) dev reg value w
    = Some (PN5180_OK,
            emit (Spi (SpiTx (write_frame reg value)) ESP_OK rx) w).
Proof.
  intros Hdev (Hbusy & Hmutex & Hok).
  rewrite write_register_idle by auto.
  rewrite Hok. eexists. reflexivity.
Qed.

Lemma read_register_ready
  (fuel : nat) (dev : pn5180_dev_t) (reg : Z) (w : world) :
  spi_device dev <> 0 -> bus_ready w ->
  exists rx1 rx,
    pn5180_read_register_internal (S fuel) dev reg w
    = Some (PN5180_OK, register_value rx,
            emit (Spi (SpiRx 4) ESP_OK rx)
              (emit (Spi (SpiTx [reg mod 128]) ESP_OK rx1) w)) /\
    0 <= register_value rx < 2^32.
Proof.
  intros Hdev Hready. unfold pn5180_read_register_internal.
  apply Z.eqb_neq in Hdev. rewrite Hdev.
  replace (Z.land reg 127) with (reg mod 128)
    by (change 127 with (Z.ones 7); rewrite Z.land_ones by lia; reflexivity).
  destruct (pn5180_spi_transaction_ready fuel dev (SpiTx [reg mod 128]) w
              Hready) as [rx1 Hcmd].
  rewrite Hcmd. cbn [bind]. cbv beta iota zeta.
  change (negb (ESP_OK =? ESP_OK)) with false. cbv iota.
  destruct (pn5180_spi_transaction_ready fuel dev (SpiRx 4)
              (emit (Spi (SpiTx [reg mod 128]) ESP_OK rx1) w)
              (bus_ready_emit _ w Hready)) as [rx Hdata].
  rewrite Hdata. cbn [bind]. cbv beta iota zeta.
  change (negb (ESP_OK =? ESP_OK)) with false. cbv iota.
  do 2 eexists. split; [reflexivity|].
  apply Z.mod_pos_bound. lia.
Qed.

(** X20.  [pn5180_cmd_stop_scan] cannot fail and cannot hang: whatever
    the BUSY line, the mutex and the bus do, it returns [PN5180_OK] with
    scanning disabled, and in state Idle when scanning was enabled; the
    enabled mask and the callbacks are left alone.  When scanning was
    not enabled it does nothing at all.  The result does not tell
    whether the RF field could be switched off. *)
Theorem stop_scan_always_stops
  (fuel : nat) (dev : pn5180_dev_t) (cmd : option pn5180_command_t)
  (w : world) :
  CONFIG_PN5180_BUSY_TIMEOUT_MS + 1 < Z.of_nat fuel ->
  exists dev' w',
    pn5180_cmd_stop_scan fuel dev cmd w = Some (PN5180_OK, dev', w') /\
    scanning_enabled dev' = false /\
    (scanning_enabled dev = true ->
     dev' = set_state (set_scanning_enabled dev false) DEVICE_STATE_IDLE /\
     only_bus_events dev w w') /\
    (scanning_enabled dev = false -> dev' = dev /\ w' = w).
Proof.
  intros Hfuel. unfold pn5180_cmd_stop_scan.
  destruct (scanning_enabled dev) eqn:Hen; cbn [negb].
  2:{ exists dev, w. split; [reflexivity|]. split; [exact Hen|].
      split; [discriminate | auto]. }
  cbv zeta.
  destruct (pn5180_read_register_internal_total fuel
              (set_scanning_enabled dev false) PN5180_REG_RF_CONTROL w Hfuel)
    as [[[e v] w1] Hread].
  rewrite Hread. cbn [bind]. cbv beta iota zeta.
  apply only_bus_events_read_register in Hread.
  change (only_bus_events dev w w1) in Hread.
  destruct (is_ok e).
  - destruct (pn5180_write_register_internal_total fuel
                (set_scanning_enabled dev false) PN5180_REG_RF_CONTROL
                (Z.land v (Z.lnot PN5180_RF_CONTROL_FIELD_ON)) w1 Hfuel)
      as [[e2 w2] Hwrite].
    rewrite Hwrite. cbn [bind]. cbv beta iota zeta.
    apply only_bus_events_write_register in Hwrite.
    change (only_bus_events dev w1 w2) in Hwrite.
    do 2 eexists. split; [reflexivity|]. split; [reflexivity|].
    split; [|discriminate]. intros _. split; [reflexivity|].
    eapply only_bus_events_trans; eassumption.
  - cbn [bind]. do 2 eexists. split; [reflexivity|]. split; [reflexivity|].
    split; [|discriminate]. intros _. split; [reflexivity | exact Hread].
Qed.

Lemma stop_scan_always_stops_witness :
  exists dev' w',
    pn5180_cmd_stop_scan 102 example_dev None (example_world 0 true)
    = Some (PN5180_OK, dev', w') /\
    scanning_enabled dev' = false.
Proof.
  assert (Hfuel : CONFIG_PN5180_BUSY_TIMEOUT_MS + 1 < Z.of_nat 102)
    by (vm_compute; reflexivity).
  destruct (stop_scan_always_stops 102 example_dev None
              (example_world 0 true) Hfuel)
    as (dev' & w' & Hrun & Hoff & _).
  exists dev', w'. split; [exact Hrun | exact Hoff].
Defined.

(** With BUSY stuck high the command still reports [PN5180_OK], and
    nothing went over the bus: the field is as it was. *)
Example stop_scan_reports_ok_with_the_field_on :
  exists dev' w',
    pn5180_cmd_stop_scan 102 example_dev None (example_world 0 true)
    = Some (PN5180_OK, dev', w') /\
    state dev' = DEVICE_STATE_IDLE /\
    sent (trace w') = [].
Proof. vm_compute. do 2 eexists. repeat split. Qed.

(** X21.  On a ready bus [pn5180_cmd_stop_scan] switches the RF field
    off and changes nothing else in the RF control register: it sends
    the read command for register [0x05], receives four bytes, and
    writes back the value it got with bit 7 cleared, as one frame of the
    header [0x85] and four bytes, most significant first. *)
Theorem stop_scan_turns_the_field_off
  (fuel : nat) (dev : pn5180_dev_t) (cmd : option pn5180_command_t)
  (w : world) :
  spi_device dev <> 0 -> bus_ready w -> scanning_enabled dev = true ->
  exists w' rx1 rx rx2 b3 b2 b1 b0,
    pn5180_cmd_stop_scan (S fuel) dev cmd w
    = Some (PN5180_OK,
            set_state (set_scanning_enabled dev false) DEVICE_STATE_IDLE,
            w') /\
    trace w'
    = [Spi (SpiTx [0x85; b3; b2; b1; b0]) ESP_OK rx2;
       Spi (SpiRx 4) ESP_OK rx;
       Spi (SpiTx [0x05]) ESP_OK rx1] ++ trace w /\
    0 <= b3 < 256 /\ 0 <= b2 < 256 /\ 0 <= b1 < 256 /\ 0 <= b0 < 256 /\
    be32 b3 b2 b1 b0 = Z.clearbit (register_value rx) 7.
Proof.
  intros Hdev Hready Hen. unfold pn5180_cmd_stop_scan.
  rewrite Hen. cbn [negb]. cbv zeta.
  destruct (read_register_ready fuel (set_scanning_enabled dev false)
              PN5180_REG_RF_CONTROL w Hdev Hready)
    as (rx1 & rx & Hread & Hv).
  rewrite Hread. cbn [bind is_ok]. cbv beta iota zeta.
  set (v := register_value rx) in *.
  destruct (field_off_value v Hv) as [Hclear Hrange].
  rewrite Hclear.
  destruct (write_register_ready fuel (set_scanning_enabled dev false)
              PN5180_REG_RF_CONTROL (Z.clearbit v 7)
              (emit (Spi (SpiRx 4) ESP_OK rx)
                 (emit (Spi (SpiTx [PN5180_REG_RF_CONTROL mod 128]) ESP_OK
                          rx1) w)))
    as [rx2 Hwrite]; [exact Hdev | exact Hready |].
  rewrite Hwrite. cbn [bind]. cbv beta iota zeta.
  destruct (value_bytes (Z.clearbit v 7) Hrange)
    as (Hb3 & Hb2 & Hb1 & Hb0 & Hbe).
  eexists. exists rx1, rx, rx2.
  exists ((Z.clearbit v 7 / 2^24) mod 2^8), ((Z.clearbit v 7 / 2^16) mod 2^8),
    ((Z.clearbit v 7 / 2^8) mod 2^8), (Z.clearbit v 7 mod 2^8).
  split; [reflexivity|]. split; [reflexivity|]. auto.
Qed.

Lemma stop_scan_turns_the_field_off_witness :
  exists w' b0,
    pn5180_cmd_stop_scan 1 example_dev None
      (example_world_replying 0 [0; 0; 0; 0x83])
    = Some (PN5180_OK,
            set_state (set_scanning_enabled example_dev false)
              DEVICE_STATE_IDLE, w') /\
    sent (trace w') = [[0x05]; [0x85; 0; 0; 0; b0]] /\
    b0 = 0x03.
Proof.
  assert (Hdev : spi_device example_dev <> 0) by discriminate.
  assert (Hready : bus_ready (example_world_replying 0 [0; 0; 0; 0x83])).
  { repeat split. }
  destruct (stop_scan_turns_the_field_off 0 example_dev None
              (example_world_replying 0 [0; 0; 0; 0x83]) Hdev Hready eq_refl)
    as (w' & rx1 & rx & rx2 & b3 & b2 & b1 & b0 & Hrun & Htrace & _).
  exists w', b0. split; [exact Hrun|].
  vm_compute in Hrun. inversion Hrun as [Hw']. rewrite <- Hw' in Htrace.
  cbn [trace app] in Htrace. inversion Htrace. subst.
  split; reflexivity.
Defined.

(** *** Configuring, sleeping and resetting *)

Lemma configure_for_scanning_total (fuel : nat) (dev : pn5180_dev_t)
  (w : world) :
  CONFIG_PN5180_BUSY_TIMEOUT_MS + 1 < Z.of_nat fuel ->
  exists r, pn5180_configure_for_scanning fuel dev w = Some r.
Proof.
  intros Hfuel. unfold pn5180_configure_for_scanning.
  destruct (pn5180_read_register_internal_total fuel dev
              PN5180_REG_RF_CONTROL w Hfuel) as [[[e v] w1] Hread].
  rewrite Hread. cbn [bind]. cbv beta iota zeta.
  destruct (negb (is_ok e)); [eauto|].
  destruct (pn5180_write_register_internal_total fuel dev
              PN5180_REG_RF_CONTROL (Z.lor v PN5180_RF_CONTROL_FIELD_ON)
              w1 Hfuel) as [[e2 w2] Hon].
  rewrite Hon. cbn [bind]. cbv beta iota zeta.
  destruct (negb (is_ok e2)); [eauto|].
  destruct (pn5180_write_register_internal_total fuel dev
              PN5180_REG_IRQ_STATUS 255 w2 Hfuel) as [[e3 w3] Hclear].
  rewrite Hclear. cbn [bind]. cbv beta iota zeta.
  match goal with
  | |- context [pn5180_write_register_internal fuel dev
                  PN5180_REG_IRQ_ENABLE ?m w3] =>
      destruct (pn5180_write_register_internal_total fuel dev
                  PN5180_REG_IRQ_ENABLE m w3 Hfuel) as [[e4 w4] Henable];
        rewrite Henable
  end.
  cbn [bind]. cbv beta iota zeta. destruct (negb (is_ok e4)); eauto.
Qed.

(** X22.  The configuring step returns for every behaviour of the
    hardware and ends in Scanning, at protocol index 0 and with the
    scan delay starting at the tick of its end, or in Error with the
    rest of the handle as it was.  On a ready bus it ends in Scanning
    after four operations on the wire: the read of the RF control
    register, its write-back with bit 7 (field on) set and the other
    bits as read, the write of [0xFF] to the IRQ status register that
    clears the flags, and the write of [0x1E] to the IRQ enable
    register. *)
Theorem configuring_step (fuel : nat) (dev : pn5180_dev_t) (w : world) :
  CONFIG_PN5180_BUSY_TIMEOUT_MS + 1 < Z.of_nat (S fuel) ->
  exists dev' w',
    pn5180_state_configuring (S fuel) dev w = Some (dev', w') /\
    (dev' = set_last_scan_time
              (set_current_protocol_index
                 (set_state dev DEVICE_STATE_SCANNING) 0)
              (pn5180_get_tick_ms w') \/
     dev' = set_state dev DEVICE_STATE_ERROR) /\
    (spi_device dev <> 0 -> bus_ready w ->
     state dev' = DEVICE_STATE_SCANNING /\
     exists rx1 rx rx2 rx3 rx4 b3 b2 b1 b0,
       trace w'
       = [Spi (SpiTx [0x81; 0; 0; 0; 0x1E]) ESP_OK rx4;
          Spi (SpiTx [0x82; 0; 0; 0; 0xFF]) ESP_OK rx3;
          Spi (SpiTx [0x85; b3; b2; b1; b0]) ESP_OK rx2;
          Spi (SpiRx 4) ESP_OK rx;
          Spi (SpiTx [0x05]) ESP_OK rx1] ++ trace w /\
       0 <= b3 < 256 /\ 0 <= b2 < 256 /\ 0 <= b1 < 256 /\ 0 <= b0 < 256 /\
       be32 b3 b2 b1 b0 = Z.setbit (register_value rx) 7).
Proof.
  intros Hfuel. unfold pn5180_state_configuring.
  destruct (configure_for_scanning_total (S fuel) dev w Hfuel)
    as [[e w'] Hrun].
  rewrite Hrun. cbn [bind]. cbv beta iota zeta.
  assert (Hready :
            spi_device dev <> 0 -> bus_ready w ->
            e = PN5180_OK /\
            exists rx1 rx rx2 rx3 rx4 b3 b2 b1 b0,
              trace w'
              = [Spi (SpiTx [0x81; 0; 0; 0; 0x1E]) ESP_OK rx4;
                 Spi (SpiTx [0x82; 0; 0; 0; 0xFF]) ESP_OK rx3;
                 Spi (SpiTx [0x85; b3; b2; b1; b0]) ESP_OK rx2;
                 Spi (SpiRx 4) ESP_OK rx;
                 Spi (SpiTx [0x05]) ESP_OK rx1] ++ trace w /\
              0 <= b3 < 256 /\ 0 <= b2 < 256 /\ 0 <= b1 < 256 /\
              0 <= b0 < 256 /\
              be32 b3 b2 b1 b0 = Z.setbit (register_value rx) 7).
  { intros Hdev Hbus. unfold pn5180_configure_for_scanning in Hrun.
    destruct (read_register_ready fuel dev PN5180_REG_RF_CONTROL w Hdev Hbus)
      as (rx1 & rx & Hread & Hv).
    rewrite Hread in Hrun. cbn [bind is_ok negb] in Hrun.
    cbv beta iota zeta in Hrun.
    set (v := register_value rx) in *.
    destruct (field_on_value v Hv) as [Hset Hrange].
    rewrite Hset in Hrun.
    match type of Hrun with
    | context [pn5180_write_register_internal (S fuel) dev
                 PN5180_REG_RF_CONTROL (Z.setbit v 7) ?w1] =>
        destruct (write_register_ready fuel dev PN5180_REG_RF_CONTROL
                    (Z.setbit v 7) w1 Hdev Hbus) as [rx2 Hon]
    end.
    rewrite Hon in Hrun. cbn [bind is_ok negb] in Hrun.
    cbv beta iota zeta in Hrun.
    match type of Hrun with
    | context [pn5180_write_register_internal (S fuel) dev
                 PN5180_REG_IRQ_STATUS 255 ?w2] =>
        destruct (write_register_ready fuel dev PN5180_REG_IRQ_STATUS
                    255 w2 Hdev Hbus) as [rx3 Hclear]
    end.
    rewrite Hclear in Hrun. cbn [bind] in Hrun. cbv beta iota zeta in Hrun.
    match type of Hrun with
    | context [pn5180_write_register_internal (S fuel) dev
                 PN5180_REG_IRQ_ENABLE ?m ?w3] =>
        destruct (write_register_ready fuel dev PN5180_REG_IRQ_ENABLE
                    m w3 Hdev Hbus) as [rx4 Henable]
    end.
    rewrite Henable in Hrun. cbn [bind is_ok negb] in Hrun.
    inversion Hrun as [[He Hw']]. split; [reflexivity|].
    destruct (value_bytes (Z.setbit v 7) Hrange)
      as (Hb3 & Hb2 & Hb1 & Hb0 & Hbe).
    exists rx1, rx, rx2, rx3, rx4.
    exists ((Z.setbit v 7 / 2^24) mod 2^8), ((Z.setbit v 7 / 2^16) mod 2^8),
      ((Z.setbit v 7 / 2^8) mod 2^8), (Z.setbit v 7 mod 2^8).
    split; [reflexivity | auto]. }
  destruct (is_ok e) eqn:Hok; cbn [negb].
  - do 2 eexists. split; [reflexivity|]. split; [left; reflexivity|].
    intros Hdev Hbus. destruct (Hready Hdev Hbus) as [_ Hwire].
    split; [reflexivity | exact Hwire].
  - do 2 eexists. split; [reflexivity|]. split; [right; reflexivity|].
    intros Hdev Hbus. destruct (Hready Hdev Hbus) as [He _].
    subst e. discriminate Hok.
Qed.

Lemma configuring_step_witness :
  exists dev' w' b0,
    pn5180_state_configuring 102 example_dev
      (example_world_replying 40 [0; 0; 0; 0x03]) = Some (dev', w') /\
    state dev' = DEVICE_STATE_SCANNING /\
    sent (trace w')
    = [[0x05]; [0x85; 0; 0; 0; b0]; [0x82; 0; 0; 0; 0xFF];
       [0x81; 0; 0; 0; 0x1E]] /\
    b0 = 0x83.
Proof.
  assert (Hfuel : CONFIG_PN5180_BUSY_TIMEOUT_MS + 1 < Z.of_nat 102)
    by (vm_compute; reflexivity).
  assert (Hdev : spi_device example_dev <> 0) by discriminate.
  assert (Hready : bus_ready (example_world_replying 40 [0; 0; 0; 0x03])).
  { repeat split. }
  destruct (configuring_step 101 example_dev
              (example_world_replying 40 [0; 0; 0; 0x03]) Hfuel)
    as (dev' & w' & Hrun & _ & Hwire).
  destruct (Hwire Hdev Hready)
    as (Hstate & rx1 & rx & rx2 & rx3 & rx4 & b3 & b2 & b1 & b0 & Htrace & _).
  exists dev', w', b0. split; [exact Hrun|]. split; [exact Hstate|].
  vm_compute in Hrun. inversion Hrun as [[Hd Hw']].
  rewrite <- Hw' in Htrace. cbn [trace app] in Htrace.
  inversion Htrace. subst. split; reflexivity.
Defined.

Lemma enter_sleep_mode_total (fuel : nat) (dev : pn5180_dev_t) (w : world) :
  CONFIG_PN5180_BUSY_TIMEOUT_MS + 1 < Z.of_nat fuel ->
  exists e dev' w',
    pn5180_enter_sleep_mode fuel dev w = Some (e, dev', w') /\
    (e = PN5180_OK -> dev' = set_state dev DEVICE_STATE_SLEEP) /\
    (e <> PN5180_OK -> dev' = dev).
Proof.
  intros Hfuel. unfold pn5180_enter_sleep_mode.
  destruct (pn5180_read_register_internal_total fuel dev
              PN5180_REG_RF_CONTROL w Hfuel) as [[[e v] w1] Hread].
  rewrite Hread. cbn [bind]. cbv beta iota zeta.
  destruct (is_ok e) eqn:Hok; cbn [negb].
  2:{ do 3 eexists. split; [reflexivity|].
      split; [intros ->; discriminate Hok | reflexivity]. }
  assert (Hoff : exists e2 w2,
             (if negb (Z.land v PN5180_RF_CONTROL_FIELD_ON =? 0)
              then pn5180_write_register_internal fuel dev
                     PN5180_REG_RF_CONTROL
                     (Z.land v (Z.lnot PN5180_RF_CONTROL_FIELD_ON)) w1
              else Some (PN5180_OK, w1)) = Some (e2, w2)).
  { destruct (negb (Z.land v PN5180_RF_CONTROL_FIELD_ON =? 0)); [|eauto].
    destruct (pn5180_write_register_internal_total fuel dev
                PN5180_REG_RF_CONTROL
                (Z.land v (Z.lnot PN5180_RF_CONTROL_FIELD_ON)) w1 Hfuel)
      as [[e2 w2] Hwrite].
    eauto. }
  destruct Hoff as (e2 & w2 & Hoff). rewrite Hoff. cbn [bind].
  cbv beta iota zeta.
  destruct (is_ok e2) eqn:Hok2; cbn [negb].
  2:{ do 3 eexists. split; [reflexivity|].
      split; [intros ->; discriminate Hok2 | reflexivity]. }
  destruct (pn5180_write_register_internal_total fuel dev
              PN5180_REG_SYSTEM_CONFIG PN5180_SYSTEM_CONFIG_POWER_DOWN w2
              Hfuel) as [[e3 w3] Hdown].
  rewrite Hdown. cbn [bind]. cbv beta iota zeta.
  destruct (is_ok e3) eqn:Hok3; cbn [negb].
  - do 3 eexists. split; [reflexivity|].
    split; [reflexivity | intros Hne; contradiction].
  - do 3 eexists. split; [reflexivity|].
    split; [intros ->; discriminate Hok3 | reflexivity].
Qed.

(** X23.  The sleep and the reset command return for every behaviour of
    the hardware, and they change the handle on success only: after
    [PN5180_OK] the state is Sleep, or Resetting with the state
    timestamp at the tick of the return; after any other result the
    handle is exactly as it was, so a failed command leaves the state
    machine where it is. *)
Theorem lifecycle_commands_change_state_on_success_only
  (fuel : nat) (dev : pn5180_dev_t) (w : world) :
  CONFIG_PN5180_BUSY_TIMEOUT_MS + 1 < Z.of_nat fuel ->
  (exists e dev' w',
     pn5180_cmd_sleep fuel dev w = Some (e, dev', w') /\
     (e = PN5180_OK -> dev' = set_state dev DEVICE_STATE_SLEEP) /\
     (e <> PN5180_OK -> dev' = dev)) /\
  (exists e dev' w',
     pn5180_cmd_reset fuel dev w = Some (e, dev', w') /\
     (e = PN5180_OK ->
      dev' = set_state_timestamp (set_state dev DEVICE_STATE_RESETTING)
               (pn5180_get_tick_ms w')) /\
     (e <> PN5180_OK -> dev' = dev)).
Proof.
  intros Hfuel. split.
  - unfold pn5180_cmd_sleep.
    destruct (enter_sleep_mode_total fuel dev w Hfuel)
      as (e & dev' & w' & Hrun & Hok & Hfail).
    rewrite Hrun. cbn [bind]. cbv beta iota zeta.
    destruct (is_ok e) eqn:He.
    + apply is_ok_true in He. subst e. rewrite (Hok eq_refl).
      do 3 eexists. split; [reflexivity|].
      split; [reflexivity | intros Hne; contradiction].
    + do 3 eexists. split; [reflexivity|].
      split; [intros ->; discriminate He | exact Hfail].
  - unfold pn5180_cmd_reset.
    destruct (pn5180_write_register_internal_total fuel dev
                PN5180_REG_SYSTEM_CONFIG PN5180_SYSTEM_CONFIG_RESET w Hfuel)
      as [[e w'] Hwrite].
    rewrite Hwrite. cbn [bind]. cbv beta iota zeta.
    destruct (is_ok e) eqn:He; cbn [negb].
    + do 3 eexists. split; [reflexivity|].
      split; [reflexivity | intros Hne; contradiction].
    + do 3 eexists. split; [reflexivity|].
      split; [intros ->; discriminate He | reflexivity].
Qed.

Lemma lifecycle_commands_change_state_on_success_only_witness :
  exists e w',
    pn5180_cmd_sleep 102 example_dev (example_world 0 true)
    = Some (e, example_dev, w') /\
    e <> PN5180_OK.
Proof.
  assert (Hfuel : CONFIG_PN5180_BUSY_TIMEOUT_MS + 1 < Z.of_nat 102)
    by (vm_compute; reflexivity).
  destruct (lifecycle_commands_change_state_on_success_only 102 example_dev
              (example_world 0 true) Hfuel)
    as [(e & dev' & w' & Hrun & _ & Hfail) _].
  assert (He : e <> PN5180_OK).
  { vm_compute in Hrun. inversion Hrun. discriminate. }
  exists e, w'. rewrite (Hfail He) in Hrun. split; [exact Hrun | exact He].
Defined.

Lemma field_on_test (v : Z) :
  negb (Z.land v PN5180_RF_CONTROL_FIELD_ON =? 0) = Z.testbit v 7.
Proof.
  destruct (Z.testbit v 7) eqn:Hbit.
  - apply negb_true_iff, Z.eqb_neq. intros Hzero.
    assert (Hcontra : Z.testbit (Z.land v PN5180_RF_CONTROL_FIELD_ON) 7
                      = true).
    { rewrite Z.land_spec, Hbit. reflexivity. }
    rewrite Hzero in Hcontra. discriminate Hcontra.
  - apply negb_false_iff, Z.eqb_eq.
    apply (land_bit_clear v 7); [lia | exact Hbit].
Qed.

(** X24.  On a ready bus the sleep command succeeds, and the power-down
    write to the system configuration register, [0x80 00 00 00 02], is
    the last thing on the wire.  Before it the RF control register is
    read, and when the value read has bit 7 set (field on) it is written
    back with that bit cleared; when the field is off already the
    register is not written. *)
Theorem sleep_powers_down_after_field_off
  (fuel : nat) (dev : pn5180_dev_t) (w : world) :
  spi_device dev <> 0 -> bus_ready w ->
  exists w' rx1 rx added,
    pn5180_cmd_sleep (S fuel) dev w
    = Some (PN5180_OK, set_state dev DEVICE_STATE_SLEEP, w') /\
    trace w'
    = added ++ [Spi (SpiRx 4) ESP_OK rx; Spi (SpiTx [0x05]) ESP_OK rx1]
      ++ trace w /\
    sent added
    = (if Z.testbit (register_value rx) 7
       then [write_frame PN5180_REG_RF_CONTROL
               (Z.clearbit (register_value rx) 7)]
       else [])
      ++ [[0x80; 0; 0; 0; 0x02]].
Proof.
  intros Hdev Hbus. unfold pn5180_cmd_sleep, pn5180_enter_sleep_mode.
  destruct (read_register_ready fuel dev PN5180_REG_RF_CONTROL w Hdev Hbus)
    as (rx1 & rx & Hread & Hv).
  rewrite Hread. cbn [bind is_ok negb]. cbv beta iota zeta.
  rewrite field_on_test.
  destruct (field_off_value (register_value rx) Hv) as [Hclear Hrange].
  rewrite Hclear.
  destruct (Z.testbit (register_value rx) 7) eqn:Hbit.
  - match goal with
    | |- context [pn5180_write_register_internal (S fuel) dev
                    PN5180_REG_RF_CONTROL (Z.clearbit (register_value rx) 7) ?w1] =>
        destruct (write_register_ready fuel dev PN5180_REG_RF_CONTROL
                    (Z.clearbit (register_value rx) 7) w1 Hdev Hbus)
          as [rx2 Hoff]
    end.
    rewrite Hoff. cbn [bind is_ok negb]. cbv beta iota zeta.
    match goal with
    | |- context [pn5180_write_register_internal (S fuel) dev
                    PN5180_REG_SYSTEM_CONFIG ?m ?w2] =>
        destruct (write_register_ready fuel dev PN5180_REG_SYSTEM_CONFIG
                    m w2 Hdev Hbus) as [rx3 Hdown]
    end.
    rewrite Hdown. cbn [bind is_ok negb]. cbv beta iota zeta.
    eexists. exists rx1, rx. eexists [_; _]. rewrite Hbit.
    split; [reflexivity|]. split; reflexivity.
  - cbn [bind is_ok negb]. cbv beta iota zeta.
    match goal with
    | |- context [pn5180_write_register_internal (S fuel) dev
                    PN5180_REG_SYSTEM_CONFIG ?m ?w2] =>
        destruct (write_register_ready fuel dev PN5180_REG_SYSTEM_CONFIG
                    m w2 Hdev Hbus) as [rx3 Hdown]
    end.
    rewrite Hdown. cbn [bind is_ok negb]. cbv beta iota zeta.
    eexists. exists rx1, rx. eexists [_]. rewrite Hbit.
    split; [reflexivity|]. split; reflexivity.
Qed.

Lemma sleep_powers_down_after_field_off_witness :
  exists w' added,
    pn5180_cmd_sleep 1 example_dev (example_world_replying 0 [0; 0; 0; 0x83])
    = Some (PN5180_OK, set_state example_dev DEVICE_STATE_SLEEP, w') /\
    sent added = [[0x85; 0; 0; 0; 0x03]; [0x80; 0; 0; 0; 0x02]].
Proof.
  assert (Hdev : spi_device example_dev <> 0) by discriminate.
  assert (Hready : bus_ready (example_world_replying 0 [0; 0; 0; 0x83])).
  { repeat split. }
  destruct (sleep_powers_down_after_field_off 0 example_dev
              (example_world_replying 0 [0; 0; 0; 0x83]) Hdev Hready)
    as (w' & rx1 & rx & added & Hrun & Htrace & Hsent).
  exists w', added. split; [exact Hrun|].
  vm_compute in Hrun. inversion Hrun as [Hw'].
  rewrite <- Hw' in Htrace. cbn [trace] in Htrace.
  assert (Hrx : rx = [0; 0; 0; 0x83]).
  { apply (f_equal (fun l => nth 1 (rev l) (EspLog 0 ""))) in Htrace.
    rewrite rev_app_distr in Htrace. cbn in Htrace.
    inversion Htrace. reflexivity. }
  rewrite Hrx in Hsent. exact Hsent.
Defined.

(** *** Error texts *)

(** X25.  [pn5180_error_to_string] names every error code of
    [pn5180_error_t] with a text of its own: two codes never share a
    text, none of them is given as [Unknown error], and every integer
    that is no code of the enumeration is. *)
Theorem error_texts_are_distinct :
  (forall e1 e2,
     pn5180_error_to_string (error_code e1)
     = pn5180_error_to_string (error_code e2) -> e1 = e2) /\
  (forall e, pn5180_error_to_string (error_code e) <> "Unknown error"%string)
  /\
  (forall c, (forall e, error_code e <> c) ->
             pn5180_error_to_string c = "Unknown error"%string).
Proof.
  split; [|split].
  - intros e1 e2 Heq.
    destruct e1; destruct e2; try reflexivity; discriminate Heq.
  - intros e. destruct e; discriminate.
  - intros c Hnone.
    destruct c as [|p|p]; [exfalso; apply (Hnone PN5180_OK); reflexivity
                          |reflexivity|].
    destruct p as [[[[p|p|]|[p|p|]|]|[[p|p|]|[p|p|]|]|]
                  |[[[p|p|]|[p|p|]|]|[[p|p|]|[p|p|]|]|]|];
      try reflexivity; exfalso;
      first
        [ apply (Hnone PN5180_ERR_INVALID_ARG); reflexivity
        | apply (Hnone PN5180_ERR_TIMEOUT); reflexivity
        | apply (Hnone PN5180_ERR_CRC); reflexivity
        | apply (Hnone PN5180_ERR_AUTH); reflexivity
        | apply (Hnone PN5180_ERR_PROTOCOL); reflexivity
        | apply (Hnone PN5180_ERR_BUFFER); reflexivity
        | apply (Hnone PN5180_ERR_SPI); reflexivity
        | apply (Hnone PN5180_ERR_NO_TAG); reflexivity
        | apply (Hnone PN5180_ERR_MULTIPLE_TAGS); reflexivity
        | apply (Hnone PN5180_ERR_HARDWARE); reflexivity
        | apply (Hnone PN5180_ERR_NOT_INIT); reflexivity
        | apply (Hnone PN5180_ERR_BUSY); reflexivity
        | apply (Hnone PN5180_ERR_RF_FIELD); reflexivity
        | apply (Hnone PN5180_ERR_EEPROM); reflexivity
        | apply (Hnone PN5180_ERR_UNSUPPORTED); reflexivity ].
Qed.

Lemma error_texts_are_distinct_witness :
  PN5180_ERR_TIMEOUT = PN5180_ERR_TIMEOUT /\
  pn5180_error_to_string 7 = "Unknown error"%string.
Proof.
  destruct error_texts_are_distinct as (Hinj & _ & Hunknown).
  split.
  - apply Hinj. reflexivity.
  - apply Hunknown. intros e. destruct e; discriminate.
Defined.

(** *** The transmit buffer and the detect command *)

Lemma write_frame_byte (reg v : Z) :
  0 <= v < 256 -> write_frame reg v = [128 + reg mod 128; 0; 0; 0; v].
Proof.
  intros Hv. unfold write_frame.
  change (2^24) with 16777216. change (2^16) with 65536.
  change (2^8) with 256.
  rewrite !Z.div_small by lia. rewrite (Z.mod_small v) by lia.
  reflexivity.
Qed.

Lemma write_tx_buffer_ready
  (fuel : nat) (dev : pn5180_dev_t) (data : list Z) (len : Z) (w : world) :
  bus_ready w ->
  spi_device dev <> 0 ->
  0 < len <= CONFIG_PN5180_TX_BUFFER_SIZE ->
  (18 <= fuel)%nat ->
  exists w' added chunks lsb msb,
    pn5180_write_tx_buffer_with_length fuel dev data len w
    = Some (PN5180_OK, set_tx_length dev len, w') /\
    bus_ready w' /\
    trace w' = added ++ trace w /\
    sent added
    = ([0xC0; 0; 0; 0; 0] :: chunks)
      ++ [[0xC2; 0; 0; 0; lsb]; [0xC3; 0; 0; 0; msb]] /\
    List.concat chunks = firstn (Z.to_nat len) data /\
    Z.of_nat (List.length chunks) = (len + 63) / 64 /\
    0 <= lsb < 256 /\ 0 <= msb < 256 /\ lsb + 256 * msb = len.
Proof.
  intros Hready Hdev Hlen Hfuel.
  destruct fuel as [|fuel]; [lia|].
  unfold pn5180_write_tx_buffer_with_length.
  destruct (write_buffer_ready (S fuel) dev data len w Hready Hdev Hlen Hfuel)
    as (w1 & added & chunks & Hrun & Hready1 & Htrace & Hsent & Hcat & _
        & Hsize).
  rewrite Hrun. cbn [bind is_ok negb]. cbv beta iota zeta.
  unfold CONFIG_PN5180_TX_BUFFER_SIZE in Hlen.
  assert (Hlsb : Z.land len 255 = len mod 256).
  { change 255 with (Z.ones 8). rewrite Z.land_ones by lia. reflexivity. }
  assert (Hmsb : Z.land (Z.shiftr len 8) 255 = len / 256).
  { rewrite byte_of_shift by lia. change (2^8) with 256.
    apply Z.mod_small. Z.to_euclidean_division_equations. lia. }
  rewrite Hlsb, Hmsb.
  destruct (write_register_ready fuel (set_tx_length dev len)
              PN5180_REG_TX_LENGTH_LSB (len mod 256) w1 Hdev Hready1)
    as [rx2 Hwrite2].
  rewrite Hwrite2. cbn [bind is_ok negb]. cbv beta iota zeta.
  destruct (write_register_ready fuel (set_tx_length dev len)
              PN5180_REG_TX_LENGTH_MSB (len / 256)
              (emit (Spi (SpiTx (write_frame PN5180_REG_TX_LENGTH_LSB
                                   (len mod 256))) ESP_OK rx2) w1)
              Hdev (bus_ready_emit _ w1 Hready1))
    as [rx3 Hwrite3].
  rewrite Hwrite3. cbn [bind is_ok negb]. cbv beta iota zeta.
  rewrite !write_frame_byte by (Z.to_euclidean_division_equations; lia).
  eexists. eexists (_ :: _ :: added). exists chunks, (len mod 256), (len / 256).
  split; [reflexivity|].
  split; [do 2 apply bus_ready_emit; exact Hready1|].
  split; [cbn [emit trace]; rewrite Htrace; reflexivity|].
  split.
  { change (?a :: ?b :: added) with ([a; b] ++ added).
    rewrite sent_app, Hsent. reflexivity. }
  split; [exact Hcat|]. split; [exact Hsize|].
  Z.to_euclidean_division_equations. lia.
Qed.

(** X27.  On a ready bus [pn5180_write_tx_buffer_with_length] puts the
    payload into the TX buffer (pointer write, then the chunks, which
    together are the first [length] bytes of the data) and then writes
    the length into the two TX length registers, low byte to [0x42] and
    high byte to [0x43]: the two bytes written are bytes, and the low
    one plus 256 times the high one is the length. *)
Theorem tx_length_registers_hold_the_length
  (fuel : nat) (dev : pn5180_dev_t) (data : list Z) (len : Z) (w : world) :
  bus_ready w ->
  spi_device dev <> 0 ->
  0 < len <= CONFIG_PN5180_TX_BUFFER_SIZE ->
  (18 <= fuel)%nat ->
  exists w' added chunks lsb msb,
    pn5180_write_tx_buffer_with_length fuel dev data len w
    = Some (PN5180_OK, set_tx_length dev len, w') /\
    trace w' = added ++ trace w /\
    sent added
    = ([0xC0; 0; 0; 0; 0] :: chunks)
      ++ [[0xC2; 0; 0; 0; lsb]; [0xC3; 0; 0; 0; msb]] /\
    List.concat chunks = firstn (Z.to_nat len) data /\
    0 <= lsb < 256 /\ 0 <= msb < 256 /\ lsb + 256 * msb = len.
Proof.
  intros Hready Hdev Hlen Hfuel.
  destruct (write_tx_buffer_ready fuel dev data len w Hready Hdev Hlen Hfuel)
    as (w' & added & chunks & lsb & msb & Hrun & _ & Htrace & Hsent & Hcat
        & _ & Hbytes).
  exists w', added, chunks, lsb, msb. auto.
Qed.

Lemma tx_length_registers_hold_the_length_witness :
  exists w' added chunks lsb msb,
    pn5180_write_tx_buffer_with_length 18 example_dev (repeat 0x5A 300) 300
      (example_world 0 false)
    = Some (PN5180_OK, set_tx_length example_dev 300, w') /\
    trace w' = added ++ [] /\
    sent added
    = ([0xC0; 0; 0; 0; 0] :: chunks)
      ++ [[0xC2; 0; 0; 0; lsb]; [0xC3; 0; 0; 0; msb]] /\
    lsb + 256 * msb = 300.
Proof.
  assert (Hdev : spi_device example_dev <> 0) by discriminate.
  assert (Hlen : 0 < 300 <= CONFIG_PN5180_TX_BUFFER_SIZE)
    by (unfold CONFIG_PN5180_TX_BUFFER_SIZE; lia).
  destruct (tx_length_registers_hold_the_length 18 example_dev
              (repeat 0x5A 300) 300 (example_world 0 false)
              (example_world_ready 0) Hdev Hlen (le_n 18))
    as (w' & added & chunks & lsb & msb & Hrun & Htrace & Hsent & _ & _ & _
        & Hsum).
  exists w', added, chunks, lsb, msb. auto.
Defined.

(** X28.  The detect command on a ready bus.  For ISO 14443-A the
    scanner puts the one byte [0x26] (REQA) into the TX buffer, for
    ISO 15693 the two bytes [0x26 0x01] (inventory), sets the TX length
    registers to 1 or 2, and clears the TX_DONE flag by writing [0x02]
    to the IRQ status register; these five frames are all it sends, and
    the result is [PN5180_OK] with the TX length stored in the handle.
    For every other protocol it sends nothing and returns
    [PN5180_ERR_UNSUPPORTED]. *)
Theorem detect_command_on_the_wire
  (fuel : nat) (dev : pn5180_dev_t) (protocol : Z) (w : world) :
  bus_ready w ->
  spi_device dev <> 0 ->
  (18 <= fuel)%nat ->
  (protocol <> PN5180_PROTOCOL_ISO14443A ->
   protocol <> PN5180_PROTOCOL_ISO15693 ->
   pn5180_send_detect_command fuel dev protocol w
   = Some (PN5180_ERR_UNSUPPORTED, dev, w)) /\
  ((protocol = PN5180_PROTOCOL_ISO14443A \/
    protocol = PN5180_PROTOCOL_ISO15693) ->
   exists w' added,
     pn5180_send_detect_command fuel dev protocol w
     = Some (PN5180_OK,
             set_tx_length dev
               (if protocol =? PN5180_PROTOCOL_ISO14443A then 1 else 2),
             w') /\
     trace w' = added ++ trace w /\
     sent added
     = [[0xC0; 0; 0; 0; 0];
        (if protocol =? PN5180_PROTOCOL_ISO14443A then [0x26]
         else [0x26; 0x01]);
        [0xC2; 0; 0; 0;
         if protocol =? PN5180_PROTOCOL_ISO14443A then 1 else 2];
        [0xC3; 0; 0; 0; 0];
        [0x82; 0; 0; 0; 0x02]]).
Proof.
  intros Hready Hdev Hfuel. split.
  - intros Ha Hv. unfold pn5180_send_detect_command.
    apply Z.eqb_neq in Ha, Hv. rewrite Ha, Hv. reflexivity.
  - intros Hprotocol.
    assert (Hrun : forall cmd len,
               0 < len <= 2 -> len = Z.of_nat (List.length cmd) ->
               exists w' added,
                 ('(err, dev1, w1) <-
                    pn5180_write_tx_buffer_with_length fuel dev cmd len w ;;
                  if negb (is_ok err) then Some (err, dev1, w1) else
                  '(err, w1) <-
                    pn5180_write_register_internal fuel dev1
                      PN5180_REG_IRQ_STATUS PN5180_IRQ_STATUS_TX_DONE w1 ;;
                  if negb (is_ok err) then Some (err, dev1, w1) else
                  Some (PN5180_OK, dev1, w1))
                 = Some (PN5180_OK, set_tx_length dev len, w') /\
                 trace w' = added ++ trace w /\
                 sent added
                 = [[0xC0; 0; 0; 0; 0]; cmd; [0xC2; 0; 0; 0; len];
                    [0xC3; 0; 0; 0; 0]; [0x82; 0; 0; 0; 0x02]]).
    { intros cmd len Hlen Hcmd.
      assert (Hsize : 0 < len <= CONFIG_PN5180_TX_BUFFER_SIZE)
        by (unfold CONFIG_PN5180_TX_BUFFER_SIZE; lia).
      destruct (write_tx_buffer_ready fuel dev cmd len w Hready Hdev Hsize
                  Hfuel)
        as (w1 & added & chunks & lsb & msb & Htx & Hready1 & Htrace & Hsent
            & Hcat & Hchunk & Hlsb & Hmsb & Hsum).
      rewrite Htx. cbn [bind is_ok negb]. cbv beta iota zeta.
      destruct fuel as [|fuel]; [lia|].
      destruct (write_register_ready fuel (set_tx_length dev len)
                  PN5180_REG_IRQ_STATUS PN5180_IRQ_STATUS_TX_DONE w1 Hdev
                  Hready1) as [rx Hclear].
      rewrite Hclear. cbn [bind is_ok negb]. cbv beta iota zeta.
      eexists. eexists (_ :: added). split; [reflexivity|].
      split; [cbn [emit trace]; rewrite Htrace; reflexivity|].
      change (?a :: added) with ([a] ++ added).
      rewrite sent_app, Hsent.
      assert (Hmsb0 : msb = 0) by lia.
      assert (Hlsb0 : lsb = len) by lia.
      subst msb lsb.
      assert (Hchunks : chunks = [cmd]).
      { rewrite firstn_all2 in Hcat by lia.
        assert (Hone : (len + 63) / 64 = 1)
          by (Z.to_euclidean_division_equations; lia).
        rewrite Hone in Hchunk.
        destruct chunks as [|c1 [|c2 rest]]; cbn [List.length] in Hchunk;
          try lia.
        cbn in Hcat. rewrite app_nil_r in Hcat. subst c1. reflexivity. }
      rewrite Hchunks. reflexivity. }
    unfold pn5180_send_detect_command.
    destruct Hprotocol as [-> | ->]; cbn [Z.eqb PN5180_PROTOCOL_ISO14443A
      PN5180_PROTOCOL_ISO15693]; cbv beta iota zeta.
    + apply (Hrun detect_cmd_iso14443a 1); [lia | reflexivity].
    + apply (Hrun detect_cmd_iso15693 2); [lia | reflexivity].
Qed.

Lemma detect_command_on_the_wire_witness :
  exists w' added,
    pn5180_send_detect_command 18 example_dev PN5180_PROTOCOL_ISO15693
      (example_world 0 false)
    = Some (PN5180_OK, set_tx_length example_dev 2, w') /\
    trace w' = added ++ [] /\
    sent added
    = [[0xC0; 0; 0; 0; 0]; [0x26; 0x01]; [0xC2; 0; 0; 0; 2];
       [0xC3; 0; 0; 0; 0]; [0x82; 0; 0; 0; 0x02]].
Proof.
  assert (Hdev : spi_device example_dev <> 0) by discriminate.
  destruct (detect_command_on_the_wire 18 example_dev
              PN5180_PROTOCOL_ISO15693 (example_world 0 false)
              (example_world_ready 0) Hdev (le_n 18)) as [_ Hsend].
  destruct (Hsend (or_intror eq_refl)) as (w' & added & Hrun & Htrace & Hsent).
  exists w', added. auto.
Defined.

End StateMachineExtras.
